(** * LifeQuest progression engine (src/App.js)

    A shallow embedding of the state transitions of the [App] component:
    the player-stats ledger and its updaters ([addXp], [deductXp],
    [addGold], [deductGold], [updateSatisfaction]), the achievement scan
    ([checkAchievements]), the daily gates ([checkDailyStreak],
    [handleClaimDailyReward]), the reward shop ([handleBuyReward]) and the
    objective/subtask handlers ([handleCompleteObjective],
    [handleToggleSubtaskComplete]).

    Modelling conventions.
    - JavaScript numbers that hold counters, amounts and millisecond
      timestamps are integers [Z]; [Math.floor (x * 1.5)] on an integer is
      [(3 * x) / 2] with floor division.
    - The component state ([objectives], [subtasks], [playerStats]) and
      the Firestore subtask documents form one record [World].  A handler
      runs against a settled render: the state its closure captured is the
      state the queued [setPlayerStats] updaters start from, and snapshot
      listeners have delivered every earlier write.
    - [setPlayerStats (prev => ...)] is an update of the [playerStats]
      field; a [checkAchievements] call issued from inside an updater is a
      queued update, applied after the updater that issued it.
    - The [while] loop of [addXp] has no bound in the source; it is run
      with fuel, and [addXp_None_diverges] shows that the fuel chosen
      runs out only where the loop of the source never ends.
    - The wall clock is an argument: [now] (milliseconds), [today] and
      [yesterdayString] (ISO calendar days, as [toISOString] prints them).
    - Firestore writes succeed; [ready] stands for [db && userId].
    - Sounds and the toasts of nested updaters are left out, and so is
      the persistence of the ledger ([updatePlayerStats]) with the
      snapshot that echoes it back: the model follows the local state
      between snapshots.  The message a handler itself shows is its
      [Message] result. *)

From Stdlib Require Import ZArith List String Bool Lia Sorted.
Import ListNotations.
Open Scope string_scope.
Open Scope list_scope.
Open Scope Z_scope.

(** ** Data model *)

(** One sample of [satisfactionHistory]. *)
Record SatEntry := { date : string; value : Z }.

Record PlayerStats := {
  level : Z;
  xp : Z;
  xpToNextLevel : Z;
  gold : Z;
  vitality : Z;
  maxVitality : Z;
  currentSatisfaction : Z;
  satisfactionHistory : list SatEntry;
  lastDailyRewardClaim : option Z;
  currentStreak : Z;
  lastStreakDate : option string;
  achievements : list string;
  hasCompletedTutorial : bool;
  pomodoroCount : Z;
  dailyDesireCount : Z
}.

(** The initial [useState] value of [playerStats]. *)
Definition initialPlayerStats : PlayerStats :=
  {| level := 1; xp := 0; xpToNextLevel := 100; gold := 0;
     vitality := 100; maxVitality := 100; currentSatisfaction := 50;
     satisfactionHistory := []; lastDailyRewardClaim := None;
     currentStreak := 0; lastStreakDate := None; achievements := [];
     hasCompletedTutorial := false; pomodoroCount := 0;
     dailyDesireCount := 0 |}.

Module Objective.
Record t := {
  id : string;
  name : string;
  isCurrent : bool;
  isCompleted : bool;
  currentProgress : Z;
  totalProgress : Z;
  xpReward : Z
}.
End Objective.

Module Subtask.
Record t := {
  id : string;
  isCompleted : bool;
  xpReward : Z;
  goldReward : Z;
  progressContribution : Z
}.
End Subtask.

Module Achievement.
(** Rows of [allAchievements]; [name] and [description] are display
    text only. *)
Record t := { id : string; type : string; count : Z }.
End Achievement.

(** A value passed as the second argument of [checkAchievements]: a
    number (new level, new streak), a document id, or the default
    [null]. *)
Inductive JsValue :=
| JsNull
| JsNumber (n : Z)
| JsString (s : string).

(** The text a handler passes to [showMessage]. *)
Inductive Message :=
| MsgAppNotReady
| MsgNotYetCompleted
| MsgObjectiveCompleted (objectiveName : string) (xpGain goldGain : Z)
| MsgSubtaskCompleted (progress xpGain goldGain : Z)
| MsgSubtaskIncomplete (progress xpLoss goldLoss : Z)
| MsgNextRewardIn (hours minutes : Z)
| MsgDailyRewardClaimed (xpGain goldGain : Z)
| MsgNotEnoughGold (cost : Z)
| MsgText (text : string).

Record World := {
  ready : bool;
  objectives : list Objective.t;
  subtasks : list Subtask.t;
  subtaskDocs : list (string * Subtask.t);
  playerStats : PlayerStats
}.

(** ** Object spread: [{ ...prevStats, field: v }] *)

Definition with_leveling (newXp newLevel newXpToNextLevel : Z)
  (s : PlayerStats) : PlayerStats :=
  {| level := newLevel; xp := newXp; xpToNextLevel := newXpToNextLevel;
     gold := gold s; vitality := vitality s; maxVitality := maxVitality s;
     currentSatisfaction := currentSatisfaction s;
     satisfactionHistory := satisfactionHistory s;
     lastDailyRewardClaim := lastDailyRewardClaim s;
     currentStreak := currentStreak s; lastStreakDate := lastStreakDate s;
     achievements := achievements s;
     hasCompletedTutorial := hasCompletedTutorial s;
     pomodoroCount := pomodoroCount s;
     dailyDesireCount := dailyDesireCount s |}.

Definition with_xp (newXp : Z) (s : PlayerStats) : PlayerStats :=
  with_leveling newXp (level s) (xpToNextLevel s) s.

Definition with_gold (newGold : Z) (s : PlayerStats) : PlayerStats :=
  {| level := level s; xp := xp s; xpToNextLevel := xpToNextLevel s;
     gold := newGold; vitality := vitality s; maxVitality := maxVitality s;
     currentSatisfaction := currentSatisfaction s;
     satisfactionHistory := satisfactionHistory s;
     lastDailyRewardClaim := lastDailyRewardClaim s;
     currentStreak := currentStreak s; lastStreakDate := lastStreakDate s;
     achievements := achievements s;
     hasCompletedTutorial := hasCompletedTutorial s;
     pomodoroCount := pomodoroCount s;
     dailyDesireCount := dailyDesireCount s |}.

Definition with_vitality (newVitality newMaxVitality : Z)
  (s : PlayerStats) : PlayerStats :=
  {| level := level s; xp := xp s; xpToNextLevel := xpToNextLevel s;
     gold := gold s; vitality := newVitality; maxVitality := newMaxVitality;
     currentSatisfaction := currentSatisfaction s;
     satisfactionHistory := satisfactionHistory s;
     lastDailyRewardClaim := lastDailyRewardClaim s;
     currentStreak := currentStreak s; lastStreakDate := lastStreakDate s;
     achievements := achievements s;
     hasCompletedTutorial := hasCompletedTutorial s;
     pomodoroCount := pomodoroCount s;
     dailyDesireCount := dailyDesireCount s |}.

Definition with_satisfaction (newSatisfaction : Z) (history : list SatEntry)
  (s : PlayerStats) : PlayerStats :=
  {| level := level s; xp := xp s; xpToNextLevel := xpToNextLevel s;
     gold := gold s; vitality := vitality s; maxVitality := maxVitality s;
     currentSatisfaction := newSatisfaction;
     satisfactionHistory := history;
     lastDailyRewardClaim := lastDailyRewardClaim s;
     currentStreak := currentStreak s; lastStreakDate := lastStreakDate s;
     achievements := achievements s;
     hasCompletedTutorial := hasCompletedTutorial s;
     pomodoroCount := pomodoroCount s;
     dailyDesireCount := dailyDesireCount s |}.

Definition with_lastDailyRewardClaim (claim : option Z)
  (s : PlayerStats) : PlayerStats :=
  {| level := level s; xp := xp s; xpToNextLevel := xpToNextLevel s;
     gold := gold s; vitality := vitality s; maxVitality := maxVitality s;
     currentSatisfaction := currentSatisfaction s;
     satisfactionHistory := satisfactionHistory s;
     lastDailyRewardClaim := claim;
     currentStreak := currentStreak s; lastStreakDate := lastStreakDate s;
     achievements := achievements s;
     hasCompletedTutorial := hasCompletedTutorial s;
     pomodoroCount := pomodoroCount s;
     dailyDesireCount := dailyDesireCount s |}.

Definition with_streak (newStreak : Z) (day : option string)
  (s : PlayerStats) : PlayerStats :=
  {| level := level s; xp := xp s; xpToNextLevel := xpToNextLevel s;
     gold := gold s; vitality := vitality s; maxVitality := maxVitality s;
     currentSatisfaction := currentSatisfaction s;
     satisfactionHistory := satisfactionHistory s;
     lastDailyRewardClaim := lastDailyRewardClaim s;
     currentStreak := newStreak; lastStreakDate := day;
     achievements := achievements s;
     hasCompletedTutorial := hasCompletedTutorial s;
     pomodoroCount := pomodoroCount s;
     dailyDesireCount := dailyDesireCount s |}.

Definition with_achievements (unlocked : list string)
  (s : PlayerStats) : PlayerStats :=
  {| level := level s; xp := xp s; xpToNextLevel := xpToNextLevel s;
     gold := gold s; vitality := vitality s; maxVitality := maxVitality s;
     currentSatisfaction := currentSatisfaction s;
     satisfactionHistory := satisfactionHistory s;
     lastDailyRewardClaim := lastDailyRewardClaim s;
     currentStreak := currentStreak s; lastStreakDate := lastStreakDate s;
     achievements := unlocked;
     hasCompletedTutorial := hasCompletedTutorial s;
     pomodoroCount := pomodoroCount s;
     dailyDesireCount := dailyDesireCount s |}.

Definition with_counts (pomodoros desires : Z)
  (s : PlayerStats) : PlayerStats :=
  {| level := level s; xp := xp s; xpToNextLevel := xpToNextLevel s;
     gold := gold s; vitality := vitality s; maxVitality := maxVitality s;
     currentSatisfaction := currentSatisfaction s;
     satisfactionHistory := satisfactionHistory s;
     lastDailyRewardClaim := lastDailyRewardClaim s;
     currentStreak := currentStreak s; lastStreakDate := lastStreakDate s;
     achievements := achievements s;
     hasCompletedTutorial := hasCompletedTutorial s;
     pomodoroCount := pomodoros;
     dailyDesireCount := desires |}.

(** [setPlayerStats (prevStats => f prevStats)] *)
Definition setPlayerStats (f : PlayerStats -> PlayerStats) (w : World) : World :=
  {| ready := ready w; objectives := objectives w; subtasks := subtasks w;
     subtaskDocs := subtaskDocs w; playerStats := f (playerStats w) |}.

(** ** Achievement system *)

Definition achievement (i ty : string) (c : Z) : Achievement.t :=
  {| Achievement.id := i; Achievement.type := ty; Achievement.count := c |}.

Definition allAchievements : list Achievement.t :=
  [ achievement "firstObjective" "objectiveCompleted" 1;
    achievement "fiveObjectives" "objectiveCompleted" 5;
    achievement "level5" "levelUp" 5;
    achievement "level10" "levelUp" 10;
    achievement "firstStreak" "streak" 3;
    achievement "sevenDayStreak" "streak" 7;
    achievement "pomodoroInitiate" "pomodoroCompleted" 1;
    achievement "pomodoroMaster" "pomodoroCompleted" 10;
    achievement "firstDailyDesire" "dailyDesireCompleted" 1;
    achievement "tenDailyDesires" "dailyDesireCompleted" 10 ].

(** [array.includes(x)] on an array of strings. *)
Definition includes (l : list string) (x : string) : bool :=
  existsb (String.eqb x) l.

(** [lastStreak === day] for a nullable date string. *)
Definition sameDay (d : option string) (day : string) : bool :=
  match d with
  | Some s => String.eqb s day
  | None => false
  end.

(** Truthiness of a nullable number ([null] and [0] are falsy). *)
Definition truthy (t : option Z) : bool :=
  match t with
  | Some n => negb (n =? 0)%Z
  | None => false
  end.

Definition valueOr0 (t : option Z) : Z :=
  match t with
  | Some n => n
  | None => 0
  end.

Section Engine.

(** [s >= n] for a string [s] and a number [n]: JavaScript converts the
    string to a number first; the conversion is not part of the
    application and stays a parameter. *)
Variable str_ge_num : string -> Z -> bool.

(** [value >= achievement.count] *)
Definition value_ge (v : JsValue) (c : Z) : bool :=
  match v with
  | JsNull => 0 >=? c
  | JsNumber n => n >=? c
  | JsString s => str_ge_num s c
  end.

(** The [switch (achievement.type)] of the scan: note that it branches
    on the type of the table row, not on the [type] argument. *)
Definition isUnlocked (objs : list Objective.t) (v : JsValue)
  (statsToUpdate : PlayerStats) (a : Achievement.t) : bool :=
  let ty := Achievement.type a in
  if String.eqb ty "objectiveCompleted" then
    Z.of_nat (List.length (filter Objective.isCompleted objs))
      >=? Achievement.count a
  else if String.eqb ty "levelUp" then value_ge v (Achievement.count a)
  else if String.eqb ty "streak" then value_ge v (Achievement.count a)
  else if String.eqb ty "pomodoroCompleted" then
    pomodoroCount statsToUpdate >=? Achievement.count a
  else if String.eqb ty "dailyDesireCompleted" then
    dailyDesireCount statsToUpdate >=? Achievement.count a
  else false.

(** Body of [allAchievements.forEach]. *)
Definition scanStep (unlocked : Achievement.t -> bool)
  (updatedAchievements : list string) (a : Achievement.t) : list string :=
  if negb (includes updatedAchievements (Achievement.id a)) then
    if unlocked a then updatedAchievements ++ [Achievement.id a]
    else updatedAchievements
  else updatedAchievements.

Definition scan (unlocked : Achievement.t -> bool)
  (table : list Achievement.t) (start : list string) : list string :=
  fold_left (scanStep unlocked) table start.

(** The counter updates at the head of [checkAchievements]. *)
Definition bumpCounts (ty : string) (prevStats : PlayerStats) : PlayerStats :=
  let s1 :=
    if String.eqb ty "pomodoroCompleted"
    then with_counts (pomodoroCount prevStats + 1)
                     (dailyDesireCount prevStats) prevStats
    else prevStats in
  if String.eqb ty "dailyDesireCompleted"
  then with_counts (pomodoroCount s1) (dailyDesireCount s1 + 1) s1
  else s1.

(** The [setPlayerStats] updater of [checkAchievements(type, value)];
    [objs] is the [objectives] array the callback closed over. *)
Definition checkAchievements (objs : list Objective.t) (ty : string)
  (v : JsValue) (prevStats : PlayerStats) : PlayerStats :=
  let statsToUpdate := bumpCounts ty prevStats in
  let updatedAchievements :=
    scan (isUnlocked objs v statsToUpdate) allAchievements
         (achievements prevStats) in
  with_achievements updatedAchievements statsToUpdate.

(** ** Ledger updaters *)

(** The [while (newXp >= newXpToNextLevel)] loop of [addXp].  [reached]
    collects the levels announced to [checkAchievements].  The loop has
    no bound in the source; [None] means the iterations allowed by
    [fuel] did not reach the exit. *)
Fixpoint levelUpLoop (fuel : nat) (newXp newLevel newXpToNextLevel : Z)
  (reached : list Z) : option (Z * Z * Z * list Z) :=
  if newXp >=? newXpToNextLevel then
    match fuel with
    | O => None
    | S fuel' =>
        levelUpLoop fuel' (newXp - newXpToNextLevel) (newLevel + 1)
          (3 * newXpToNextLevel / 2) (reached ++ [newLevel + 1])
    end
  else Some (newXp, newLevel, newXpToNextLevel, reached).

(** Iterations granted to the loop of [addXp]: whenever the loop ends
    at all it ends within this many (see [addXp_None_diverges]). *)
Definition addXpFuel (prevStats : PlayerStats) (amount : Z) : nat :=
  S (Z.to_nat (xp prevStats + amount)).

Definition addXp (objs : list Objective.t) (amount : Z)
  (prevStats : PlayerStats) : option PlayerStats :=
  match levelUpLoop (addXpFuel prevStats amount) (xp prevStats + amount)
          (level prevStats) (xpToNextLevel prevStats) [] with
  | None => None
  | Some (newXp, newLevel, newXpToNextLevel, reached) =>
      let updatedStats :=
        with_leveling newXp newLevel newXpToNextLevel prevStats in
      Some (fold_left
              (fun s newLevel' =>
                 checkAchievements objs "levelUp" (JsNumber newLevel') s)
              reached updatedStats)
  end.

Definition deductXp (amount : Z) (prevStats : PlayerStats) : PlayerStats :=
  with_xp (Z.max 0 (xp prevStats - amount)) prevStats.

Definition addGold (amount : Z) (prevStats : PlayerStats) : PlayerStats :=
  with_gold (gold prevStats + amount) prevStats.

Definition deductGold (amount : Z) (prevStats : PlayerStats) : PlayerStats :=
  with_gold (Z.max 0 (gold prevStats - amount)) prevStats.

Definition addVitality (amount : Z) (prevStats : PlayerStats) : PlayerStats :=
  with_vitality (Z.min (maxVitality prevStats) (vitality prevStats + amount))
                (maxVitality prevStats) prevStats.

Definition deductVitality (amount : Z) (prevStats : PlayerStats)
  : PlayerStats :=
  with_vitality (Z.max 0 (vitality prevStats - amount))
                (maxVitality prevStats) prevStats.

(** [history.findIndex(entry => entry.date === today)]; [None] is the
    source's [-1]. *)
Fixpoint findIndex (today : string) (history : list SatEntry) : option nat :=
  match history with
  | [] => None
  | entry :: rest =>
      if String.eqb (date entry) today then Some O
      else option_map S (findIndex today rest)
  end.

(** [history.map((entry, index) => index === i ? {...entry, value: v}
    : entry)] *)
Fixpoint replaceAt (i : nat) (v : Z) (history : list SatEntry)
  {struct history} : list SatEntry :=
  match history with
  | [] => []
  | entry :: rest =>
      match i with
      | O => {| date := date entry; value := v |} :: rest
      | S i' => entry :: replaceAt i' v rest
      end
  end.

(** [array.slice(-30)] *)
Definition sliceLast30 {A} (l : list A) : list A :=
  skipn (List.length l - 30) l.

Definition updateSatisfaction (today : string) (newSatisfaction : Z)
  (prevStats : PlayerStats) : PlayerStats :=
  let clampedSatisfaction := Z.min 100 (Z.max 0 newSatisfaction) in
  let updatedHistory :=
    match findIndex today (satisfactionHistory prevStats) with
    | Some lastEntryIndex =>
        replaceAt lastEntryIndex clampedSatisfaction
                  (satisfactionHistory prevStats)
    | None =>
        satisfactionHistory prevStats
          ++ [{| date := today; value := clampedSatisfaction |}]
    end in
  with_satisfaction clampedSatisfaction (sliceLast30 updatedHistory)
                    prevStats.

(** ** Daily gates *)

(** [checkDailyStreak]; [lastStreak] is [playerStats.lastStreakDate] as
    the callback closed over it, [prevStats] the state its updater
    receives. *)
Definition checkDailyStreak (objs : list Objective.t)
  (today yesterdayString : string) (lastStreak : option string)
  (prevStats : PlayerStats) : PlayerStats :=
  if sameDay lastStreak today then prevStats
  else if sameDay lastStreak yesterdayString then
    let newStreak := currentStreak prevStats + 1 in
    let updatedStats := with_streak newStreak (Some today) prevStats in
    checkAchievements objs "streak" (JsNumber newStreak) updatedStats
  else
    let newStreak := 1 in
    let updatedStats := with_streak newStreak (Some today) prevStats in
    checkAchievements objs "streak" (JsNumber newStreak) updatedStats.

Definition twentyFourHours : Z := 24 * 60 * 60 * 1000.

(** [handleClaimDailyReward] at clock reading [now]. *)
Definition handleClaimDailyReward (now : Z) (w : World)
  : option (World * Message) :=
  let lastClaim := lastDailyRewardClaim (playerStats w) in
  if truthy lastClaim && (now - valueOr0 lastClaim <? twentyFourHours) then
    let timeLeft := twentyFourHours - (now - valueOr0 lastClaim) in
    let hours := timeLeft / (1000 * 60 * 60) in
    let minutes := Z.rem timeLeft (1000 * 60 * 60) / (1000 * 60) in
    Some (w, MsgNextRewardIn hours minutes)
  else
    let rewardXp := 25 in
    let rewardGold := 15 in
    match addXp (objectives w) rewardXp (playerStats w) with
    | None => None
    | Some s1 =>
        let s2 := addGold rewardGold s1 in
        let s3 := with_lastDailyRewardClaim (Some now) s2 in
        Some (setPlayerStats (fun _ => s3) w,
              MsgDailyRewardClaimed rewardXp rewardGold)
    end.

(** ** Reward shop *)

Definition handleBuyReward (cost : Z) (effectFn : World -> World)
  (message : string) (w : World) : World * Message :=
  if gold (playerStats w) >=? cost then
    (effectFn (setPlayerStats (deductGold cost) w), MsgText message)
  else (w, MsgNotEnoughGold cost).

(** The effects the shop buttons pass to [handleBuyReward]. *)
Definition effectAddVitality20 : World -> World :=
  setPlayerStats (addVitality 20).

Definition effectShowMessage : World -> World := fun w => w.

Definition effectRaiseMaxVitality : World -> World :=
  setPlayerStats (fun prevStats =>
    let newMaxVitality := maxVitality prevStats + 10 in
    with_vitality (Z.min (vitality prevStats) newMaxVitality)
                  newMaxVitality prevStats).

(** ** Objective and subtask store *)

Definition currentObjective (w : World) : option Objective.t :=
  find Objective.isCurrent (objectives w).

(** [updateDoc(objRef, fields)] seen through the objectives listener. *)
Definition updateObjectiveDoc (objectiveId : string)
  (f : Objective.t -> Objective.t) (l : list Objective.t)
  : list Objective.t :=
  map (fun o => if String.eqb (Objective.id o) objectiveId then f o else o) l.

Definition markCompleted (o : Objective.t) : Objective.t :=
  {| Objective.id := Objective.id o; Objective.name := Objective.name o;
     Objective.isCurrent := false; Objective.isCompleted := true;
     Objective.currentProgress := Objective.currentProgress o;
     Objective.totalProgress := Objective.totalProgress o;
     Objective.xpReward := Objective.xpReward o |}.

Definition withProgress (p : Z) (o : Objective.t) : Objective.t :=
  {| Objective.id := Objective.id o; Objective.name := Objective.name o;
     Objective.isCurrent := Objective.isCurrent o;
     Objective.isCompleted := Objective.isCompleted o;
     Objective.currentProgress := p;
     Objective.totalProgress := Objective.totalProgress o;
     Objective.xpReward := Objective.xpReward o |}.

Definition withIsCompleted (b : bool) (s : Subtask.t) : Subtask.t :=
  {| Subtask.id := Subtask.id s; Subtask.isCompleted := b;
     Subtask.xpReward := Subtask.xpReward s;
     Subtask.goldReward := Subtask.goldReward s;
     Subtask.progressContribution := Subtask.progressContribution s |}.

(** The documents of [objectives/{objectiveId}/subtasks]. *)
Definition subtasksOf (objectiveId : string)
  (docs : list (string * Subtask.t)) : list Subtask.t :=
  map snd (filter (fun d => String.eqb (fst d) objectiveId) docs).

Definition updateSubtaskDoc (objectiveId subtaskId : string)
  (f : Subtask.t -> Subtask.t) (docs : list (string * Subtask.t))
  : list (string * Subtask.t) :=
  map (fun d =>
         if String.eqb (fst d) objectiveId
            && String.eqb (Subtask.id (snd d)) subtaskId
         then (fst d, f (snd d)) else d) docs.

Definition deleteSubtaskDocs (objectiveId : string)
  (docs : list (string * Subtask.t)) : list (string * Subtask.t) :=
  filter (fun d => negb (String.eqb (fst d) objectiveId)) docs.

(** [handleCompleteObjective(objectiveId)] *)
Definition handleCompleteObjective (objectiveId : string) (w : World)
  : option (World * option Message) :=
  if negb (ready w) then Some (w, Some MsgAppNotReady)
  else
    match find (fun obj => String.eqb (Objective.id obj) objectiveId)
               (objectives w) with
    | None => Some (w, None)
    | Some objectiveToComplete =>
        if Objective.currentProgress objectiveToComplete
             <? Objective.totalProgress objectiveToComplete
        then Some (w, Some MsgNotYetCompleted)
        else
          let reward := Objective.xpReward objectiveToComplete in
          match addXp (objectives w) reward (playerStats w) with
          | None => None
          | Some s1 =>
              let s2 := addGold (reward * 2) s1 in
              let s3 :=
                checkAchievements (objectives w) "objectiveCompleted"
                  (JsString (Objective.id objectiveToComplete)) s2 in
              Some ({| ready := ready w;
                       objectives :=
                         updateObjectiveDoc objectiveId markCompleted
                                            (objectives w);
                       subtasks := [];
                       subtaskDocs :=
                         deleteSubtaskDocs objectiveId (subtaskDocs w);
                       playerStats := s3 |},
                    Some (MsgObjectiveCompleted
                            (Objective.name objectiveToComplete)
                            reward (reward * 2)))
          end
    end.

(** [handleToggleSubtaskComplete(subtaskId, isCompleted)]; the second
    argument is the flag the caller read from the subtask card. *)
Definition handleToggleSubtaskComplete (today yesterdayString : string)
  (subtaskId : string) (isCompleted : bool) (w : World)
  : option (World * option Message) :=
  match (if ready w then currentObjective w else None) with
  | None => Some (w, Some MsgAppNotReady)
  | Some cur =>
      match find (fun st => String.eqb (Subtask.id st) subtaskId)
                 (subtasks w) with
      | None => Some (w, None)
      | Some subtaskToUpdate =>
          let docs1 :=
            updateSubtaskDoc (Objective.id cur) subtaskId
              (withIsCompleted (negb isCompleted)) (subtaskDocs w) in
          let contribution :=
            Subtask.progressContribution subtaskToUpdate in
          if negb isCompleted then
            let newProgress := Objective.currentProgress cur + contribution in
            match addXp (objectives w) (Subtask.xpReward subtaskToUpdate)
                        (playerStats w) with
            | None => None
            | Some s1 =>
                let s2 := addGold (Subtask.goldReward subtaskToUpdate) s1 in
                let s3 :=
                  checkAchievements (objectives w) "subtaskCompleted"
                    (JsString (Subtask.id subtaskToUpdate)) s2 in
                let s4 :=
                  checkDailyStreak (objectives w) today yesterdayString
                    (lastStreakDate (playerStats w)) s3 in
                Some ({| ready := ready w;
                         objectives :=
                           updateObjectiveDoc (Objective.id cur)
                             (withProgress
                                (Z.min newProgress
                                       (Objective.totalProgress cur)))
                             (objectives w);
                         subtasks := subtasksOf (Objective.id cur) docs1;
                         subtaskDocs := docs1;
                         playerStats := s4 |},
                      Some (MsgSubtaskCompleted contribution
                              (Subtask.xpReward subtaskToUpdate)
                              (Subtask.goldReward subtaskToUpdate)))
            end
          else
            let newProgress := Objective.currentProgress cur - contribution in
            let s1 := deductXp (Subtask.xpReward subtaskToUpdate)
                               (playerStats w) in
            let s2 := deductGold (Subtask.goldReward subtaskToUpdate) s1 in
            Some ({| ready := ready w;
                     objectives :=
                       updateObjectiveDoc (Objective.id cur)
                         (withProgress (Z.max newProgress 0))
                         (objectives w);
                     subtasks := subtasksOf (Objective.id cur) docs1;
                     subtaskDocs := docs1;
                     playerStats := s2 |},
                  Some (MsgSubtaskIncomplete contribution
                          (Subtask.xpReward subtaskToUpdate)
                          (Subtask.goldReward subtaskToUpdate)))
      end
  end.

End Engine.

(** A string-to-number comparison for concrete runs: document ids such as
    ["st1"] convert to [NaN], and every comparison with [NaN] is false. *)
Definition idsAreNaN : string -> Z -> bool := fun _ _ => false.

(** Two ledgers that agree on every field outside the achievement
    system (the unlocked ids and the two counters it maintains). *)
Definition sameProgress (a b : PlayerStats) : Prop :=
  level a = level b /\ xp a = xp b /\ xpToNextLevel a = xpToNextLevel b /\
  gold a = gold b /\ vitality a = vitality b /\
  maxVitality a = maxVitality b /\
  currentSatisfaction a = currentSatisfaction b /\
  satisfactionHistory a = satisfactionHistory b /\
  lastDailyRewardClaim a = lastDailyRewardClaim b /\
  currentStreak a = currentStreak b /\
  lastStreakDate a = lastStreakDate b /\
  hasCompletedTutorial a = hasCompletedTutorial b.

(** The threshold of the level curve after [k] level-ups from the
    threshold [n], and the XP that these [k] level-ups consume: each
    level-up is paid with the threshold of its level, and the next
    threshold is [floor (n * 1.5)]. *)
Fixpoint thresholdAfter (k : nat) (n : Z) : Z :=
  match k with
  | O => n
  | S k' => thresholdAfter k' (3 * n / 2)
  end.

Fixpoint xpConsumed (k : nat) (n : Z) : Z :=
  match k with
  | O => 0
  | S k' => n + xpConsumed k' (3 * n / 2)
  end.

(** [s'] holds the level, XP and threshold of [s] after a grant of
    exactly [amount] XP: some [k] level-ups took place, the XP they
    consumed and the XP left add up to what [s] had plus [amount], and
    what is left is below the next threshold (and not negative when the
    total is not). *)
Definition grantsXp (amount : Z) (s s' : PlayerStats) : Prop :=
  exists k : nat,
    level s' = level s + Z.of_nat k /\
    xpToNextLevel s' = thresholdAfter k (xpToNextLevel s) /\
    xp s' + xpConsumed k (xpToNextLevel s) = xp s + amount /\
    xp s' < xpToNextLevel s' /\
    (0 <= xp s + amount -> 0 <= xp s').

(** A settled state in which [cur] is the current objective and [st] is
    the subtask that [subtaskId] finds in the local [subtasks] array, the
    array being the listener's copy of the documents under [cur]. *)
Definition settled (w : World) (cur : Objective.t) (st : Subtask.t)
  (subtaskId : string) : Prop :=
  ready w = true /\
  currentObjective w = Some cur /\
  subtasks w = subtasksOf (Objective.id cur) (subtaskDocs w) /\
  find (fun s => String.eqb (Subtask.id s) subtaskId) (subtasks w) = Some st.

(** A history in chronological order: every entry is dated no later
    than the entries after it.  ISO dates compare as strings. *)
Definition chronological (history : list SatEntry) : Prop :=
  StronglySorted (fun d1 d2 => String.leb d1 d2 = true) (map date history).

(** At most one entry per calendar day. *)
Definition oneEntryPerDay (history : list SatEntry) : Prop :=
  NoDup (map date history).

(** ** Sample states *)

Definition ledgerWithXp (x : Z) : PlayerStats :=
  with_xp x initialPlayerStats.

Definition ledgerWithGold (g : Z) : PlayerStats :=
  with_gold g initialPlayerStats.

(** Eight pomodoro sessions completed, the first achievement unlocked. *)
Definition ledgerEightPomodoros : PlayerStats :=
  with_achievements ["pomodoroInitiate"]
    (with_counts 8 0 initialPlayerStats).

(** A three-day streak last counted on 2024-05-01. *)
Definition ledgerStreak3 : PlayerStats :=
  with_streak 3 (Some "2024-05-01") initialPlayerStats.

(** One satisfaction sample, dated 2024-01-05. *)
Definition ledgerOneSample : PlayerStats :=
  with_satisfaction 50 [{| date := "2024-01-05"; value := 50 |}]
                    initialPlayerStats.

Definition quest (progress : Z) : Objective.t :=
  {| Objective.id := "obj1"; Objective.name := "Quest";
     Objective.isCurrent := true; Objective.isCompleted := false;
     Objective.currentProgress := progress; Objective.totalProgress := 100;
     Objective.xpReward := 50 |}.

(** A subtask with the default rewards of [handleAddSubtask]. *)
Definition task : Subtask.t :=
  {| Subtask.id := "st1"; Subtask.isCompleted := false;
     Subtask.xpReward := 10; Subtask.goldReward := 5;
     Subtask.progressContribution := 10 |}.

Definition questWorld (progress : Z) (s : PlayerStats) : World :=
  {| ready := true; objectives := [quest progress]; subtasks := [task];
     subtaskDocs := [("obj1", task)]; playerStats := s |}.

Definition freshWorld : World :=
  {| ready := true; objectives := []; subtasks := []; subtaskDocs := [];
     playerStats := initialPlayerStats |}.

(** * The rest of the component

    The handlers below complete the objective and subtask store, the
    daily gates and the ledger; the generation service is an argument
    (the parsed answer, or [None] when the call or [JSON.parse] failed).
    A document id that [addDoc] draws is an argument as well; a listing
    of a collection is in the order of the document ids. *)

(** The ranges the clamps of the updaters maintain. *)
Definition ledgerOk (s : PlayerStats) : Prop :=
  1 <= level s /\ 0 <= xp s /\ xp s < xpToNextLevel s /\ 0 <= gold s /\
  0 <= vitality s /\ vitality s <= maxVitality s.

(** The [checkAchievements('levelUp', newLevel)] calls one [addXp]
    issues, in the order of the levels reached. *)
Definition levelUpScans (str_ge_num : string -> Z -> bool)
  (objs : list Objective.t) (reached : list Z) (s : PlayerStats)
  : PlayerStats :=
  fold_left
    (fun s' newLevel' =>
       checkAchievements str_ge_num objs "levelUp" (JsNumber newLevel') s')
    reached s.

(** ** Player stats listener *)

(** [docSnap.data()]: a field is [None] when the document lacks it. *)
Record StatsDoc := {
  doc_level : option Z;
  doc_xp : option Z;
  doc_xpToNextLevel : option Z;
  doc_gold : option Z;
  doc_vitality : option Z;
  doc_maxVitality : option Z;
  doc_currentSatisfaction : option Z;
  doc_satisfactionHistory : option (list SatEntry);
  doc_lastDailyRewardClaim : option (option Z);
  doc_currentStreak : option Z;
  doc_lastStreakDate : option (option string);
  doc_achievements : option (list string);
  doc_hasCompletedTutorial : option bool;
  doc_pomodoroCount : option Z;
  doc_dailyDesireCount : option Z
}.

(** One field of [{ ...prevStats, ...fetchedData }]. *)
Definition spread {A} (fetched : option A) (prev : A) : A :=
  match fetched with
  | Some v => v
  | None => prev
  end.

(** The updater of the player stats listener:
    [{ ...prevStats, ...fetchedData,
       satisfactionHistory: fetchedData.satisfactionHistory || [] }]. *)
Definition applyStatsSnapshot (fetchedData : StatsDoc) (prevStats : PlayerStats)
  : PlayerStats :=
  {| level := spread (doc_level fetchedData) (level prevStats);
     xp := spread (doc_xp fetchedData) (xp prevStats);
     xpToNextLevel :=
       spread (doc_xpToNextLevel fetchedData) (xpToNextLevel prevStats);
     gold := spread (doc_gold fetchedData) (gold prevStats);
     vitality := spread (doc_vitality fetchedData) (vitality prevStats);
     maxVitality := spread (doc_maxVitality fetchedData) (maxVitality prevStats);
     currentSatisfaction :=
       spread (doc_currentSatisfaction fetchedData)
              (currentSatisfaction prevStats);
     satisfactionHistory :=
       match doc_satisfactionHistory fetchedData with
       | Some history => history
       | None => []
       end;
     lastDailyRewardClaim :=
       spread (doc_lastDailyRewardClaim fetchedData)
              (lastDailyRewardClaim prevStats);
     currentStreak :=
       spread (doc_currentStreak fetchedData) (currentStreak prevStats);
     lastStreakDate :=
       spread (doc_lastStreakDate fetchedData) (lastStreakDate prevStats);
     achievements :=
       spread (doc_achievements fetchedData) (achievements prevStats);
     hasCompletedTutorial :=
       spread (doc_hasCompletedTutorial fetchedData)
              (hasCompletedTutorial prevStats);
     pomodoroCount :=
       spread (doc_pomodoroCount fetchedData) (pomodoroCount prevStats);
     dailyDesireCount :=
       spread (doc_dailyDesireCount fetchedData)
              (dailyDesireCount prevStats) |}.

(** The document [setDoc(ref, newStats, { merge: true })] leaves when a
    whole ledger is written. *)
Definition statsDocOf (s : PlayerStats) : StatsDoc :=
  {| doc_level := Some (level s); doc_xp := Some (xp s);
     doc_xpToNextLevel := Some (xpToNextLevel s);
     doc_gold := Some (gold s); doc_vitality := Some (vitality s);
     doc_maxVitality := Some (maxVitality s);
     doc_currentSatisfaction := Some (currentSatisfaction s);
     doc_satisfactionHistory := Some (satisfactionHistory s);
     doc_lastDailyRewardClaim := Some (lastDailyRewardClaim s);
     doc_currentStreak := Some (currentStreak s);
     doc_lastStreakDate := Some (lastStreakDate s);
     doc_achievements := Some (achievements s);
     doc_hasCompletedTutorial := Some (hasCompletedTutorial s);
     doc_pomodoroCount := Some (pomodoroCount s);
     doc_dailyDesireCount := Some (dailyDesireCount s) |}.

Definition emptyStatsDoc : StatsDoc :=
  {| doc_level := None; doc_xp := None; doc_xpToNextLevel := None;
     doc_gold := None; doc_vitality := None; doc_maxVitality := None;
     doc_currentSatisfaction := None; doc_satisfactionHistory := None;
     doc_lastDailyRewardClaim := None; doc_currentStreak := None;
     doc_lastStreakDate := None; doc_achievements := None;
     doc_hasCompletedTutorial := None; doc_pomodoroCount := None;
     doc_dailyDesireCount := None |}.

(** ** Punishments *)

Definition handleApplyMinorPunishment (w : World) : World :=
  let punishmentVitality := 10 in
  let punishmentXp := 5 in
  let punishmentGold := 5 in
  setPlayerStats (deductGold punishmentGold)
    (setPlayerStats (deductXp punishmentXp)
       (setPlayerStats (deductVitality punishmentVitality) w)).

Definition handleApplyGoldFinePunishment (w : World) : World :=
  let fineAmount := 20 in
  setPlayerStats (deductGold fineAmount) w.

(** ** Daily reward countdown *)

(** [getTimeUntilNextDailyReward]: the hours and minutes of the label, or
    [None] for [null] (the reward can be claimed). *)
Definition getTimeUntilNextDailyReward (now : Z) (w : World) : option (Z * Z) :=
  let lastClaim := lastDailyRewardClaim (playerStats w) in
  if negb (truthy lastClaim) then None
  else
    let timeLeft := twentyFourHours - (now - valueOr0 lastClaim) in
    if timeLeft <=? 0 then None
    else
      let hours := timeLeft / (1000 * 60 * 60) in
      let minutes := Z.rem timeLeft (1000 * 60 * 60) / (1000 * 60) in
      Some (hours, minutes).

(** ** Objective store *)

(** The subtasks effect: the listener of the current objective's
    subtasks, or [setSubtasks([])] when there is none. *)
Definition syncSubtasks (w : World) : World :=
  {| ready := ready w; objectives := objectives w;
     subtasks :=
       match currentObjective w with
       | Some cur => subtasksOf (Objective.id cur) (subtaskDocs w)
       | None => []
       end;
     subtaskDocs := subtaskDocs w; playerStats := playerStats w |}.

Definition withObjectives (l : list Objective.t) (w : World) : World :=
  {| ready := ready w; objectives := l; subtasks := subtasks w;
     subtaskDocs := subtaskDocs w; playerStats := playerStats w |}.

Definition withSubtaskDocs (docs : list (string * Subtask.t)) (w : World)
  : World :=
  {| ready := ready w; objectives := objectives w; subtasks := subtasks w;
     subtaskDocs := docs; playerStats := playerStats w |}.

Definition withCurrent (b : bool) (o : Objective.t) : Objective.t :=
  {| Objective.id := Objective.id o; Objective.name := Objective.name o;
     Objective.isCurrent := b;
     Objective.isCompleted := Objective.isCompleted o;
     Objective.currentProgress := Objective.currentProgress o;
     Objective.totalProgress := Objective.totalProgress o;
     Objective.xpReward := Objective.xpReward o |}.

Definition hasObjective (objectiveId : string) (l : list Objective.t) : bool :=
  existsb (fun obj => String.eqb (Objective.id obj) objectiveId) l.

(** Whether a write of the batch addresses the document of [o]. *)
Definition inBatch (batch : list Objective.t) (o : Objective.t) : bool :=
  existsb (fun b => String.eqb (Objective.id o) (Objective.id b)) batch.

(** [handleSelectObjective(selectedObjectiveId)]; [closure] is the
    [objectives] array the handler closed over.  [updateDoc] fails on a
    document that does not exist: a failed write of the batch rejects
    [Promise.all] (the other writes of the batch stand) and the selection
    is not written; a failed write of the selection comes after the
    batch. *)
Definition handleSelectObjectiveFrom (closure : list Objective.t)
  (selectedObjectiveId : string) (w : World) : World * Message :=
  if negb (ready w) then (w, MsgAppNotReady)
  else
    let batchUpdates :=
      filter (fun obj =>
                Objective.isCurrent obj
                && negb (String.eqb (Objective.id obj) selectedObjectiveId))
             closure in
    let objs1 :=
      fold_left
        (fun l obj => updateObjectiveDoc (Objective.id obj) (withCurrent false) l)
        batchUpdates (objectives w) in
    if forallb (fun obj => hasObjective (Objective.id obj) (objectives w))
               batchUpdates
       && hasObjective selectedObjectiveId objs1 then
      (syncSubtasks
         (withObjectives
            (updateObjectiveDoc selectedObjectiveId (withCurrent true) objs1)
            w),
       MsgText "¡Objetivo actual seleccionado!")
    else
      (syncSubtasks (withObjectives objs1 w),
       MsgText "Error al seleccionar el objetivo.").

Definition handleSelectObjective (selectedObjectiveId : string) (w : World)
  : World * Message :=
  handleSelectObjectiveFrom (objectives w) selectedObjectiveId w.

(** [handleDeleteObjective(objectiveId)] *)
Definition handleDeleteObjective (objectiveId : string) (w : World)
  : World * Message :=
  if negb (ready w) then (w, MsgAppNotReady)
  else
    (syncSubtasks
       (withObjectives
          (filter (fun obj => negb (String.eqb (Objective.id obj) objectiveId))
                  (objectives w))
          (withSubtaskDocs (deleteSubtaskDocs objectiveId (subtaskDocs w)) w)),
     MsgText "Objetivo y subtareas eliminados.").

(** The second, slimmer [App] component of the file keeps the objectives
    and the ledger only; its [handleSelectObjective] writes the flag of
    every objective of the closure. *)
Module Slim.

Definition handleSelectObjectiveFrom (closure : list Objective.t)
  (selectedObjectiveId : string) (w : World) : World * option Message :=
  if negb (ready w) then (w, None)
  else
    let objs1 :=
      fold_left
        (fun l obj =>
           updateObjectiveDoc
             (Objective.id obj)
             (withCurrent (String.eqb (Objective.id obj) selectedObjectiveId))
             l)
        closure (objectives w) in
    (withObjectives objs1 w,
     Some (MsgText
             (if forallb
                   (fun obj => hasObjective (Objective.id obj) (objectives w))
                   closure
              then "Objetivo actual seleccionado."
              else "Error al seleccionar objetivo."))).

Definition handleSelectObjective (selectedObjectiveId : string) (w : World)
  : World * option Message :=
  handleSelectObjectiveFrom (objectives w) selectedObjectiveId w.

End Slim.

(** The form fields of [objectiveData] the model keeps. *)
Record ObjectiveData := {
  dataName : string;
  dataDifficulty : string;
  dataTotalProgress : Z
}.

(** [x || 100] for a number. *)
Definition orDefault (x default : Z) : Z :=
  if (x =? 0)%Z then default else x.

(** A new document in a listing ordered by document id. *)
Fixpoint insertObjective (o : Objective.t) (l : list Objective.t)
  : list Objective.t :=
  match l with
  | [] => [o]
  | x :: rest =>
      if String.ltb (Objective.id o) (Objective.id x) then o :: x :: rest
      else x :: insertObjective o rest
  end.

Definition editObjective (objectiveData : ObjectiveData) (o : Objective.t)
  : Objective.t :=
  {| Objective.id := Objective.id o;
     Objective.name := dataName objectiveData;
     Objective.isCurrent := Objective.isCurrent o;
     Objective.isCompleted := Objective.isCompleted o;
     Objective.currentProgress := Objective.currentProgress o;
     Objective.totalProgress := dataTotalProgress objectiveData;
     Objective.xpReward := Objective.xpReward o |}.

Definition newObjective (newId : string) (objectiveData : ObjectiveData)
  : Objective.t :=
  {| Objective.id := newId;
     Objective.name := dataName objectiveData;
     Objective.isCurrent := false;
     Objective.isCompleted := false;
     Objective.currentProgress := 0;
     Objective.totalProgress := orDefault (dataTotalProgress objectiveData) 100;
     Objective.xpReward :=
       50 + (if String.eqb (dataDifficulty objectiveData) "Difícil"
             then 50 else 0)
          + (if String.eqb (dataDifficulty objectiveData) "Épico"
             then 100 else 0) |}.

(** [handleSaveObjective(objectiveData)]: [editingObjective] is the state
    of the form, [newId] the id [addDoc] draws; the result carries the id
    the handler returns. *)
Definition handleSaveObjective (newId : string)
  (editingObjective : option Objective.t) (objectiveData : ObjectiveData)
  (w : World) : World * option string * Message :=
  if negb (ready w) then (w, None, MsgAppNotReady)
  else
    match editingObjective with
    | Some editing =>
        if hasObjective (Objective.id editing) (objectives w) then
          (syncSubtasks
             (withObjectives
                (updateObjectiveDoc (Objective.id editing)
                                    (editObjective objectiveData)
                                    (objectives w)) w),
           Some (Objective.id editing),
           MsgText "¡Objetivo actualizado con éxito!")
        else (w, None, MsgText "Error al guardar el objetivo.")
    | None =>
        (syncSubtasks
           (withObjectives
              (insertObjective (newObjective newId objectiveData)
                               (objectives w)) w),
         Some newId, MsgText "¡Objetivo creado con éxito!")
    end.

(** The first two steps of [handleStartQuest]: save, then select with
    the [objectives] the handler closed over before the save. *)
Definition handleStartQuest (newId : string) (objectiveData : ObjectiveData)
  (w : World) : World :=
  match handleSaveObjective newId None objectiveData w with
  | (w1, Some newObjectiveId, _) =>
      fst (handleSelectObjectiveFrom (objectives w) newObjectiveId w1)
  | (w1, None, _) => w1
  end.

(** ** Subtask store *)

Fixpoint insertSubtaskDoc (objectiveId : string) (st : Subtask.t)
  (docs : list (string * Subtask.t)) : list (string * Subtask.t) :=
  match docs with
  | [] => [(objectiveId, st)]
  | d :: rest =>
      if String.eqb (fst d) objectiveId
         && String.ltb (Subtask.id st) (Subtask.id (snd d))
      then (objectiveId, st) :: d :: rest
      else d :: insertSubtaskDoc objectiveId st rest
  end.

(** [handleDeleteSubtask(subtaskId)] *)
Definition handleDeleteSubtask (subtaskId : string) (w : World)
  : World * Message :=
  match (if ready w then currentObjective w else None) with
  | None => (w, MsgAppNotReady)
  | Some cur =>
      (syncSubtasks
         (withSubtaskDocs
            (filter (fun d =>
                       negb (String.eqb (fst d) (Objective.id cur)
                             && String.eqb (Subtask.id (snd d)) subtaskId))
                    (subtaskDocs w)) w),
       MsgText "Subtarea eliminada.")
  end.

(** The task [handleApplyExtraTaskPunishment] adds. *)
Definition punishmentTask (newId : string) : Subtask.t :=
  {| Subtask.id := newId; Subtask.isCompleted := false;
     Subtask.xpReward := 0; Subtask.goldReward := 0;
     Subtask.progressContribution := 0 |}.

(** The state after [handleApplyExtraTaskPunishment]; without a store
    no write reaches the user's collection. *)
Definition handleApplyExtraTaskPunishment (newId : string) (w : World)
  : World :=
  match currentObjective w with
  | None => w
  | Some cur =>
      if ready w then
        syncSubtasks
          (withSubtaskDocs
             (insertSubtaskDoc (Objective.id cur) (punishmentTask newId)
                               (subtaskDocs w)) w)
      else w
  end.

(** ** Daily desire *)

Module DailyDesire.
Record t := {
  text : string;
  xpReward : Z;
  goldReward : Z;
  timeLimitMinutes : Z;
  date : string;
  completed : bool
}.
End DailyDesire.

(** The object [JSON.parse] returns for a generated desire. *)
Record ParsedDesire := {
  parsedText : string;
  parsedXpReward : Z;
  parsedGoldReward : Z;
  parsedTimeLimitMinutes : Z
}.

(** The component state with the [dailyDesire] of the day. *)
Record AppState := {
  world : World;
  dailyDesire : option DailyDesire.t
}.

Definition withCompleted (b : bool) (d : DailyDesire.t) : DailyDesire.t :=
  {| DailyDesire.text := DailyDesire.text d;
     DailyDesire.xpReward := DailyDesire.xpReward d;
     DailyDesire.goldReward := DailyDesire.goldReward d;
     DailyDesire.timeLimitMinutes := DailyDesire.timeLimitMinutes d;
     DailyDesire.date := DailyDesire.date d;
     DailyDesire.completed := b |}.

(** [generateDailyDesire] at calendar day [today]; [response] is the
    parsed answer of the generation service. *)
Definition generateDailyDesire (today : string)
  (response : option ParsedDesire) (a : AppState) : AppState :=
  if negb (ready (world a)) then a
  else
    match dailyDesire a with
    | Some d =>
        if String.eqb (DailyDesire.date d) today then a
        else
          match response with
          | Some parsedDesire =>
              {| world := world a;
                 dailyDesire :=
                   Some {| DailyDesire.text := parsedText parsedDesire;
                           DailyDesire.xpReward := parsedXpReward parsedDesire;
                           DailyDesire.goldReward :=
                             parsedGoldReward parsedDesire;
                           DailyDesire.timeLimitMinutes :=
                             parsedTimeLimitMinutes parsedDesire;
                           DailyDesire.date := today;
                           DailyDesire.completed := false |} |}
          | None => a
          end
    | None =>
        match response with
        | Some parsedDesire =>
            {| world := world a;
               dailyDesire :=
                 Some {| DailyDesire.text := parsedText parsedDesire;
                         DailyDesire.xpReward := parsedXpReward parsedDesire;
                         DailyDesire.goldReward :=
                           parsedGoldReward parsedDesire;
                         DailyDesire.timeLimitMinutes :=
                           parsedTimeLimitMinutes parsedDesire;
                         DailyDesire.date := today;
                         DailyDesire.completed := false |} |}
        | None => a
        end
    end.

(** [updatePlayerStats(newStats)]: the [mainStats] document that
    [setDoc(ref, newStats, { merge: true })] leaves when the whole
    ledger [newStats] is written; nothing is written ([None]) while the
    store is not ready. *)
Definition updatePlayerStats (w : World) (newStats : PlayerStats)
  : option StatsDoc :=
  if ready w then Some (statsDocOf newStats) else None.

(** The player stats listener on a snapshot of the [mainStats]
    document. *)
Definition statsListener (fetchedData : StatsDoc) (a : AppState) : AppState :=
  {| world := setPlayerStats (applyStatsSnapshot fetchedData) (world a);
     dailyDesire := dailyDesire a |}.

Section DesireHandlers.

Variable str_ge_num : string -> Z -> bool.

(** [handleCompleteDailyDesire]: the state after its updaters have run,
    and the [mainStats] document as its last write leaves it.  [addXp]
    and [addGold] each write the ledger they return; the updater of
    [checkAchievements] writes nothing, so that the document holds the
    ledger of [addGold], without the counter and the ids of the scan. *)
Definition handleCompleteDailyDesire (a : AppState)
  : option (AppState * option StatsDoc) :=
  match dailyDesire a with
  | Some d =>
      if negb (DailyDesire.completed d) then
        let w := world a in
        match addXp str_ge_num (objectives w) (DailyDesire.xpReward d)
                    (playerStats w) with
        | None => None
        | Some s1 =>
            let s2 := addGold (DailyDesire.goldReward d) s1 in
            let s3 :=
              checkAchievements str_ge_num (objectives w)
                                "dailyDesireCompleted" JsNull s2 in
            Some ({| world := setPlayerStats (fun _ => s3) w;
                     dailyDesire := Some (withCompleted true d) |},
                  updatePlayerStats w s2)
        end
      else Some (a, None)
  | None => Some (a, None)
  end.

End DesireHandlers.

(** ** More sample states *)

Definition waterDesire (day : string) : DailyDesire.t :=
  {| DailyDesire.text := "Beber 8 vasos de agua";
     DailyDesire.xpReward := 5; DailyDesire.goldReward := 3;
     DailyDesire.timeLimitMinutes := 1440;
     DailyDesire.date := day; DailyDesire.completed := false |}.

Definition parsedWalk : ParsedDesire :=
  {| parsedText := "Caminar 20 minutos"; parsedXpReward := 8;
     parsedGoldReward := 4; parsedTimeLimitMinutes := 1440 |}.

Definition sideQuest : Objective.t :=
  {| Objective.id := "obj2"; Objective.name := "Side quest";
     Objective.isCurrent := false; Objective.isCompleted := false;
     Objective.currentProgress := 20; Objective.totalProgress := 50;
     Objective.xpReward := 100 |}.

(** Two objectives, the first one current, with one subtask each. *)
Definition twoQuestWorld (s : PlayerStats) : World :=
  {| ready := true; objectives := [quest 0; sideQuest];
     subtasks := [task];
     subtaskDocs := [("obj1", task); ("obj2", punishmentTask "st9")];
     playerStats := s |}.

(** The form filled in for an epic objective, [totalProgress] left at 0. *)
Definition epicQuestData : ObjectiveData :=
  {| dataName := "Marathon"; dataDifficulty := "Épico";
     dataTotalProgress := 0 |}.

(** A fresh store whose daily reward was claimed at clock reading [t]. *)
Definition claimedWorld (t : Z) : World :=
  setPlayerStats (with_lastDailyRewardClaim (Some t)) freshWorld.

(** A fresh store with the desire of [day], not completed yet. *)
Definition desireState (day : string) : AppState :=
  {| world := freshWorld; dailyDesire := Some (waterDesire day) |}.

(** Side conditions of a run on a sample state, closed by evaluation. *)
Ltac side_condition :=
  solve [ reflexivity | discriminate | lia | cbn; lia | repeat split
        | unfold ledgerOk; cbn; lia | unfold twentyFourHours; cbn; lia ].

(** * Properties *)

Section Properties.

Variable str_ge_num : string -> Z -> bool.

(** ** The level-up loop *)

Lemma grow_ge n : 0 <= n -> n <= 3 * n / 2.
Proof.
  intros Hn. apply Z.div_le_lower_bound; lia.
Qed.

Lemma grow_nonpos n : n <= 0 -> 3 * n / 2 <= 0.
Proof.
  intros Hn. assert (3 * n / 2 <= 0 / 2) by (apply Z.div_le_mono; lia).
  rewrite Z.div_0_l in H; lia.
Qed.

Lemma levelUpLoop_exit fuel x l n r :
  x < n -> levelUpLoop fuel x l n r = Some (x, l, n, r).
Proof.
  intros Hlt. destruct fuel; cbn [levelUpLoop];
    destruct (Z.geb_spec x n); try reflexivity; lia.
Qed.

Lemma levelUpLoop_diverges fuel :
  forall x l n r, n <= 0 -> n <= x -> levelUpLoop fuel x l n r = None.
Proof.
  induction fuel as [|fuel IH]; intros x l n r Hn Hx; cbn [levelUpLoop];
    destruct (Z.geb_spec x n); try lia; try reflexivity.
  pose proof (grow_nonpos n Hn). apply IH; lia.
Qed.

Lemma levelUpLoop_terminates fuel :
  forall x l n r, 0 < n -> (Z.to_nat x < fuel)%nat ->
    exists res, levelUpLoop fuel x l n r = Some res.
Proof.
  induction fuel as [|fuel IH]; intros x l n r Hn Hf; [lia|].
  cbn [levelUpLoop]. destruct (Z.geb_spec x n); [|eauto].
  pose proof (grow_ge n). apply IH; lia.
Qed.

Lemma levelUpLoop_sound fuel :
  forall x l n r x' l' n' r',
    levelUpLoop fuel x l n r = Some (x', l', n', r') ->
    x' < n' /\ l <= l' /\ n <= n' /\ (0 < n -> x' <= x).
Proof.
  induction fuel as [|fuel IH]; intros x l n r x' l' n' r'; cbn [levelUpLoop];
    destruct (Z.geb_spec x n) as [E|E]; intros H; try discriminate.
  - inversion H; subst. lia.
  - destruct (Z_le_gt_dec n 0) as [Hn|Hn].
    + pose proof (grow_nonpos n Hn).
      rewrite levelUpLoop_diverges in H; [discriminate|lia|lia].
    + apply IH in H. pose proof (grow_ge n). lia.
  - inversion H; subst. lia.
Qed.

Lemma levelUpLoop_fuel_mono fuel :
  forall fuel' x l n r res,
    levelUpLoop fuel x l n r = Some res -> (fuel <= fuel')%nat ->
    levelUpLoop fuel' x l n r = Some res.
Proof.
  induction fuel as [|fuel IH]; intros fuel' x l n r res H Hle;
    destruct fuel' as [|fuel']; cbn [levelUpLoop] in *; try lia;
    destruct (Z.geb_spec x n) as [E|E]; try discriminate; try assumption.
  apply IH; [assumption | lia].
Qed.

(** The fuel of [addXp] loses nothing: when it runs out, no number of
    iterations reaches the exit of the loop. *)
Lemma addXp_None_diverges objs amount st :
  addXp str_ge_num objs amount st = None ->
  forall fuel,
    levelUpLoop fuel (xp st + amount) (level st) (xpToNextLevel st) []
    = None.
Proof.
  unfold addXp. intros H fuel.
  destruct (levelUpLoop (addXpFuel st amount) _ _ _ _) as [[[[? ?] ?] ?]|]
    eqn:E; [discriminate|].
  destruct (Z_le_gt_dec (xpToNextLevel st) 0) as [Hn|Hn].
  - destruct (Z_lt_le_dec (xp st + amount) (xpToNextLevel st)) as [Hx|Hx].
    + rewrite levelUpLoop_exit in E by assumption. discriminate.
    + apply levelUpLoop_diverges; assumption.
  - destruct (levelUpLoop_terminates (addXpFuel st amount)
                (xp st + amount) (level st) (xpToNextLevel st) [])
      as [res Hres]; [lia | unfold addXpFuel; lia | congruence].
Qed.

(** ** The scan touches the achievement system only *)

Lemma sameProgress_refl s : sameProgress s s.
Proof. repeat split. Qed.

Lemma sameProgress_trans a b c :
  sameProgress a b -> sameProgress b c -> sameProgress a c.
Proof.
  unfold sameProgress. intros H1 H2.
  decompose [and] H1. decompose [and] H2.
  repeat split; congruence.
Qed.

Lemma sameProgress_wallet a b :
  sameProgress a b ->
  level a = level b /\ xp a = xp b /\
  xpToNextLevel a = xpToNextLevel b /\ gold a = gold b.
Proof.
  unfold sameProgress. intros H. decompose [and] H. auto.
Qed.

Lemma checkAchievements_frame objs ty v s :
  sameProgress (checkAchievements str_ge_num objs ty v s) s.
Proof.
  unfold checkAchievements, bumpCounts.
  destruct (String.eqb ty "pomodoroCompleted");
    destruct (String.eqb ty "dailyDesireCompleted");
    repeat split.
Qed.

Lemma levelUp_scans_frame objs reached :
  forall s,
    sameProgress
      (fold_left
         (fun s' newLevel' =>
            checkAchievements str_ge_num objs "levelUp"
                              (JsNumber newLevel') s')
         reached s) s.
Proof.
  induction reached as [|l reached IH]; intros s; simpl.
  - apply sameProgress_refl.
  - eapply sameProgress_trans; [apply IH|apply checkAchievements_frame].
Qed.

(** What [addXp] returns, in terms of the loop. *)
Lemma addXp_Some objs amount st fuel x' l' n' r' :
  levelUpLoop fuel (xp st + amount) (level st) (xpToNextLevel st) []
    = Some (x', l', n', r') ->
  exists st',
    addXp str_ge_num objs amount st = Some st' /\
    sameProgress st' (with_leveling x' l' n' st).
Proof.
  intros Hloop. unfold addXp.
  destruct (levelUpLoop (addXpFuel st amount) _ _ _ _)
    as [[[[x1 l1] n1] r1]|] eqn:E.
  - destruct (Nat.le_ge_cases fuel (addXpFuel st amount)) as [Hle|Hle].
    + rewrite (levelUpLoop_fuel_mono _ _ _ _ _ _ _ Hloop Hle) in E.
      inversion E; subst. eexists; split; [reflexivity|].
      apply levelUp_scans_frame.
    + rewrite (levelUpLoop_fuel_mono _ _ _ _ _ _ _ E Hle) in Hloop.
      inversion Hloop; subst. eexists; split; [reflexivity|].
      apply levelUp_scans_frame.
  - pose proof (addXp_None_diverges objs amount st) as Hd.
    unfold addXp in Hd. rewrite E in Hd.
    rewrite (Hd eq_refl fuel) in Hloop. discriminate.
Qed.

(** [addXp] returns on every ledger whose [xpToNextLevel] is positive. *)
Lemma addXp_total objs amount st :
  0 < xpToNextLevel st ->
  exists st' x' l' n' r',
    addXp str_ge_num objs amount st = Some st' /\
    levelUpLoop (addXpFuel st amount) (xp st + amount) (level st)
                (xpToNextLevel st) [] = Some (x', l', n', r') /\
    sameProgress st' (with_leveling x' l' n' st).
Proof.
  intros Hn.
  destruct (levelUpLoop_terminates (addXpFuel st amount)
              (xp st + amount) (level st) (xpToNextLevel st) [])
    as [[[[x' l'] n'] r'] Hres]; [assumption | unfold addXpFuel; lia |].
  destruct (addXp_Some objs amount st _ _ _ _ _ Hres) as [st' [H1 H2]].
  exists st', x', l', n', r'. auto.
Qed.

(** Without a level-up [addXp] only adds. *)
Lemma addXp_no_levelUp objs amount st :
  xp st + amount < xpToNextLevel st ->
  addXp str_ge_num objs amount st = Some (with_xp (xp st + amount) st).
Proof.
  intros H. unfold addXp. rewrite levelUpLoop_exit by assumption.
  reflexivity.
Qed.

(** ** XP is neither lost nor created *)

Lemma levelUpLoop_conserves fuel :
  forall x l n r x' l' n' r',
    levelUpLoop fuel x l n r = Some (x', l', n', r') ->
    exists k : nat,
      l' = l + Z.of_nat k /\ n' = thresholdAfter k n /\
      x' + xpConsumed k n = x /\ x' < n' /\ (0 <= x -> 0 <= x').
Proof.
  induction fuel as [|fuel IH]; intros x l n r x' l' n' r';
    cbn [levelUpLoop]; destruct (Z.geb_spec x n) as [E|E]; intros H;
    try discriminate.
  - inversion H; subst. exists O. cbn [thresholdAfter xpConsumed Z.of_nat].
    repeat split; lia.
  - apply IH in H. destruct H as (k & Hl & Hn & Hx & Hlt & Hpos).
    exists (S k). cbn [thresholdAfter xpConsumed].
    rewrite Nat2Z.inj_succ. repeat split; try lia.
  - inversion H; subst. exists O. cbn [thresholdAfter xpConsumed Z.of_nat].
    repeat split; lia.
Qed.

Lemma grantsXp_same amount s s1 s2 :
  grantsXp amount s s1 ->
  level s2 = level s1 -> xp s2 = xp s1 ->
  xpToNextLevel s2 = xpToNextLevel s1 ->
  grantsXp amount s s2.
Proof.
  intros (k & H1 & H2 & H3 & H4 & H5) El Ex En. exists k.
  rewrite El, Ex, En. repeat split; assumption.
Qed.

(** What [addXp] returns holds exactly [amount] XP more. *)
Lemma addXp_grantsXp objs amount s s' :
  addXp str_ge_num objs amount s = Some s' -> grantsXp amount s s'.
Proof.
  unfold addXp.
  destruct (levelUpLoop _ _ _ _ _) as [[[[x' l'] n'] r']|] eqn:E;
    [|discriminate].
  intros H. inversion H; subst s'; clear H.
  apply levelUpLoop_conserves in E.
  destruct E as (k & Hl & Hn & Hx & Hlt & Hpos).
  pose proof (sameProgress_wallet _ _
                (levelUp_scans_frame objs r' (with_leveling x' l' n' s)))
    as (Wl & Wx & Wn & _).
  apply (grantsXp_same amount s (with_leveling x' l' n' s));
    [|exact Wl | exact Wx | exact Wn].
  exists k. cbn [with_leveling level xp xpToNextLevel].
  repeat split; assumption.
Qed.

Lemma thresholdAfter_ge k :
  forall n, 0 < n -> n <= thresholdAfter k n.
Proof.
  induction k as [|k IH]; intros n Hn; cbn [thresholdAfter]; [lia|].
  pose proof (grow_ge n). specialize (IH (3 * n / 2)). lia.
Qed.

Lemma xpConsumed_nonneg k :
  forall n, 0 < n -> 0 <= xpConsumed k n.
Proof.
  induction k as [|k IH]; intros n Hn; cbn [xpConsumed]; [lia|].
  pose proof (grow_ge n). specialize (IH (3 * n / 2)). lia.
Qed.

Lemma xpConsumed_next k1 :
  forall k2 n, 0 < n -> (k1 < k2)%nat ->
    xpConsumed k1 n + thresholdAfter k1 n <= xpConsumed k2 n.
Proof.
  induction k1 as [|k1 IH]; intros k2 n Hn Hlt;
    destruct k2 as [|k2]; try lia; cbn [xpConsumed thresholdAfter].
  - pose proof (grow_ge n). pose proof (xpConsumed_nonneg k2 (3 * n / 2)).
    lia.
  - pose proof (grow_ge n). specialize (IH k2 (3 * n / 2)). lia.
Qed.

(** On a ledger of the data model (threshold positive, total not
    negative) [grantsXp] leaves one outcome only. *)
Lemma grantsXp_exact amount s s1 s2 :
  0 < xpToNextLevel s -> 0 <= xp s + amount ->
  grantsXp amount s s1 -> grantsXp amount s s2 ->
  level s1 = level s2 /\ xp s1 = xp s2 /\
  xpToNextLevel s1 = xpToNextLevel s2.
Proof.
  intros Hn Hx (k1 & L1 & N1 & X1 & B1 & P1) (k2 & L2 & N2 & X2 & B2 & P2).
  specialize (P1 Hx). specialize (P2 Hx).
  assert (k1 = k2) as ->.
  { destruct (Nat.lt_trichotomy k1 k2) as [Hlt | [Heq | Hgt]];
      [|assumption|].
    - pose proof (xpConsumed_next k1 k2 _ Hn Hlt). lia.
    - pose proof (xpConsumed_next k2 k1 _ Hn Hgt). lia. }
  repeat split; lia.
Qed.

(** ** Leveling *)

(** C1: on a ledger with [0 <= xp < xpToNextLevel], [addXp] with an
    amount [>= 0] returns a ledger with [xp < xpToNextLevel] in which
    neither [level] nor [xpToNextLevel] has decreased. *)
Theorem addXp_leveling_invariant objs amount st :
  0 <= xp st -> xp st < xpToNextLevel st -> 0 <= amount ->
  exists st',
    addXp str_ge_num objs amount st = Some st' /\
    xp st' < xpToNextLevel st' /\
    level st <= level st' /\
    xpToNextLevel st <= xpToNextLevel st'.
Proof.
  intros Hxp Hlt Ham.
  destruct (addXp_total objs amount st) as (st' & x' & l' & n' & r' & H1 & H2 & H3);
    [lia|].
  exists st'. split; [assumption|].
  apply levelUpLoop_sound in H2.
  unfold sameProgress in H3. simpl in H3.
  decompose [and] H3. lia.
Qed.

(** C8: when granting [amount >= 0] causes no level-up, [deductXp]
    after [addXp] restores [xp]; and [deductXp] always sets [xp] to
    [max 0 (xp - amount)] and leaves [level] as it was. *)
Theorem deductXp_inverts_addXp :
  (forall objs amount st,
      0 <= amount -> 0 <= xp st -> xp st + amount < xpToNextLevel st ->
      exists st1,
        addXp str_ge_num objs amount st = Some st1 /\
        xp (deductXp amount st1) = xp st) /\
  (forall amount st,
      xp (deductXp amount st) = Z.max 0 (xp st - amount) /\
      level st <= level (deductXp amount st) /\
      level (deductXp amount st) = level st).
Proof.
  split.
  - intros objs amount st Ham Hxp Hlt.
    rewrite addXp_no_levelUp by assumption.
    eexists; split; [reflexivity|]. simpl. lia.
  - intros amount st. simpl. repeat split; lia.
Qed.

(** C9 (as amended): with [amount < 0] on a ledger with
    [xp < xpToNextLevel], [addXp] adds the negative amount without a
    clamp: [xp] becomes [xp - |amount|], which is negative as soon as
    [|amount| > xp]; [level] and [xpToNextLevel] are unchanged; the
    result agrees with [deductXp |amount|] exactly when
    [|amount| <= xp]. *)
Theorem addXp_negative_amount objs amount st :
  amount < 0 -> xp st < xpToNextLevel st ->
  exists st',
    addXp str_ge_num objs amount st = Some st' /\
    xp st' = xp st - Z.abs amount /\
    level st' = level st /\
    xpToNextLevel st' = xpToNextLevel st /\
    (xp st' < 0 <-> xp st < Z.abs amount) /\
    (xp st' = xp (deductXp (Z.abs amount) st) <-> Z.abs amount <= xp st).
Proof.
  intros Ham Hlt.
  rewrite addXp_no_levelUp by lia.
  eexists; split; [reflexivity|]. simpl. repeat split; lia.
Qed.

(** ** Achievement scan *)

Lemma includes_In l x : includes l x = true <-> In x l.
Proof.
  unfold includes. rewrite existsb_exists. split.
  - intros [y [Hin Heq]]. apply String.eqb_eq in Heq. subst. assumption.
  - intros Hin. exists x. split; [assumption | apply String.eqb_refl].
Qed.

Lemma scanStep_cases u acc a :
  scanStep u acc a = acc \/
  (scanStep u acc a = acc ++ [Achievement.id a] /\
   ~ In (Achievement.id a) acc /\ u a = true).
Proof.
  unfold scanStep.
  destruct (includes acc (Achievement.id a)) eqn:E; simpl; [left; reflexivity|].
  destruct (u a) eqn:Eu; [|left; reflexivity].
  right. repeat split. intros Hin. apply includes_In in Hin. congruence.
Qed.

(** A scan only appends ids, each of them new and appended once. *)
Lemma scan_appends u table :
  forall start, exists newly,
    scan u table start = start ++ newly /\
    NoDup newly /\
    (forall i, In i newly -> ~ In i start).
Proof.
  unfold scan.
  induction table as [|a table IH]; intros start; simpl.
  - exists []. rewrite app_nil_r. repeat split; [constructor | intros i []].
  - destruct (IH (scanStep u start a)) as [new1 [Heq [Hnd Hfresh]]].
    rewrite Heq.
    destruct (scanStep_cases u start a) as [Hs | [Hs [Hnot _]]]; rewrite Hs in *.
    + exists new1. auto.
    + exists (Achievement.id a :: new1). rewrite <- app_assoc. simpl.
      repeat split.
      * constructor; [|assumption]. intros Hin.
        apply (Hfresh _ Hin). apply in_or_app. right. left. reflexivity.
      * intros i [Hi | Hi]; [subst; assumption|].
        intros Hin. apply (Hfresh _ Hi). apply in_or_app. left. assumption.
Qed.

Lemma scan_keeps u table start i :
  In i start -> In i (scan u table start).
Proof.
  intros Hin. destruct (scan_appends u table start) as [newly [Heq _]].
  rewrite Heq. apply in_or_app. left. assumption.
Qed.

(** After a scan every row whose condition holds is unlocked. *)
Lemma scan_complete u table :
  forall start a,
    In a table -> u a = true -> In (Achievement.id a) (scan u table start).
Proof.
  induction table as [|b table IH]; intros start a Hin Hu; [destruct Hin|].
  change (In (Achievement.id a) (scan u table (scanStep u start b))).
  destruct Hin as [Heq | Hin].
  - subst b. apply scan_keeps. unfold scanStep.
    destruct (includes start (Achievement.id a)) eqn:E; simpl.
    + apply includes_In. assumption.
    + rewrite Hu. apply in_or_app. right. left. reflexivity.
  - apply IH; assumption.
Qed.

(** A scan adds nothing when every row whose condition holds is
    unlocked already. *)
Lemma scan_fixed u table :
  forall start,
    (forall a, In a table -> u a = true -> In (Achievement.id a) start) ->
    scan u table start = start.
Proof.
  induction table as [|b table IH]; intros start H; [reflexivity|].
  change (scan u table (scanStep u start b) = start).
  assert (Hstep : scanStep u start b = start).
  { unfold scanStep.
    destruct (includes start (Achievement.id b)) eqn:E; simpl; [reflexivity|].
    destruct (u b) eqn:Eu; [|reflexivity].
    assert (In (Achievement.id b) start) as Hin
        by (apply H; [left; reflexivity | assumption]).
    apply includes_In in Hin. congruence. }
  rewrite Hstep. apply IH. intros a Hin. apply H. right. assumption.
Qed.

Lemma scan_idempotent u table start :
  scan u table (scan u table start) = scan u table start.
Proof.
  apply scan_fixed. intros a Hin Hu. apply scan_complete; assumption.
Qed.

Lemma scan_ext u u' table :
  (forall a, u a = u' a) ->
  forall start, scan u table start = scan u' table start.
Proof.
  intros Hext. unfold scan.
  induction table as [|a table IH]; intros start; [reflexivity|].
  simpl. unfold scanStep at 2 4. rewrite Hext. apply IH.
Qed.

Lemma bumpCounts_other ty s :
  ty <> "pomodoroCompleted" -> ty <> "dailyDesireCompleted" ->
  bumpCounts ty s = s.
Proof.
  intros H1 H2. unfold bumpCounts.
  apply String.eqb_neq in H1. apply String.eqb_neq in H2.
  rewrite H1, H2. reflexivity.
Qed.

Lemma isUnlocked_counts objs v s s' a :
  pomodoroCount s = pomodoroCount s' ->
  dailyDesireCount s = dailyDesireCount s' ->
  isUnlocked str_ge_num objs v s a = isUnlocked str_ge_num objs v s' a.
Proof.
  intros H1 H2. unfold isUnlocked. rewrite H1, H2. reflexivity.
Qed.

(** C3 (as amended): a second [checkAchievements] with the same
    arguments only appends to the unlocked ids of the first, never an
    id that is unlocked already; for every trigger type other than
    ["pomodoroCompleted"] and ["dailyDesireCompleted"] it changes
    nothing at all; for these two types it raises the counter once
    more, so it can unlock further ids. *)
Theorem checkAchievements_rescan objs ty v st :
  let once := checkAchievements str_ge_num objs ty v st in
  let twice := checkAchievements str_ge_num objs ty v once in
  (exists newly,
      achievements twice = achievements once ++ newly /\
      NoDup newly /\
      (forall i, In i newly -> ~ In i (achievements once))) /\
  (ty <> "pomodoroCompleted" -> ty <> "dailyDesireCompleted" ->
   twice = once) /\
  (ty = "pomodoroCompleted" ->
   pomodoroCount twice = pomodoroCount once + 1) /\
  (ty = "dailyDesireCompleted" ->
   dailyDesireCount twice = dailyDesireCount once + 1).
Proof.
  intros once twice. repeat split.
  - subst twice. unfold checkAchievements at 1.
    cbn [achievements with_achievements]. apply scan_appends.
  - intros H1 H2. subst twice once. unfold checkAchievements.
    rewrite !bumpCounts_other by assumption.
    cbn [achievements with_achievements].
    rewrite (scan_ext _ (isUnlocked str_ge_num objs v st))
      by (intros a; apply isUnlocked_counts; reflexivity).
    rewrite scan_idempotent. reflexivity.
  - intros ->. reflexivity.
  - intros ->. reflexivity.
Qed.

(** ** Daily streak *)

Lemma sameDay_true d day : sameDay d day = true <-> d = Some day.
Proof.
  destruct d as [s|]; simpl.
  - rewrite String.eqb_eq. split; congruence.
  - split; discriminate.
Qed.

Lemma sameDay_false d day : sameDay d day = false <-> d <> Some day.
Proof.
  rewrite <- sameDay_true. destruct (sameDay d day); split; congruence.
Qed.

Lemma checkAchievements_streak objs ty v s :
  currentStreak (checkAchievements str_ge_num objs ty v s) = currentStreak s /\
  lastStreakDate (checkAchievements str_ge_num objs ty v s) = lastStreakDate s.
Proof.
  pose proof (checkAchievements_frame objs ty v s) as H.
  unfold sameProgress in H. decompose [and] H. auto.
Qed.

Lemma checkDailyStreak_today objs today yesterdayString lastStreak s :
  lastStreak = Some today ->
  checkDailyStreak str_ge_num objs today yesterdayString lastStreak s = s.
Proof.
  intros H. unfold checkDailyStreak.
  apply sameDay_true in H. rewrite H. reflexivity.
Qed.

Lemma checkDailyStreak_yesterday objs today yesterdayString lastStreak s :
  lastStreak <> Some today -> lastStreak = Some yesterdayString ->
  checkDailyStreak str_ge_num objs today yesterdayString lastStreak s
  = checkAchievements str_ge_num objs "streak"
      (JsNumber (currentStreak s + 1))
      (with_streak (currentStreak s + 1) (Some today) s).
Proof.
  intros H1 H2. unfold checkDailyStreak.
  apply sameDay_false in H1. apply sameDay_true in H2.
  rewrite H1, H2. reflexivity.
Qed.

Lemma checkDailyStreak_gap objs today yesterdayString lastStreak s :
  lastStreak <> Some today -> lastStreak <> Some yesterdayString ->
  checkDailyStreak str_ge_num objs today yesterdayString lastStreak s
  = checkAchievements str_ge_num objs "streak" (JsNumber 1)
      (with_streak 1 (Some today) s).
Proof.
  intros H1 H2. unfold checkDailyStreak.
  apply sameDay_false in H1. apply sameDay_false in H2.
  rewrite H1, H2. reflexivity.
Qed.

(** When the callback is the one of the render that shows [st] (it
    closed over the [lastStreakDate] of [st]) and with the two date
    strings taken as given: [checkDailyStreak] leaves the ledger as it
    is when [lastStreakDate] is [today]; takes [currentStreak] from [N]
    to [N + 1] when it is [yesterdayString]; resets it to [1] otherwise;
    stamps [lastStreakDate] with [today] on both of the latter paths;
    and the callback of the next render changes nothing. *)
Theorem checkDailyStreak_cases objs today yesterdayString st :
  let st' :=
    checkDailyStreak str_ge_num objs today yesterdayString
                     (lastStreakDate st) st in
  (lastStreakDate st = Some today -> st' = st) /\
  (lastStreakDate st = Some yesterdayString -> yesterdayString <> today ->
   currentStreak st' = currentStreak st + 1 /\
   lastStreakDate st' = Some today) /\
  (lastStreakDate st <> Some today ->
   lastStreakDate st <> Some yesterdayString ->
   currentStreak st' = 1 /\ lastStreakDate st' = Some today) /\
  checkDailyStreak str_ge_num objs today yesterdayString
                   (lastStreakDate st') st' = st'.
Proof.
  intros st'.
  assert (Hy : lastStreakDate st = Some yesterdayString ->
               yesterdayString <> today ->
               currentStreak st' = currentStreak st + 1 /\
               lastStreakDate st' = Some today).
  { intros Hy Hne. subst st'.
    rewrite checkDailyStreak_yesterday by congruence.
    destruct (checkAchievements_streak objs "streak"
                (JsNumber (currentStreak st + 1))
                (with_streak (currentStreak st + 1) (Some today) st))
      as [H1 H2].
    rewrite H1, H2. split; reflexivity. }
  assert (Hg : lastStreakDate st <> Some today ->
               lastStreakDate st <> Some yesterdayString ->
               currentStreak st' = 1 /\ lastStreakDate st' = Some today).
  { intros Hnt Hny. subst st'.
    rewrite checkDailyStreak_gap by assumption.
    destruct (checkAchievements_streak objs "streak" (JsNumber 1)
                (with_streak 1 (Some today) st)) as [H1 H2].
    rewrite H1, H2. split; reflexivity. }
  split; [|split; [|split]]; try assumption.
  - intros Ht. apply checkDailyStreak_today. assumption.
  - apply checkDailyStreak_today.
    destruct (sameDay (lastStreakDate st) today) eqn:Et.
    + apply sameDay_true in Et. subst st'.
      rewrite checkDailyStreak_today by assumption. assumption.
    + apply sameDay_false in Et.
      destruct (sameDay (lastStreakDate st) yesterdayString) eqn:Ey.
      * apply sameDay_true in Ey. apply Hy; congruence.
      * apply sameDay_false in Ey. apply Hg; assumption.
Qed.

(** A callback keeps the [lastStreakDate] it closed over.  One that
    closed over yesterday's date and is called after the streak has
    been counted today does not see today's date: it counts again. *)
Lemma checkDailyStreak_stale_callback objs today yesterdayString s :
  yesterdayString <> today ->
  let callback :=
    checkDailyStreak str_ge_num objs today yesterdayString
                     (Some yesterdayString) in
  currentStreak (callback s) = currentStreak s + 1 /\
  lastStreakDate (callback s) = Some today /\
  currentStreak (callback (callback s)) = currentStreak s + 2.
Proof.
  intros Hne callback.
  assert (Hstep : forall s0,
             currentStreak (callback s0) = currentStreak s0 + 1 /\
             lastStreakDate (callback s0) = Some today).
  { intros s0. unfold callback.
    rewrite checkDailyStreak_yesterday by congruence.
    destruct (checkAchievements_streak objs "streak"
                (JsNumber (currentStreak s0 + 1))
                (with_streak (currentStreak s0 + 1) (Some today) s0))
      as [H1 H2].
    rewrite H1, H2. split; reflexivity. }
  destruct (Hstep s) as [H1 H2]. destruct (Hstep (callback s)) as [H3 _].
  repeat split; try assumption. lia.
Qed.

(** ** Daily reward *)

(** The gate of [handleClaimDailyReward] for a ledger whose stamp is
    [null] or a non-zero time: an attempt less than 24h after the stamp
    changes nothing and shows the time left in whole hours and minutes;
    any other attempt grants 25 XP and 15 gold and stamps [now]. *)
Lemma handleClaimDailyReward_gate now w :
  lastDailyRewardClaim (playerStats w) <> Some 0 ->
  0 < xpToNextLevel (playerStats w) ->
  (forall t,
      lastDailyRewardClaim (playerStats w) = Some t ->
      now - t < twentyFourHours ->
      handleClaimDailyReward str_ge_num now w
      = Some (w, MsgNextRewardIn
                   ((twentyFourHours - (now - t)) / 3600000)
                   (Z.rem (twentyFourHours - (now - t)) 3600000 / 60000))) /\
  (lastDailyRewardClaim (playerStats w) = None \/
   (exists t, lastDailyRewardClaim (playerStats w) = Some t /\
              twentyFourHours <= now - t) ->
   exists s1,
     addXp str_ge_num (objectives w) 25 (playerStats w) = Some s1 /\
     handleClaimDailyReward str_ge_num now w
     = Some (setPlayerStats
               (fun _ => with_lastDailyRewardClaim (Some now)
                           (addGold 15 s1)) w,
             MsgDailyRewardClaimed 25 15)).
Proof.
  intros Hnz Hn. split.
  - intros t Ht Hlt. unfold handleClaimDailyReward. rewrite Ht.
    cbn [truthy valueOr0].
    destruct (Z.eqb_spec t 0) as [->|_]; [congruence|].
    destruct (Z.ltb_spec (now - t) twentyFourHours); [|lia].
    reflexivity.
  - intros Hgrant.
    destruct (addXp_total (objectives w) 25 (playerStats w) Hn)
      as (s1 & x' & l' & n' & r' & H1 & _ & _).
    exists s1. split; [assumption|].
    unfold handleClaimDailyReward.
    destruct Hgrant as [Hnone | [t [Ht Hge]]].
    + rewrite Hnone. cbn [truthy andb]. rewrite H1. reflexivity.
    + rewrite Ht. cbn [truthy valueOr0].
      destruct (Z.ltb_spec (now - t) twentyFourHours); [lia|].
      rewrite andb_false_r. rewrite H1. reflexivity.
Qed.

(** A stamp of [0] is falsy: the guard lets every attempt through,
    whatever the time elapsed. *)
Lemma handleClaimDailyReward_zero_stamp now w :
  lastDailyRewardClaim (playerStats w) = Some 0 ->
  0 < xpToNextLevel (playerStats w) ->
  exists s1,
    addXp str_ge_num (objectives w) 25 (playerStats w) = Some s1 /\
    handleClaimDailyReward str_ge_num now w
    = Some (setPlayerStats
              (fun _ => with_lastDailyRewardClaim (Some now)
                          (addGold 15 s1)) w,
            MsgDailyRewardClaimed 25 15).
Proof.
  intros Hz Hn.
  destruct (addXp_total (objectives w) 25 (playerStats w) Hn)
    as (s1 & x' & l' & n' & r' & H1 & _ & _).
  exists s1. split; [assumption|].
  unfold handleClaimDailyReward. rewrite Hz. cbn [truthy valueOr0].
  change (negb (0 =? 0) && (now - 0 <? twentyFourHours)) with false.
  rewrite H1. reflexivity.
Qed.

(** C4: on a ledger whose stamp is [null] or a clock reading other than
    [0], [handleClaimDailyReward] grants if and only if the stamp is
    [null] or at least 24h old.  A grant adds exactly 25 XP and 15 gold
    and stamps [now]; an attempt less than 24h after the stamp returns
    the state as it was and reports the hours and minutes of
    [24h - elapsed].  After a grant at [now], the attempt 23h59m later
    is turned down with one minute left and the attempt 24h later is
    granted. *)
Theorem handleClaimDailyReward_allowed_iff now w :
  lastDailyRewardClaim (playerStats w) <> Some 0 ->
  0 < xpToNextLevel (playerStats w) ->
  ((exists w', handleClaimDailyReward str_ge_num now w
               = Some (w', MsgDailyRewardClaimed 25 15)) <->
   (lastDailyRewardClaim (playerStats w) = None \/
    exists t, lastDailyRewardClaim (playerStats w) = Some t /\
              twentyFourHours <= now - t)) /\
  (forall t,
      lastDailyRewardClaim (playerStats w) = Some t ->
      now - t < twentyFourHours ->
      handleClaimDailyReward str_ge_num now w
      = Some (w, MsgNextRewardIn
                   ((twentyFourHours - (now - t)) / 3600000)
                   (Z.rem (twentyFourHours - (now - t)) 3600000 / 60000))) /\
  (lastDailyRewardClaim (playerStats w) = None \/
   (exists t, lastDailyRewardClaim (playerStats w) = Some t /\
              twentyFourHours <= now - t) ->
   exists w',
     handleClaimDailyReward str_ge_num now w
     = Some (w', MsgDailyRewardClaimed 25 15) /\
     lastDailyRewardClaim (playerStats w') = Some now /\
     grantsXp 25 (playerStats w) (playerStats w') /\
     gold (playerStats w') = gold (playerStats w) + 15 /\
     (now <> 0 ->
      handleClaimDailyReward str_ge_num (now + (23 * 3600000 + 59 * 60000)) w'
      = Some (w', MsgNextRewardIn 0 1) /\
      exists w'',
        handleClaimDailyReward str_ge_num (now + twentyFourHours) w'
        = Some (w'', MsgDailyRewardClaimed 25 15) /\
        lastDailyRewardClaim (playerStats w'')
        = Some (now + twentyFourHours))).
Proof.
  intros Hnz Hn.
  destruct (handleClaimDailyReward_gate now w Hnz Hn) as [Hwait Hgrant].
  split; [|split; [exact Hwait|]].
  - split.
    + intros [w' Hw'].
      destruct (lastDailyRewardClaim (playerStats w)) as [t|] eqn:Et;
        [|left; reflexivity].
      right. exists t. split; [reflexivity|].
      destruct (Z_lt_ge_dec (now - t) twentyFourHours) as [Hlt|Hge]; [|lia].
      rewrite (Hwait t eq_refl Hlt) in Hw'. discriminate.
    + intros Hok. destruct (Hgrant Hok) as (s1 & _ & Hrun).
      eexists. exact Hrun.
  - intros Hok. destruct (Hgrant Hok) as (s1 & Hadd & Hrun).
    set (w' := setPlayerStats
                 (fun _ => with_lastDailyRewardClaim (Some now)
                             (addGold 15 s1)) w) in *.
    exists w'. split; [exact Hrun|].
    destruct (addXp_total (objectives w) 25 (playerStats w) Hn)
      as (s1' & x' & l' & n' & r' & Hadd' & Hloop & Hsame).
    rewrite Hadd in Hadd'. inversion Hadd'; subst s1'; clear Hadd'.
    apply sameProgress_wallet in Hsame.
    cbn [with_leveling level xp xpToNextLevel gold] in Hsame.
    destruct Hsame as (_ & _ & Hn1 & Hg1).
    apply levelUpLoop_sound in Hloop. destruct Hloop as (_ & _ & Hn2 & _).
    split; [reflexivity|]. split.
    { apply (grantsXp_same 25 (playerStats w) s1);
        [exact (addXp_grantsXp _ _ _ _ Hadd) | reflexivity ..]. }
    split.
    { cbn [w' setPlayerStats playerStats with_lastDailyRewardClaim addGold
           with_gold gold]. rewrite Hg1. reflexivity. }
    intros Hnow.
    assert (Hnz' : lastDailyRewardClaim (playerStats w') <> Some 0).
    { cbn [w' setPlayerStats playerStats with_lastDailyRewardClaim
           lastDailyRewardClaim]. congruence. }
    assert (Hn' : 0 < xpToNextLevel (playerStats w')).
    { cbn [w' setPlayerStats playerStats with_lastDailyRewardClaim addGold
           with_gold xpToNextLevel]. lia. }
    assert (Hstamp : lastDailyRewardClaim (playerStats w') = Some now)
      by reflexivity.
    split.
    + destruct (handleClaimDailyReward_gate
                  (now + (23 * 3600000 + 59 * 60000)) w' Hnz' Hn')
        as [Hwait' _].
      rewrite (Hwait' now Hstamp) by (unfold twentyFourHours; lia).
      replace (now + (23 * 3600000 + 59 * 60000) - now)
        with (23 * 3600000 + 59 * 60000) by lia.
      reflexivity.
    + destruct (handleClaimDailyReward_gate (now + twentyFourHours) w'
                  Hnz' Hn') as [_ Hgrant'].
      destruct Hgrant' as (s2 & _ & Hrun').
      { right. exists now. split; [exact Hstamp | lia]. }
      eexists. split; [exact Hrun'|]. reflexivity.
Qed.

(** ** Reward shop *)

(** C10: a purchase with [gold < cost] is rejected and returns the
    state as it was, the effect not applied; with [gold >= cost] the
    effect runs on the state in which [gold] is lower by exactly [cost]
    and still [>= 0], and that is the final [gold] for every effect
    which, like those of the shop, does not touch it. *)
Theorem handleBuyReward_gold cost effectFn message w :
  (gold (playerStats w) < cost ->
   handleBuyReward cost effectFn message w = (w, MsgNotEnoughGold cost)) /\
  (cost <= gold (playerStats w) ->
   handleBuyReward cost effectFn message w
   = (effectFn (setPlayerStats (deductGold cost) w), MsgText message) /\
   gold (deductGold cost (playerStats w)) = gold (playerStats w) - cost /\
   0 <= gold (deductGold cost (playerStats w)) /\
   ((forall w', gold (playerStats (effectFn w')) = gold (playerStats w')) ->
    gold (playerStats (fst (handleBuyReward cost effectFn message w)))
    = gold (playerStats w) - cost /\
    0 <= gold (playerStats (fst (handleBuyReward cost effectFn message w))))).
Proof.
  unfold handleBuyReward. split.
  - intros Hlt. destruct (Z.geb_spec (gold (playerStats w)) cost); [lia|].
    reflexivity.
  - intros Hge. destruct (Z.geb_spec (gold (playerStats w)) cost); [|lia].
    split; [reflexivity|].
    assert (Hg : gold (deductGold cost (playerStats w))
                 = gold (playerStats w) - cost) by (simpl; lia).
    split; [assumption|]. split; [lia|].
    intros Heff. cbn [fst]. rewrite Heff.
    cbn [setPlayerStats playerStats]. lia.
Qed.

(** The effects of the shop buttons leave [gold] alone. *)
Lemma shop_effects_keep_gold w :
  gold (playerStats (effectAddVitality20 w)) = gold (playerStats w) /\
  gold (playerStats (effectShowMessage w)) = gold (playerStats w) /\
  gold (playerStats (effectRaiseMaxVitality w)) = gold (playerStats w).
Proof. repeat split. Qed.

(** ** Objective and subtask store *)

Lemma find_map {A} (p : A -> bool) (g : A -> A) l :
  (forall x, p (g x) = p x) ->
  find p (map g l) = option_map g (find p l).
Proof.
  intros Hp. induction l as [|x l IH]; [reflexivity|].
  simpl. rewrite Hp. destruct (p x); [reflexivity | assumption].
Qed.

Lemma find_updateObjectiveDoc_id oid f objs :
  (forall o, Objective.id (f o) = Objective.id o) ->
  find (fun obj => String.eqb (Objective.id obj) oid)
       (updateObjectiveDoc oid f objs)
  = option_map f
      (find (fun obj => String.eqb (Objective.id obj) oid) objs).
Proof.
  intros Hid. unfold updateObjectiveDoc.
  rewrite find_map.
  - destruct (find _ objs) as [o|] eqn:E; [|reflexivity].
    apply find_some in E. destruct E as [_ E]. simpl. rewrite E.
    reflexivity.
  - intros x. destruct (String.eqb (Objective.id x) oid) eqn:E.
    + rewrite Hid. assumption.
    + assumption.
Qed.

Lemma find_updateObjectiveDoc_current f objs cur :
  (forall o, Objective.isCurrent (f o) = Objective.isCurrent o) ->
  find Objective.isCurrent objs = Some cur ->
  find Objective.isCurrent (updateObjectiveDoc (Objective.id cur) f objs)
  = Some (f cur).
Proof.
  intros Hcur Hfind. unfold updateObjectiveDoc.
  rewrite find_map.
  - rewrite Hfind. simpl. rewrite String.eqb_refl. reflexivity.
  - intros x. destruct (String.eqb (Objective.id x) (Objective.id cur));
      [apply Hcur | reflexivity].
Qed.

Lemma subtasksOf_deleteSubtaskDocs oid docs :
  subtasksOf oid (deleteSubtaskDocs oid docs) = [].
Proof.
  unfold subtasksOf, deleteSubtaskDocs.
  induction docs as [|d docs IH]; [reflexivity|].
  simpl. destruct (String.eqb (fst d) oid) eqn:E; simpl; [assumption|].
  rewrite E. assumption.
Qed.

Lemma subtasksOf_deleteSubtaskDocs_other oid oid' docs :
  oid' <> oid ->
  subtasksOf oid' (deleteSubtaskDocs oid docs) = subtasksOf oid' docs.
Proof.
  intros Hne. unfold subtasksOf, deleteSubtaskDocs.
  induction docs as [|d docs IH]; [reflexivity|].
  simpl. destruct (String.eqb (fst d) oid) eqn:E; simpl.
  - apply String.eqb_eq in E.
    destruct (String.eqb (fst d) oid') eqn:E'; [|assumption].
    apply String.eqb_eq in E'. congruence.
  - destruct (String.eqb (fst d) oid'); simpl; congruence.
Qed.

(** C6: [handleCompleteObjective] on an objective short of
    [totalProgress] shows its message and returns the state as it was;
    at [currentProgress >= totalProgress] it marks the objective
    completed and not current, grants exactly [xpReward] XP (the ledger
    is the one [addXp xpReward] returns: XP goes up by [xpReward] when
    that stays below the threshold, and level-ups consume the rest
    otherwise) and exactly [2 * xpReward] gold, and leaves no subtask
    document under the objective. *)
Theorem handleCompleteObjective_gate objectiveId w o :
  ready w = true ->
  find (fun obj => String.eqb (Objective.id obj) objectiveId)
       (objectives w) = Some o ->
  (Objective.currentProgress o < Objective.totalProgress o ->
   handleCompleteObjective str_ge_num objectiveId w
   = Some (w, Some MsgNotYetCompleted)) /\
  (Objective.totalProgress o <= Objective.currentProgress o ->
   0 < xpToNextLevel (playerStats w) ->
   exists w' s1 o',
     handleCompleteObjective str_ge_num objectiveId w
     = Some (w', Some (MsgObjectiveCompleted (Objective.name o)
                         (Objective.xpReward o)
                         (Objective.xpReward o * 2))) /\
     find (fun obj => String.eqb (Objective.id obj) objectiveId)
          (objectives w') = Some o' /\
     Objective.isCompleted o' = true /\
     Objective.isCurrent o' = false /\
     addXp str_ge_num (objectives w) (Objective.xpReward o)
           (playerStats w) = Some s1 /\
     sameProgress (playerStats w')
                  (addGold (Objective.xpReward o * 2) s1) /\
     grantsXp (Objective.xpReward o) (playerStats w) (playerStats w') /\
     (xp (playerStats w) + Objective.xpReward o
      < xpToNextLevel (playerStats w) ->
      xp (playerStats w') = xp (playerStats w) + Objective.xpReward o /\
      level (playerStats w') = level (playerStats w) /\
      xpToNextLevel (playerStats w') = xpToNextLevel (playerStats w)) /\
     gold (playerStats w')
     = gold (playerStats w) + 2 * Objective.xpReward o /\
     subtasksOf objectiveId (subtaskDocs w') = [] /\
     (forall d, In d (subtaskDocs w') -> fst d <> objectiveId) /\
     subtasks w' = []).
Proof.
  intros Hready Hfind. unfold handleCompleteObjective.
  rewrite Hready, Hfind. cbn [negb]. split.
  - intros Hlt. destruct (Z.ltb_spec (Objective.currentProgress o)
                            (Objective.totalProgress o)); [reflexivity|lia].
  - intros Hge Hn.
    destruct (Z.ltb_spec (Objective.currentProgress o)
                (Objective.totalProgress o)); [lia|].
    destruct (addXp_total (objectives w) (Objective.xpReward o)
                (playerStats w) Hn)
      as (s1 & x' & l' & n' & r' & H1 & _ & Hsame).
    rewrite H1.
    eexists. exists s1. exists (markCompleted o).
    split; [reflexivity|]. cbn [objectives subtasks subtaskDocs playerStats].
    split.
    { rewrite find_updateObjectiveDoc_id by reflexivity.
      rewrite Hfind. reflexivity. }
    split; [reflexivity|]. split; [reflexivity|].
    split; [reflexivity|].
    split; [apply checkAchievements_frame|].
    assert (Hw : level (checkAchievements str_ge_num (objectives w)
                          "objectiveCompleted" (JsString (Objective.id o))
                          (addGold (Objective.xpReward o * 2) s1))
                 = level s1 /\
                 xp (checkAchievements str_ge_num (objectives w)
                       "objectiveCompleted" (JsString (Objective.id o))
                       (addGold (Objective.xpReward o * 2) s1))
                 = xp s1 /\
                 xpToNextLevel
                   (checkAchievements str_ge_num (objectives w)
                      "objectiveCompleted" (JsString (Objective.id o))
                      (addGold (Objective.xpReward o * 2) s1))
                 = xpToNextLevel s1).
    { pose proof (checkAchievements_frame (objectives w)
                    "objectiveCompleted" (JsString (Objective.id o))
                    (addGold (Objective.xpReward o * 2) s1)) as Hf.
      apply sameProgress_wallet in Hf.
      destruct Hf as (Hl & Hx & Hnx & _).
      cbn [addGold with_gold level xp xpToNextLevel] in Hl, Hx, Hnx.
      repeat split; assumption. }
    destruct Hw as (Wl & Wx & Wn).
    split.
    { apply (grantsXp_same _ _ s1);
        [exact (addXp_grantsXp _ _ _ _ H1) | exact Wl | exact Wx | exact Wn]. }
    split.
    { intros Hlow.
      rewrite (addXp_no_levelUp (objectives w) (Objective.xpReward o)
                 (playerStats w) Hlow) in H1.
      inversion H1; subst s1.
      rewrite Wl, Wx, Wn. cbn [with_xp with_leveling level xp xpToNextLevel].
      repeat split; reflexivity. }
    split.
    { pose proof (checkAchievements_frame (objectives w)
                    "objectiveCompleted" (JsString (Objective.id o))
                    (addGold (Objective.xpReward o * 2) s1)) as Hf.
      apply sameProgress_wallet in Hf. apply sameProgress_wallet in Hsame.
      destruct Hf as (_ & _ & _ & Hg). destruct Hsame as (_ & _ & _ & Hg1).
      rewrite Hg. cbn [addGold with_gold gold].
      rewrite Hg1. cbn [with_leveling gold]. lia. }
    split; [apply subtasksOf_deleteSubtaskDocs|].
    split; [|reflexivity].
    intros d Hin. unfold deleteSubtaskDocs in Hin.
    apply filter_In in Hin. destruct Hin as [_ Hneq].
    apply negb_true_iff in Hneq. apply String.eqb_neq in Hneq. assumption.
Qed.

(** ** Toggling a subtask *)

Lemma subtasksOf_updateSubtaskDoc oid sid f docs :
  subtasksOf oid (updateSubtaskDoc oid sid f docs)
  = map (fun s => if String.eqb (Subtask.id s) sid then f s else s)
        (subtasksOf oid docs).
Proof.
  unfold subtasksOf, updateSubtaskDoc.
  induction docs as [|d docs IH]; [reflexivity|].
  cbn [map filter].
  destruct (String.eqb (fst d) oid) eqn:E;
    destruct (String.eqb (Subtask.id (snd d)) sid) eqn:E';
    cbn [andb fst snd]; rewrite ?E; cbn [map fst snd]; rewrite ?E';
    rewrite ?IH; reflexivity.
Qed.

Lemma find_toggled sid b l st :
  find (fun s => String.eqb (Subtask.id s) sid) l = Some st ->
  find (fun s => String.eqb (Subtask.id s) sid)
       (map (fun s => if String.eqb (Subtask.id s) sid
                      then withIsCompleted b s else s) l)
  = Some (withIsCompleted b st).
Proof.
  intros Hfind. rewrite find_map.
  - rewrite Hfind. apply find_some in Hfind. destruct Hfind as [_ E].
    cbn [option_map]. rewrite E. reflexivity.
  - intros x. destruct (String.eqb (Subtask.id x) sid) eqn:E;
      [assumption | assumption].
Qed.

Lemma checkDailyStreak_wallet objs today yesterdayString lastStreak s :
  let s' :=
    checkDailyStreak str_ge_num objs today yesterdayString lastStreak s in
  level s' = level s /\ xp s' = xp s /\
  xpToNextLevel s' = xpToNextLevel s /\ gold s' = gold s.
Proof.
  unfold checkDailyStreak.
  destruct (sameDay lastStreak today); [auto|].
  destruct (sameDay lastStreak yesterdayString);
    match goal with
    | |- context [checkAchievements ?f ?o ?t ?v ?x] =>
        pose proof (sameProgress_wallet _ _
                      (checkAchievements_frame o t v x)) as H
    end; cbn [with_streak level xp xpToNextLevel gold] in H; exact H.
Qed.

Lemma addXp_wallet objs amount st :
  0 < xpToNextLevel st ->
  exists s1,
    addXp str_ge_num objs amount st = Some s1 /\
    gold s1 = gold st /\
    xpToNextLevel st <= xpToNextLevel s1.
Proof.
  intros Hn.
  destruct (addXp_total objs amount st Hn)
    as (s1 & x' & l' & n' & r' & H1 & H2 & H3).
  exists s1. split; [assumption|].
  apply levelUpLoop_sound in H2. apply sameProgress_wallet in H3.
  cbn [with_leveling level xp xpToNextLevel gold] in H3. lia.
Qed.

(** Marking a subtask complete. *)
Lemma toggle_complete today yesterdayString sid w cur st :
  settled w cur st sid ->
  0 < xpToNextLevel (playerStats w) ->
  exists w1 m s1,
    handleToggleSubtaskComplete str_ge_num today yesterdayString sid false w
    = Some (w1, m) /\
    settled w1
      (withProgress
         (Z.min (Objective.currentProgress cur
                 + Subtask.progressContribution st)
                (Objective.totalProgress cur)) cur)
      (withIsCompleted true st) sid /\
    addXp str_ge_num (objectives w) (Subtask.xpReward st) (playerStats w)
    = Some s1 /\
    level (playerStats w1) = level s1 /\
    xp (playerStats w1) = xp s1 /\
    xpToNextLevel (playerStats w1) = xpToNextLevel s1 /\
    gold (playerStats w1) = gold (playerStats w) + Subtask.goldReward st.
Proof.
  intros (Hready & Hcur & Hsync & Hfind) Hn.
  destruct (addXp_wallet (objectives w) (Subtask.xpReward st)
              (playerStats w) Hn) as (s1 & H1 & Hg & _).
  unfold handleToggleSubtaskComplete.
  rewrite Hready, Hcur, Hfind. cbn [negb]. rewrite H1.
  eexists. eexists. exists s1. split; [reflexivity|].
  split.
  { unfold settled, currentObjective.
    cbn [ready objectives subtasks subtaskDocs].
    split; [first [reflexivity | assumption]|]. split.
    { apply find_updateObjectiveDoc_current; [reflexivity | assumption]. }
    split; [reflexivity|].
    rewrite subtasksOf_updateSubtaskDoc. rewrite <- Hsync.
    apply find_toggled. assumption. }
  split; [reflexivity|]. cbn [playerStats].
  match goal with
  | |- context [checkDailyStreak ?f ?o ?t ?y ?l ?x] =>
      destruct (checkDailyStreak_wallet o t y l x) as (Hl & Hx & Hnx & Hgd)
  end.
  rewrite Hl, Hx, Hnx, Hgd.
  match goal with
  | |- context [checkAchievements ?f ?o ?t ?v ?x] =>
      destruct (sameProgress_wallet _ _ (checkAchievements_frame o t v x))
        as (Hl' & Hx' & Hnx' & Hgd')
  end.
  rewrite Hl', Hx', Hnx', Hgd'. cbn [addGold with_gold level xp xpToNextLevel gold].
  repeat split. lia.
Qed.

(** Marking a subtask incomplete again. *)
Lemma toggle_undo today yesterdayString sid w cur st :
  settled w cur st sid ->
  exists w2 m,
    handleToggleSubtaskComplete str_ge_num today yesterdayString sid true w
    = Some (w2, m) /\
    settled w2
      (withProgress
         (Z.max (Objective.currentProgress cur
                 - Subtask.progressContribution st) 0) cur)
      (withIsCompleted false st) sid /\
    level (playerStats w2) = level (playerStats w) /\
    xp (playerStats w2)
    = Z.max 0 (xp (playerStats w) - Subtask.xpReward st) /\
    xpToNextLevel (playerStats w2) = xpToNextLevel (playerStats w) /\
    gold (playerStats w2)
    = Z.max 0 (gold (playerStats w) - Subtask.goldReward st).
Proof.
  intros (Hready & Hcur & Hsync & Hfind).
  unfold handleToggleSubtaskComplete.
  rewrite Hready, Hcur, Hfind. cbn [negb].
  eexists. eexists. split; [reflexivity|].
  split.
  { unfold settled, currentObjective.
    cbn [ready objectives subtasks subtaskDocs].
    split; [first [reflexivity | assumption]|]. split.
    { apply find_updateObjectiveDoc_current; [reflexivity | assumption]. }
    split; [reflexivity|].
    rewrite subtasksOf_updateSubtaskDoc. rewrite <- Hsync.
    apply find_toggled. assumption. }
  repeat split.
Qed.

(** C2 (as amended): from a settled state within the ranges of the
    data model ([currentProgress >= 0], [gold >= 0],
    [xpToNextLevel > 0]), marking a subtask complete, incomplete and
    complete again returns, and leaves the objective's [currentProgress]
    and the ledger's [gold] where a single completion leaves them; it
    leaves [xp] there as well when [xp >= 0] and the first completion
    causes no level-up ([xp + xpReward < xpToNextLevel]). *)
Theorem toggle_thrice_as_once
  today1 yesterday1 today2 yesterday2 today3 yesterday3 sid w cur st :
  settled w cur st sid ->
  0 <= Objective.currentProgress cur ->
  0 <= gold (playerStats w) ->
  0 < xpToNextLevel (playerStats w) ->
  exists w1 w2 w3 m1 m2 m3,
    handleToggleSubtaskComplete str_ge_num today1 yesterday1 sid false w
    = Some (w1, m1) /\
    handleToggleSubtaskComplete str_ge_num today2 yesterday2 sid true w1
    = Some (w2, m2) /\
    handleToggleSubtaskComplete str_ge_num today3 yesterday3 sid false w2
    = Some (w3, m3) /\
    option_map Objective.currentProgress (currentObjective w3)
    = option_map Objective.currentProgress (currentObjective w1) /\
    gold (playerStats w3) = gold (playerStats w1) /\
    (0 <= xp (playerStats w) ->
     xp (playerStats w) + Subtask.xpReward st
     < xpToNextLevel (playerStats w) ->
     xp (playerStats w3) = xp (playerStats w1) /\
     level (playerStats w3) = level (playerStats w1)).
Proof.
  intros Hset Hcp Hgold Hn.
  destruct (toggle_complete today1 yesterday1 sid w cur st Hset Hn)
    as (w1 & m1 & s1 & T1 & Hset1 & A1 & L1 & X1 & N1 & G1).
  destruct (toggle_undo today2 yesterday2 sid w1 _ _ Hset1)
    as (w2 & m2 & T2 & Hset2 & L2 & X2 & N2 & G2).
  assert (Hn2 : 0 < xpToNextLevel (playerStats w2)).
  { destruct (addXp_wallet (objectives w) (Subtask.xpReward st)
                (playerStats w) Hn) as (s1' & A1' & _ & Hmono).
    rewrite A1 in A1'. inversion A1'; subst s1'. lia. }
  destruct (toggle_complete today3 yesterday3 sid w2 _ _ Hset2 Hn2)
    as (w3 & m3 & s3 & T3 & Hset3 & A3 & L3 & X3 & N3 & G3).
  exists w1, w2, w3, m1, m2, m3.
  split; [assumption|]. split; [assumption|]. split; [assumption|].
  destruct Hset1 as (_ & C1 & _). destruct Hset3 as (_ & C3 & _).
  rewrite C1, C3.
  cbn [option_map withProgress withIsCompleted
         Objective.currentProgress Objective.totalProgress
         Subtask.progressContribution Subtask.xpReward Subtask.goldReward]
    in *.
  split; [f_equal; lia|]. split; [lia|].
  intros Hxp Hno.
  rewrite addXp_no_levelUp in A1 by assumption.
  inversion A1; subst s1.
  cbn [with_xp with_leveling level xp xpToNextLevel] in *.
  rewrite addXp_no_levelUp in A3 by lia.
  inversion A3; subst s3.
  cbn [with_xp with_leveling level xp xpToNextLevel] in *.
  lia.
Qed.

(** ** Satisfaction history *)

Lemma findIndex_None today h :
  findIndex today h = None -> ~ In today (map date h).
Proof.
  induction h as [|e h IH]; simpl; [auto|].
  destruct (String.eqb (date e) today) eqn:E; [discriminate|].
  destruct (findIndex today h); [discriminate|].
  intros _ [Heq | Hin].
  - apply String.eqb_neq in E. contradiction.
  - apply IH; [reflexivity | assumption].
Qed.

Lemma findIndex_Some today h :
  forall i, findIndex today h = Some i -> In today (map date h).
Proof.
  induction h as [|e h IH]; simpl; intros i H; [discriminate|].
  destruct (String.eqb (date e) today) eqn:E.
  - left. apply String.eqb_eq. assumption.
  - destruct (findIndex today h) as [j|]; [|discriminate].
    right. apply (IH j). reflexivity.
Qed.

Lemma replaceAt_dates v h : forall i, map date (replaceAt i v h) = map date h.
Proof.
  induction h as [|e h IH]; intros i; [reflexivity|].
  destruct i as [|i]; simpl; [reflexivity|]. rewrite IH. reflexivity.
Qed.

Lemma replaceAt_length v h :
  forall i, List.length (replaceAt i v h) = List.length h.
Proof.
  intros i. rewrite <- (length_map date), replaceAt_dates.
  apply length_map.
Qed.

(** The entry found for today carries the new value afterwards. *)
Lemma replaceAt_today today v h :
  forall i, findIndex today h = Some i ->
    In {| date := today; value := v |} (replaceAt i v h).
Proof.
  induction h as [|e h IH]; simpl; intros i H; [discriminate|].
  destruct (String.eqb (date e) today) eqn:E.
  - inversion H; subst. apply String.eqb_eq in E. rewrite E.
    left. reflexivity.
  - destruct (findIndex today h) as [j|]; [|discriminate].
    inversion H; subst. right. apply IH. reflexivity.
Qed.

(** The entries of the other days stay as they are. *)
Lemma replaceAt_others today v h e :
  forall i, findIndex today h = Some i ->
    In e h -> date e <> today -> In e (replaceAt i v h).
Proof.
  induction h as [|x h IH]; simpl; intros i H Hin Hne; [destruct Hin|].
  destruct (String.eqb (date x) today) eqn:E.
  - inversion H; subst. apply String.eqb_eq in E.
    destruct Hin as [-> | Hin]; [contradiction | right; assumption].
  - destruct (findIndex today h) as [j|]; [|discriminate].
    inversion H; subst.
    destruct Hin as [-> | Hin]; [left; reflexivity | right].
    apply IH; auto.
Qed.

Lemma replaceAt_from today v h e :
  forall i, In e (replaceAt i v h) -> date e <> today ->
    findIndex today h = Some i -> In e h.
Proof.
  induction h as [|x h IH]; simpl; intros i Hin Hne H; [destruct Hin|].
  destruct (String.eqb (date x) today) eqn:E.
  - inversion H; subst. apply String.eqb_eq in E.
    destruct Hin as [<- | Hin]; [simpl in Hne; contradiction | right; assumption].
  - destruct (findIndex today h) as [j|]; [|discriminate].
    inversion H; subst.
    destruct Hin as [-> | Hin]; [left; reflexivity | right].
    apply (IH j); auto.
Qed.

Lemma StronglySorted_app_r {A} (R : A -> A -> Prop) l1 :
  forall l2, StronglySorted R (l1 ++ l2) -> StronglySorted R l2.
Proof.
  induction l1 as [|x l1 IH]; intros l2 H; [assumption|].
  apply IH. simpl in H. apply StronglySorted_inv in H. tauto.
Qed.

Lemma StronglySorted_snoc {A} (R : A -> A -> Prop) l x :
  StronglySorted R l -> Forall (fun y => R y x) l ->
  StronglySorted R (l ++ [x]).
Proof.
  induction 1 as [|a l Hs IH Ha]; intros Hall; simpl.
  - repeat constructor.
  - inversion Hall; subst. constructor; [apply IH; assumption|].
    apply Forall_app. split; [assumption|]. constructor; [assumption|constructor].
Qed.

Lemma sliceLast30_length {A} (l : list A) :
  (List.length (sliceLast30 l) <= 30)%nat.
Proof. unfold sliceLast30. rewrite length_skipn. lia. Qed.

Lemma sliceLast30_short {A} (l : list A) :
  (List.length l <= 30)%nat -> sliceLast30 l = l.
Proof.
  intros H. unfold sliceLast30.
  replace (List.length l - 30)%nat with O by lia. reflexivity.
Qed.

Lemma sliceLast30_dates h :
  map date (sliceLast30 h) = sliceLast30 (map date h).
Proof.
  unfold sliceLast30. rewrite length_map, skipn_map. reflexivity.
Qed.

Lemma sliceLast30_NoDup {A} (l : list A) : NoDup l -> NoDup (sliceLast30 l).
Proof.
  unfold sliceLast30. intros H.
  rewrite <- (firstn_skipn (List.length l - 30) l) in H.
  apply NoDup_app_remove_l in H. assumption.
Qed.

Lemma sliceLast30_sorted {A} (R : A -> A -> Prop) (l : list A) :
  StronglySorted R l -> StronglySorted R (sliceLast30 l).
Proof.
  unfold sliceLast30. intros H.
  rewrite <- (firstn_skipn (List.length l - 30) l) in H.
  apply StronglySorted_app_r in H. assumption.
Qed.

Lemma sliceLast30_snoc {A} (l : list A) x :
  (List.length l <= 30)%nat -> In x (sliceLast30 (l ++ [x])).
Proof.
  intros H. unfold sliceLast30. rewrite skipn_app.
  apply in_or_app. right. rewrite length_app. simpl.
  replace (List.length l + 1 - 30 - List.length l)%nat with O by lia.
  left. reflexivity.
Qed.

(** C7 (as amended): on a ledger whose history has at most 30 entries,
    at most one per day, in chronological order, [updateSatisfaction]
    sets [currentSatisfaction] to the value clamped to [0..100]; the
    history then holds today's entry with that value, replaced in place
    when today had one and appended otherwise; it has at most 30
    entries, at most one per day; and it is in chronological order
    provided no entry of the old history is dated after today. *)
Theorem updateSatisfaction_history today v st :
  let h := satisfactionHistory st in
  let st' := updateSatisfaction today v st in
  let h' := satisfactionHistory st' in
  let clamped := Z.min 100 (Z.max 0 v) in
  (List.length h <= 30)%nat -> oneEntryPerDay h -> chronological h ->
  currentSatisfaction st' = clamped /\
  0 <= clamped <= 100 /\
  In {| date := today; value := clamped |} h' /\
  (In today (map date h) ->
   map date h' = map date h /\
   forall e, date e <> today -> (In e h' <-> In e h)) /\
  (~ In today (map date h) ->
   h' = sliceLast30 (h ++ [{| date := today; value := clamped |}])) /\
  (List.length h' <= 30)%nat /\
  oneEntryPerDay h' /\
  ((forall e, In e h -> String.leb (date e) today = true) ->
   chronological h').
Proof.
  intros h st' h' clamped Hlen Hnd Hch.
  subst st' h'. unfold updateSatisfaction.
  cbn [satisfactionHistory currentSatisfaction with_satisfaction].
  fold h. fold clamped.
  split; [reflexivity|]. split; [lia|].
  destruct (findIndex today h) as [i|] eqn:E.
  - pose proof (findIndex_Some _ _ _ E) as Hin.
    rewrite sliceLast30_short by (rewrite replaceAt_length; assumption).
    split; [apply replaceAt_today; assumption|].
    split.
    { intros _. split; [apply replaceAt_dates|].
      intros e Hne. split.
      - intros He. apply (replaceAt_from today clamped h e i); assumption.
      - intros He. apply (replaceAt_others today); assumption. }
    split; [intros Hnot; contradiction|].
    split; [rewrite replaceAt_length; assumption|].
    unfold oneEntryPerDay, chronological. rewrite replaceAt_dates.
    split; [assumption | intros _; assumption].
  - pose proof (findIndex_None _ _ E) as Hnot.
    split; [apply sliceLast30_snoc; assumption|].
    split; [intros Hin; contradiction|].
    split; [intros _; reflexivity|].
    split; [apply sliceLast30_length|].
    unfold oneEntryPerDay, chronological.
    rewrite sliceLast30_dates, map_app. cbn [map date].
    split.
    + apply sliceLast30_NoDup. apply NoDup_app; [assumption | repeat constructor; auto |].
      intros d Hd [<- | []]. contradiction.
    + intros Hpast. apply sliceLast30_sorted.
      apply StronglySorted_snoc; [assumption|].
      apply Forall_forall. intros d Hd.
      apply in_map_iff in Hd. destruct Hd as [e [<- He]].
      apply Hpast. assumption.
Qed.

End Properties.

(** * Concrete runs *)

Lemma addXp_leveling_invariant_witness :
  (0 <= xp (ledgerWithXp 95) /\
   xp (ledgerWithXp 95) < xpToNextLevel (ledgerWithXp 95) /\ 0 <= 30) /\
  exists st',
    addXp idsAreNaN [] 30 (ledgerWithXp 95) = Some st' /\
    xp st' < xpToNextLevel st' /\
    level (ledgerWithXp 95) <= level st' /\
    xpToNextLevel (ledgerWithXp 95) <= xpToNextLevel st'.
Proof.
  split; [simpl; lia|].
  apply (addXp_leveling_invariant idsAreNaN [] 30 (ledgerWithXp 95));
    simpl; lia.
Defined.

Example addXp_levels_up :
  option_map (fun s => (level s, xp s, xpToNextLevel s))
             (addXp idsAreNaN [] 30 (ledgerWithXp 95))
  = Some (2, 25, 150).
Proof. reflexivity. Qed.

(** Outside the ranges of the data model the loop need not end: with
    [xpToNextLevel = 0] every iteration leaves [xp] and the threshold as
    they are. *)
Example addXp_zero_threshold_diverges :
  forall fuel,
    levelUpLoop fuel (xp (with_leveling (-1) 1 0 initialPlayerStats) + 1) 1 0 []
    = None.
Proof.
  apply (addXp_None_diverges idsAreNaN [] 1
           (with_leveling (-1) 1 0 initialPlayerStats)).
  reflexivity.
Qed.

Lemma deductXp_inverts_addXp_witness :
  (0 <= 20 /\ 0 <= xp initialPlayerStats /\
   xp initialPlayerStats + 20 < xpToNextLevel initialPlayerStats) /\
  exists st1,
    addXp idsAreNaN [] 20 initialPlayerStats = Some st1 /\
    xp (deductXp 20 st1) = xp initialPlayerStats.
Proof.
  split; [simpl; lia|].
  apply (proj1 (deductXp_inverts_addXp idsAreNaN) [] 20 initialPlayerStats);
    simpl; lia.
Defined.

(** C9, counterexample: [addXp (-5)] on a ledger with 3 XP yields -2 XP;
    the deduct path would yield [max 0 (3 - 5) = 0]. *)
Lemma addXp_negative_amount_not_routed :
  exists st',
    addXp idsAreNaN [] (-5) (ledgerWithXp 3) = Some st' /\
    xp st' = -2 /\
    xp st' <> Z.max 0 (xp (ledgerWithXp 3) - Z.abs (-5)) /\
    ~ 0 <= xp st'.
Proof.
  eexists. split; [reflexivity|]. simpl. repeat split; lia.
Qed.

Lemma addXp_negative_amount_witness :
  (-5 < 0 /\ xp (ledgerWithXp 3) < xpToNextLevel (ledgerWithXp 3)) /\
  exists st',
    addXp idsAreNaN [] (-5) (ledgerWithXp 3) = Some st' /\
    xp st' = xp (ledgerWithXp 3) - Z.abs (-5) /\
    level st' = level (ledgerWithXp 3) /\
    xpToNextLevel st' = xpToNextLevel (ledgerWithXp 3) /\
    (xp st' < 0 <-> xp (ledgerWithXp 3) < Z.abs (-5)) /\
    (xp st' = xp (deductXp (Z.abs (-5)) (ledgerWithXp 3))
     <-> Z.abs (-5) <= xp (ledgerWithXp 3)).
Proof.
  split; [simpl; lia|].
  apply (addXp_negative_amount idsAreNaN [] (-5) (ledgerWithXp 3));
    simpl; lia.
Defined.

(** C3, counterexample: with eight sessions on the ledger, a first
    ["pomodoroCompleted"] scan counts nine and unlocks nothing; the same
    scan again counts ten and unlocks ["pomodoroMaster"]. *)
Lemma rescan_pomodoro_unlocks_more :
  let once :=
    checkAchievements idsAreNaN [] "pomodoroCompleted" JsNull
                      ledgerEightPomodoros in
  let twice :=
    checkAchievements idsAreNaN [] "pomodoroCompleted" JsNull once in
  achievements once = ["pomodoroInitiate"] /\
  achievements twice = ["pomodoroInitiate"; "pomodoroMaster"] /\
  achievements twice <> achievements once.
Proof.
  cbv zeta. repeat split. vm_compute. discriminate.
Qed.

Lemma checkAchievements_rescan_witness :
  (("streak" <> "pomodoroCompleted" /\ "streak" <> "dailyDesireCompleted") /\
   checkAchievements idsAreNaN [] "streak" (JsNumber 3)
     (checkAchievements idsAreNaN [] "streak" (JsNumber 3) initialPlayerStats)
   = checkAchievements idsAreNaN [] "streak" (JsNumber 3) initialPlayerStats) /\
  pomodoroCount
    (checkAchievements idsAreNaN [] "pomodoroCompleted" JsNull
       (checkAchievements idsAreNaN [] "pomodoroCompleted" JsNull
          ledgerEightPomodoros))
  = pomodoroCount
      (checkAchievements idsAreNaN [] "pomodoroCompleted" JsNull
         ledgerEightPomodoros) + 1 /\
  dailyDesireCount
    (checkAchievements idsAreNaN [] "dailyDesireCompleted" JsNull
       (checkAchievements idsAreNaN [] "dailyDesireCompleted" JsNull
          initialPlayerStats))
  = dailyDesireCount
      (checkAchievements idsAreNaN [] "dailyDesireCompleted" JsNull
         initialPlayerStats) + 1.
Proof.
  split; [split; [split; discriminate|]|split].
  - apply (proj1 (proj2 (checkAchievements_rescan idsAreNaN [] "streak"
                           (JsNumber 3) initialPlayerStats)));
      discriminate.
  - apply (proj1 (proj2 (proj2 (checkAchievements_rescan idsAreNaN []
                                  "pomodoroCompleted" JsNull
                                  ledgerEightPomodoros)))).
    reflexivity.
  - apply (proj2 (proj2 (proj2 (checkAchievements_rescan idsAreNaN []
                                  "dailyDesireCompleted" JsNull
                                  initialPlayerStats)))).
    reflexivity.
Defined.

Lemma checkDailyStreak_cases_witness :
  (lastStreakDate ledgerStreak3 = Some "2024-05-01" /\
   checkDailyStreak idsAreNaN [] "2024-05-01" "2024-04-30"
                    (lastStreakDate ledgerStreak3) ledgerStreak3
   = ledgerStreak3) /\
  ((lastStreakDate ledgerStreak3 = Some "2024-05-01" /\
    "2024-05-01" <> "2024-05-02") /\
   currentStreak
     (checkDailyStreak idsAreNaN [] "2024-05-02" "2024-05-01"
                       (lastStreakDate ledgerStreak3) ledgerStreak3)
   = currentStreak ledgerStreak3 + 1 /\
   lastStreakDate
     (checkDailyStreak idsAreNaN [] "2024-05-02" "2024-05-01"
                       (lastStreakDate ledgerStreak3) ledgerStreak3)
   = Some "2024-05-02") /\
  ((lastStreakDate ledgerStreak3 <> Some "2024-05-03" /\
    lastStreakDate ledgerStreak3 <> Some "2024-05-02") /\
   currentStreak
     (checkDailyStreak idsAreNaN [] "2024-05-03" "2024-05-02"
                       (lastStreakDate ledgerStreak3) ledgerStreak3)
   = 1 /\
   lastStreakDate
     (checkDailyStreak idsAreNaN [] "2024-05-03" "2024-05-02"
                       (lastStreakDate ledgerStreak3) ledgerStreak3)
   = Some "2024-05-03").
Proof.
  split; [split; [reflexivity|]|split; split].
  - apply (proj1 (checkDailyStreak_cases idsAreNaN [] "2024-05-01"
                    "2024-04-30" ledgerStreak3)).
    reflexivity.
  - split; [reflexivity | discriminate].
  - apply (proj1 (proj2 (checkDailyStreak_cases idsAreNaN [] "2024-05-02"
                           "2024-05-01" ledgerStreak3)));
      [reflexivity | discriminate].
  - split; discriminate.
  - apply (proj1 (proj2 (proj2 (checkDailyStreak_cases idsAreNaN []
                                  "2024-05-03" "2024-05-02" ledgerStreak3))));
      discriminate.
Defined.

Lemma handleBuyReward_gold_witness :
  (gold (playerStats (questWorld 0 (ledgerWithGold 10))) < 40 /\
   handleBuyReward 40 effectAddVitality20 "+20 Vitalidad"
                   (questWorld 0 (ledgerWithGold 10))
   = (questWorld 0 (ledgerWithGold 10), MsgNotEnoughGold 40)) /\
  (40 <= gold (playerStats (questWorld 0 (ledgerWithGold 50))) /\
   (forall w',
       gold (playerStats (effectAddVitality20 w')) = gold (playerStats w')) /\
   gold (playerStats
           (fst (handleBuyReward 40 effectAddVitality20 "+20 Vitalidad"
                   (questWorld 0 (ledgerWithGold 50)))))
   = gold (playerStats (questWorld 0 (ledgerWithGold 50))) - 40 /\
   0 <= gold (playerStats
                (fst (handleBuyReward 40 effectAddVitality20 "+20 Vitalidad"
                        (questWorld 0 (ledgerWithGold 50)))))).
Proof.
  split.
  - split; [simpl; lia|].
    apply (proj1 (handleBuyReward_gold 40 effectAddVitality20
                    "+20 Vitalidad" (questWorld 0 (ledgerWithGold 10)))).
    simpl; lia.
  - split; [simpl; lia|]. split; [reflexivity|].
    apply (proj2 (handleBuyReward_gold 40 effectAddVitality20
                    "+20 Vitalidad" (questWorld 0 (ledgerWithGold 50)))).
    + simpl; lia.
    + reflexivity.
Defined.

Lemma handleCompleteObjective_gate_witness :
  (ready (questWorld 40 initialPlayerStats) = true /\
   find (fun obj => String.eqb (Objective.id obj) "obj1")
        (objectives (questWorld 40 initialPlayerStats)) = Some (quest 40) /\
   Objective.currentProgress (quest 40) < Objective.totalProgress (quest 40) /\
   handleCompleteObjective idsAreNaN "obj1" (questWorld 40 initialPlayerStats)
   = Some (questWorld 40 initialPlayerStats, Some MsgNotYetCompleted)) /\
  (ready (questWorld 100 initialPlayerStats) = true /\
   find (fun obj => String.eqb (Objective.id obj) "obj1")
        (objectives (questWorld 100 initialPlayerStats)) = Some (quest 100) /\
   Objective.totalProgress (quest 100)
   <= Objective.currentProgress (quest 100) /\
   0 < xpToNextLevel (playerStats (questWorld 100 initialPlayerStats)) /\
   exists w' s1 o',
     handleCompleteObjective idsAreNaN "obj1"
                             (questWorld 100 initialPlayerStats)
     = Some (w', Some (MsgObjectiveCompleted "Quest" 50 (50 * 2))) /\
     find (fun obj => String.eqb (Objective.id obj) "obj1") (objectives w')
     = Some o' /\
     Objective.isCompleted o' = true /\
     Objective.isCurrent o' = false /\
     addXp idsAreNaN (objectives (questWorld 100 initialPlayerStats)) 50
           (playerStats (questWorld 100 initialPlayerStats)) = Some s1 /\
     sameProgress (playerStats w') (addGold (50 * 2) s1) /\
     grantsXp 50 (playerStats (questWorld 100 initialPlayerStats))
              (playerStats w') /\
     (xp (playerStats (questWorld 100 initialPlayerStats)) + 50
      < xpToNextLevel (playerStats (questWorld 100 initialPlayerStats)) /\
      xp (playerStats w')
      = xp (playerStats (questWorld 100 initialPlayerStats)) + 50 /\
      level (playerStats w')
      = level (playerStats (questWorld 100 initialPlayerStats)) /\
      xpToNextLevel (playerStats w')
      = xpToNextLevel (playerStats (questWorld 100 initialPlayerStats))) /\
     gold (playerStats w')
     = gold (playerStats (questWorld 100 initialPlayerStats)) + 2 * 50 /\
     subtasksOf "obj1" (subtaskDocs w') = [] /\
     (forall d, In d (subtaskDocs w') -> fst d <> "obj1") /\
     subtasks w' = []).
Proof.
  split.
  - split; [reflexivity|]. split; [reflexivity|]. split; [simpl; lia|].
    apply (proj1 (handleCompleteObjective_gate idsAreNaN "obj1"
                    (questWorld 40 initialPlayerStats) (quest 40)
                    eq_refl eq_refl)).
    simpl; lia.
  - split; [reflexivity|]. split; [reflexivity|]. split; [simpl; lia|].
    split; [simpl; lia|].
    destruct (proj2 (handleCompleteObjective_gate idsAreNaN "obj1"
                       (questWorld 100 initialPlayerStats) (quest 100)
                       eq_refl eq_refl))
      as (w' & s1 & o' & Hrun & Hfind & Hdone & Hcur & Hadd & Hsame & Hxp
          & Hlow & Hrest); [simpl; lia | simpl; lia |].
    assert (Hbelow : xp (playerStats (questWorld 100 initialPlayerStats)) + 50
                     < xpToNextLevel
                         (playerStats (questWorld 100 initialPlayerStats)))
      by (simpl; lia).
    exists w', s1, o'.
    repeat (split; [assumption|]).
    split; [exact (conj Hbelow (Hlow Hbelow)) | exact Hrest].
Defined.

(** C2, counterexample: at 95 of 100 XP the first completion of a 10 XP
    subtask levels up and leaves 5 XP; undoing it clamps at 0 XP and
    keeps level 2; completing it again leaves 10 XP. *)
Lemma toggle_thrice_differs_after_levelUp :
  exists w1 w2 w3 m1 m2 m3,
    handleToggleSubtaskComplete idsAreNaN "2024-05-02" "2024-05-01" "st1"
      false (questWorld 0 (ledgerWithXp 95)) = Some (w1, m1) /\
    handleToggleSubtaskComplete idsAreNaN "2024-05-02" "2024-05-01" "st1"
      true w1 = Some (w2, m2) /\
    handleToggleSubtaskComplete idsAreNaN "2024-05-02" "2024-05-01" "st1"
      false w2 = Some (w3, m3) /\
    xp (playerStats w1) = 5 /\
    xp (playerStats w2) = 0 /\
    xp (playerStats w3) = 10 /\
    xp (playerStats w3) <> xp (playerStats w1).
Proof.
  do 6 eexists.
  split; [vm_compute; reflexivity|].
  split; [vm_compute; reflexivity|].
  split; [vm_compute; reflexivity|].
  split; [reflexivity|]. split; [reflexivity|]. split; [reflexivity|].
  vm_compute. discriminate.
Qed.

Lemma toggle_thrice_as_once_witness :
  (settled (questWorld 0 initialPlayerStats) (quest 0) task "st1" /\
   0 <= Objective.currentProgress (quest 0) /\
   0 <= xp (playerStats (questWorld 0 initialPlayerStats)) /\
   0 <= gold (playerStats (questWorld 0 initialPlayerStats)) /\
   0 < xpToNextLevel (playerStats (questWorld 0 initialPlayerStats)) /\
   xp (playerStats (questWorld 0 initialPlayerStats)) + Subtask.xpReward task
   < xpToNextLevel (playerStats (questWorld 0 initialPlayerStats))) /\
  exists w1 w2 w3 m1 m2 m3,
    handleToggleSubtaskComplete idsAreNaN "2024-05-02" "2024-05-01" "st1"
      false (questWorld 0 initialPlayerStats) = Some (w1, m1) /\
    handleToggleSubtaskComplete idsAreNaN "2024-05-02" "2024-05-01" "st1"
      true w1 = Some (w2, m2) /\
    handleToggleSubtaskComplete idsAreNaN "2024-05-03" "2024-05-02" "st1"
      false w2 = Some (w3, m3) /\
    option_map Objective.currentProgress (currentObjective w3)
    = option_map Objective.currentProgress (currentObjective w1) /\
    gold (playerStats w3) = gold (playerStats w1) /\
    xp (playerStats w3) = xp (playerStats w1) /\
    level (playerStats w3) = level (playerStats w1).
Proof.
  assert (Hset : settled (questWorld 0 initialPlayerStats) (quest 0) task
                         "st1") by (repeat split).
  split; [split; [exact Hset | simpl; lia]|].
  destruct (toggle_thrice_as_once idsAreNaN
              "2024-05-02" "2024-05-01" "2024-05-02" "2024-05-01"
              "2024-05-03" "2024-05-02" "st1"
              (questWorld 0 initialPlayerStats) (quest 0) task Hset)
    as (w1 & w2 & w3 & m1 & m2 & m3 & T1 & T2 & T3 & Hp & Hg & Hx);
    try (simpl; lia).
  exists w1, w2, w3, m1, m2, m3.
  destruct Hx as [Hx Hl]; [simpl; lia | simpl; lia |].
  repeat split; assumption.
Defined.

(** C7, counterexample: a sample recorded on 2024-01-03 into a history
    that holds one of 2024-01-05 lands after it. *)
Lemma updateSatisfaction_backdated_breaks_order :
  ((List.length (satisfactionHistory ledgerOneSample) <= 30)%nat /\
   oneEntryPerDay (satisfactionHistory ledgerOneSample) /\
   chronological (satisfactionHistory ledgerOneSample)) /\
  satisfactionHistory (updateSatisfaction "2024-01-03" 70 ledgerOneSample)
  = [{| date := "2024-01-05"; value := 50 |};
     {| date := "2024-01-03"; value := 70 |}] /\
  ~ chronological
      (satisfactionHistory
         (updateSatisfaction "2024-01-03" 70 ledgerOneSample)).
Proof.
  split; [|split].
  - split; [simpl; lia|]. split.
    + repeat constructor. intros [].
    + repeat constructor.
  - reflexivity.
  - intros H. unfold chronological in H. simpl in H.
    apply StronglySorted_inv in H. destruct H as [_ H].
    inversion H; subst. discriminate.
Qed.

Lemma updateSatisfaction_history_witness :
  ((List.length (satisfactionHistory ledgerOneSample) <= 30)%nat /\
   oneEntryPerDay (satisfactionHistory ledgerOneSample) /\
   chronological (satisfactionHistory ledgerOneSample) /\
   ~ In "2024-01-06" (map date (satisfactionHistory ledgerOneSample)) /\
   (forall e, In e (satisfactionHistory ledgerOneSample) ->
              String.leb (date e) "2024-01-06" = true)) /\
  currentSatisfaction (updateSatisfaction "2024-01-06" 130 ledgerOneSample)
  = 100 /\
  satisfactionHistory (updateSatisfaction "2024-01-06" 130 ledgerOneSample)
  = sliceLast30 (satisfactionHistory ledgerOneSample
                 ++ [{| date := "2024-01-06"; value := 100 |}]) /\
  oneEntryPerDay
    (satisfactionHistory (updateSatisfaction "2024-01-06" 130 ledgerOneSample)) /\
  chronological
    (satisfactionHistory (updateSatisfaction "2024-01-06" 130 ledgerOneSample)).
Proof.
  assert (Hlen : (List.length (satisfactionHistory ledgerOneSample) <= 30)%nat)
    by (simpl; lia).
  assert (Hone : oneEntryPerDay (satisfactionHistory ledgerOneSample))
    by (repeat constructor; intros []).
  assert (Hch : chronological (satisfactionHistory ledgerOneSample))
    by (repeat constructor).
  assert (Hnew : ~ In "2024-01-06"
                      (map date (satisfactionHistory ledgerOneSample)))
    by (intros [H | []]; discriminate).
  assert (Hpast : forall e, In e (satisfactionHistory ledgerOneSample) ->
                            String.leb (date e) "2024-01-06" = true)
    by (intros e [<- | []]; reflexivity).
  split; [repeat split; assumption|].
  destruct (updateSatisfaction_history "2024-01-06" 130 ledgerOneSample
              Hlen Hone Hch)
    as (Hc & _ & _ & _ & Happ & _ & Hone' & Hch').
  split; [exact Hc|]. split; [exact (Happ Hnew)|].
  split; [exact Hone' | exact (Hch' Hpast)].
Defined.

(** Claims at the clock readings of November 2023: a first claim on a
    fresh ledger is granted; on a ledger stamped 23h ago an attempt is
    turned down with one hour left; on a ledger stamped 25h ago it is
    granted; and after the first claim the attempt 23h59m later is
    turned down with one minute left, the attempt 24h later granted. *)
Lemma handleClaimDailyReward_allowed_iff_witness :
  (lastDailyRewardClaim (playerStats freshWorld) <> Some 0 /\
   0 < xpToNextLevel (playerStats freshWorld) /\
   1700000000000 <> 0 /\
   exists w1 w2,
     handleClaimDailyReward idsAreNaN 1700000000000 freshWorld
     = Some (w1, MsgDailyRewardClaimed 25 15) /\
     lastDailyRewardClaim (playerStats w1) = Some 1700000000000 /\
     xp (playerStats w1) = 25 /\ level (playerStats w1) = 1 /\
     gold (playerStats w1) = 15 /\
     handleClaimDailyReward idsAreNaN
       (1700000000000 + (23 * 3600000 + 59 * 60000)) w1
     = Some (w1, MsgNextRewardIn 0 1) /\
     handleClaimDailyReward idsAreNaN (1700000000000 + twentyFourHours) w1
     = Some (w2, MsgDailyRewardClaimed 25 15) /\
     lastDailyRewardClaim (playerStats w2)
     = Some (1700000000000 + twentyFourHours)) /\
  (lastDailyRewardClaim (playerStats (claimedWorld 1700000000000))
   <> Some 0 /\
   0 < xpToNextLevel (playerStats (claimedWorld 1700000000000)) /\
   lastDailyRewardClaim (playerStats (claimedWorld 1700000000000))
   = Some 1700000000000 /\
   (1700000000000 + 23 * 3600000) - 1700000000000 < twentyFourHours /\
   handleClaimDailyReward idsAreNaN (1700000000000 + 23 * 3600000)
                          (claimedWorld 1700000000000)
   = Some (claimedWorld 1700000000000, MsgNextRewardIn 1 0) /\
   twentyFourHours <= (1700000000000 + 25 * 3600000) - 1700000000000 /\
   exists w',
     handleClaimDailyReward idsAreNaN (1700000000000 + 25 * 3600000)
                            (claimedWorld 1700000000000)
     = Some (w', MsgDailyRewardClaimed 25 15)).
Proof.
  assert (Hf1 : lastDailyRewardClaim (playerStats freshWorld) <> Some 0)
    by discriminate.
  assert (Hf2 : 0 < xpToNextLevel (playerStats freshWorld))
    by (cbn; lia).
  assert (Hc1 : lastDailyRewardClaim
                  (playerStats (claimedWorld 1700000000000)) <> Some 0)
    by discriminate.
  assert (Hc2 : 0 < xpToNextLevel (playerStats (claimedWorld 1700000000000)))
    by (cbn; lia).
  assert (Ht0 : 1700000000000 <> 0) by discriminate.
  assert (Hearly : (1700000000000 + 23 * 3600000) - 1700000000000
                   < twentyFourHours) by reflexivity.
  assert (Hlate : twentyFourHours
                  <= (1700000000000 + 25 * 3600000) - 1700000000000)
    by discriminate.
  split.
  - split; [exact Hf1|]. split; [exact Hf2|]. split; [exact Ht0|].
    destruct (proj2 (proj2 (handleClaimDailyReward_allowed_iff idsAreNaN
                              1700000000000 freshWorld Hf1 Hf2))
                    (or_introl eq_refl))
      as (w1 & Hrun & Hstamp & (k & Hl & Hn & Hx & Hlt & Hpos) & Hgold
          & Hnext).
    destruct (Hnext Ht0) as (Hwait & w2 & Hrun2 & Hstamp2).
    exists w1, w2.
    assert (Hw1 : w1 = setPlayerStats
                         (fun _ => with_lastDailyRewardClaim
                                     (Some 1700000000000)
                                     (addGold 15 (with_xp 25
                                                    initialPlayerStats)))
                         freshWorld).
    { assert (Hrun' : handleClaimDailyReward idsAreNaN 1700000000000
                        freshWorld
                      = Some (setPlayerStats
                                (fun _ => with_lastDailyRewardClaim
                                            (Some 1700000000000)
                                            (addGold 15
                                               (with_xp 25
                                                  initialPlayerStats)))
                                freshWorld,
                              MsgDailyRewardClaimed 25 15))
        by (vm_compute; reflexivity).
      rewrite Hrun' in Hrun. inversion Hrun. reflexivity. }
    split; [exact Hrun|]. split; [exact Hstamp|].
    split; [rewrite Hw1; reflexivity|].
    split; [rewrite Hw1; reflexivity|].
    split; [rewrite Hw1; reflexivity|].
    split; [exact Hwait|]. split; [exact Hrun2 | exact Hstamp2].
  - split; [exact Hc1|]. split; [exact Hc2|]. split; [reflexivity|].
    split; [exact Hearly|]. split.
    + exact (proj1 (proj2 (handleClaimDailyReward_allowed_iff idsAreNaN
                             (1700000000000 + 23 * 3600000)
                             (claimedWorld 1700000000000) Hc1 Hc2))
                   1700000000000 eq_refl Hearly).
    + split; [exact Hlate|].
      apply (proj1 (handleClaimDailyReward_allowed_iff idsAreNaN
                      (1700000000000 + 25 * 3600000)
                      (claimedWorld 1700000000000) Hc1 Hc2)).
      right. exists 1700000000000. split; [reflexivity | exact Hlate].
Defined.

(** C5, failing runs.  A ledger with a streak of 3 counted on
    2024-05-01 is on screen when 2024-05-02 begins, and the user
    completes a subtask.  While the handler awaits its two writes, the
    re-render that the listener causes runs the effect, whose
    [checkDailyStreak] closed over 2024-05-01: streak 4, counted today.
    The handler then resumes and calls the [checkDailyStreak] of its own
    render, which closed over 2024-05-01 as well: streak 5, two
    increments in one day.  Second run: at 00:30 UTC on 2024-11-04,
    where the clocks went back on 2024-11-03, the local day before at
    the same local time is 23:30 UTC on 2024-11-02; with that as
    yesterday a streak of 3 counted on 2024-11-03 is reset to 1. *)
Theorem checkDailyStreak_twice_in_a_day :
  let callback :=
    checkDailyStreak idsAreNaN [] "2024-05-02" "2024-05-01"
                     (lastStreakDate ledgerStreak3) in
  currentStreak ledgerStreak3 = 3 /\
  lastStreakDate ledgerStreak3 = Some "2024-05-01" /\
  currentStreak (callback ledgerStreak3) = 4 /\
  lastStreakDate (callback ledgerStreak3) = Some "2024-05-02" /\
  currentStreak (callback (callback ledgerStreak3)) = 5 /\
  lastStreakDate (callback (callback ledgerStreak3)) = Some "2024-05-02" /\
  currentStreak
    (checkDailyStreak idsAreNaN [] "2024-11-04" "2024-11-02"
       (Some "2024-11-03")
       (with_streak 3 (Some "2024-11-03") initialPlayerStats)) = 1.
Proof.
  cbv zeta. repeat split; vm_compute; reflexivity.
Qed.


(** * Properties of the rest of the component *)

Section MoreProperties.

Variable str_ge_num : string -> Z -> bool.

(** ** Ledger ranges *)

Lemma levelUpLoop_nonneg fuel :
  forall x l n r x' l' n' r',
    levelUpLoop fuel x l n r = Some (x', l', n', r') -> 0 <= x -> 0 <= x'.
Proof.
  induction fuel as [|fuel IH]; intros x l n r x' l' n' r';
    cbn [levelUpLoop]; destruct (Z.geb_spec x n) as [E|E]; intros H Hx;
    try discriminate.
  - inversion H; subst. assumption.
  - apply IH in H; [assumption | lia].
  - inversion H; subst. assumption.
Qed.

Lemma addXp_ledgerOk objs amount s :
  ledgerOk s -> 0 <= amount ->
  exists s', addXp str_ge_num objs amount s = Some s' /\ ledgerOk s'.
Proof.
  intros (Hl & Hx & Hlt & Hg & Hv & Hm) Ha.
  destruct (addXp_total str_ge_num objs amount s)
    as (s' & x' & l' & n' & r' & H1 & H2 & H3); [lia|].
  exists s'. split; [assumption|].
  pose proof (levelUpLoop_sound _ _ _ _ _ _ _ _ _ H2) as (S1 & S2 & S3 & _).
  pose proof (levelUpLoop_nonneg _ _ _ _ _ _ _ _ _ H2) as S4.
  unfold sameProgress in H3.
  cbn [with_leveling level xp xpToNextLevel gold vitality maxVitality] in H3.
  decompose [and] H3. unfold ledgerOk. lia.
Qed.

(** X1: every updater of the ledger, called with an amount [>= 0] on a
    ledger within the ranges [level >= 1], [0 <= xp < xpToNextLevel],
    [gold >= 0], [0 <= vitality <= maxVitality], returns a ledger within
    them; so do the two punishments built from the updaters. *)
Theorem ledger_ranges_kept objs amount w :
  ledgerOk (playerStats w) -> 0 <= amount ->
  (exists s', addXp str_ge_num objs amount (playerStats w) = Some s' /\
              ledgerOk s') /\
  ledgerOk (deductXp amount (playerStats w)) /\
  ledgerOk (addGold amount (playerStats w)) /\
  ledgerOk (deductGold amount (playerStats w)) /\
  ledgerOk (addVitality amount (playerStats w)) /\
  ledgerOk (deductVitality amount (playerStats w)) /\
  ledgerOk (playerStats (handleApplyMinorPunishment w)) /\
  ledgerOk (playerStats (handleApplyGoldFinePunishment w)).
Proof.
  intros Hok Ha. split; [apply addXp_ledgerOk; assumption|].
  destruct Hok as (Hl & Hx & Hlt & Hg & Hv & Hm).
  unfold ledgerOk, handleApplyMinorPunishment, handleApplyGoldFinePunishment.
  cbn. repeat split; lia.
Qed.

(** ** Gold *)

Lemma with_gold_same s : with_gold (gold s) s = s.
Proof. destruct s; reflexivity. Qed.

(** X2: [deductGold] undoes [addGold] of the same amount on every ledger
    with [gold >= 0]; [addGold] undoes [deductGold] only when the amount
    was covered ([0 <= amount <= gold]): a deduction beyond the balance
    stops at 0 and the refund then leaves [amount], more than before. *)
Theorem gold_add_deduct amount s :
  (0 <= gold s -> deductGold amount (addGold amount s) = s) /\
  (0 <= amount -> amount <= gold s ->
   addGold amount (deductGold amount s) = s) /\
  (gold s < amount ->
   gold (addGold amount (deductGold amount s)) = amount).
Proof.
  split; [|split].
  - intros Hg. unfold deductGold, addGold. cbn [gold with_gold].
    replace (Z.max 0 (gold s + amount - amount)) with (gold s) by lia.
    destruct s; reflexivity.
  - intros Ha Hle. unfold deductGold, addGold. cbn [gold with_gold].
    replace (Z.max 0 (gold s - amount) + amount) with (gold s) by lia.
    destruct s; reflexivity.
  - intros Hlt. cbn. lia.
Qed.

(** ** Granting XP in steps *)

Lemma levelUpLoop_acc fuel :
  forall x l n r,
    levelUpLoop fuel x l n r
    = match levelUpLoop fuel x l n [] with
      | Some (x', l', n', r') => Some (x', l', n', r ++ r')
      | None => None
      end.
Proof.
  induction fuel as [|fuel IH]; intros x l n r; cbn [levelUpLoop];
    destruct (Z.geb_spec x n) as [E|E];
    try (rewrite app_nil_r; reflexivity); try reflexivity.
  rewrite (IH _ _ _ (r ++ [l + 1])), (IH _ _ _ ([] ++ [l + 1])).
  destruct (levelUpLoop fuel (x - n) (l + 1) (3 * n / 2) [])
    as [[[[x' l'] n'] r']|]; [|reflexivity].
  rewrite <- app_assoc. reflexivity.
Qed.

Lemma levelUpLoop_resume fuel :
  forall x l n r x1 l1 n1 r1 b F res,
    levelUpLoop fuel x l n r = Some (x1, l1, n1, r1) ->
    0 <= b ->
    levelUpLoop F (x1 + b) l1 n1 r1 = Some res ->
    levelUpLoop (fuel + F) (x + b) l n r = Some res.
Proof.
  induction fuel as [|fuel IH]; intros x l n r x1 l1 n1 r1 b F res H Hb HF.
  - cbn [levelUpLoop] in H. destruct (Z.geb_spec x n); [discriminate|].
    inversion H; subst. assumption.
  - cbn [levelUpLoop] in H. destruct (Z.geb_spec x n) as [E|E].
    + cbn [Nat.add levelUpLoop].
      destruct (Z.geb_spec (x + b) n); [|lia].
      replace (x + b - n) with (x - n + b) by lia.
      eapply IH; eassumption.
    + inversion H; subst.
      eapply levelUpLoop_fuel_mono; [eassumption | lia].
Qed.

(** What [addXp] returns when the loop ends, for whatever fuel shows
    that it ends. *)
Lemma addXp_exact objs amount s fuel x' l' n' r' :
  levelUpLoop fuel (xp s + amount) (level s) (xpToNextLevel s) []
  = Some (x', l', n', r') ->
  addXp str_ge_num objs amount s
  = Some (levelUpScans str_ge_num objs r' (with_leveling x' l' n' s)).
Proof.
  intros Hloop.
  destruct (addXp_Some str_ge_num objs amount s _ _ _ _ _ Hloop)
    as (st' & Hst & _).
  unfold addXp in *.
  destruct (levelUpLoop (addXpFuel s amount) _ _ _ _)
    as [[[[x1 l1] n1] r1]|] eqn:E; [|discriminate].
  destruct (Nat.le_ge_cases fuel (addXpFuel s amount)) as [Hle|Hle].
  - rewrite (levelUpLoop_fuel_mono _ _ _ _ _ _ _ Hloop Hle) in E.
    inversion E; subst. reflexivity.
  - rewrite (levelUpLoop_fuel_mono _ _ _ _ _ _ _ E Hle) in Hloop.
    inversion Hloop; subst. reflexivity.
Qed.

Lemma checkAchievements_with_leveling objs ty v x l n s :
  checkAchievements str_ge_num objs ty v (with_leveling x l n s)
  = with_leveling x l n (checkAchievements str_ge_num objs ty v s).
Proof.
  unfold checkAchievements.
  assert (Hb : bumpCounts ty (with_leveling x l n s)
               = with_leveling x l n (bumpCounts ty s)).
  { unfold bumpCounts.
    destruct (String.eqb ty "pomodoroCompleted");
      destruct (String.eqb ty "dailyDesireCompleted"); reflexivity. }
  rewrite Hb. cbn [achievements with_leveling].
  rewrite (scan_ext _ (isUnlocked str_ge_num objs v (bumpCounts ty s)))
    by (intros a; apply isUnlocked_counts; reflexivity).
  generalize (scan (isUnlocked str_ge_num objs v (bumpCounts ty s))
                   allAchievements (achievements s)).
  intros unlocked. destruct (bumpCounts ty s); reflexivity.
Qed.

Lemma levelUpScans_with_leveling objs r x l n :
  forall s,
    levelUpScans str_ge_num objs r (with_leveling x l n s)
    = with_leveling x l n (levelUpScans str_ge_num objs r s).
Proof.
  unfold levelUpScans.
  induction r as [|k r IH]; intros s; [reflexivity|].
  cbn [fold_left]. rewrite checkAchievements_with_leveling. apply IH.
Qed.

(** X3: granting [a] and then [b >= 0] XP leaves the very ledger that
    granting [a + b] at once leaves: the same level, XP, threshold and
    the same level-up scans in the same order. *)
Theorem addXp_additive objs a b s :
  0 < xpToNextLevel s -> 0 <= b ->
  exists s1,
    addXp str_ge_num objs a s = Some s1 /\
    addXp str_ge_num objs b s1 = addXp str_ge_num objs (a + b) s.
Proof.
  intros Hn Hb.
  destruct (levelUpLoop_terminates (addXpFuel s a) (xp s + a) (level s)
              (xpToNextLevel s) [])
    as [[[[x1 l1] n1] r1] H1]; [assumption | unfold addXpFuel; lia |].
  pose proof (addXp_exact objs a s _ _ _ _ _ H1) as E1.
  eexists. split; [exact E1|].
  pose proof (levelUpLoop_sound _ _ _ _ _ _ _ _ _ H1) as (_ & _ & Hn1 & _).
  set (s1 := levelUpScans str_ge_num objs r1 (with_leveling x1 l1 n1 s)).
  assert (Hw : level s1 = l1 /\ xp s1 = x1 /\ xpToNextLevel s1 = n1).
  { pose proof (sameProgress_wallet _ _
                  (levelUp_scans_frame str_ge_num objs r1
                     (with_leveling x1 l1 n1 s))) as (A & B & C & _).
    subst s1. unfold levelUpScans. auto. }
  destruct Hw as (Hl1 & Hx1 & Hnx1).
  destruct (levelUpLoop_terminates (addXpFuel s1 b) (x1 + b) l1 n1 [])
    as [[[[x2 l2] n2] r2] H2]; [lia | unfold addXpFuel; rewrite Hx1; lia |].
  assert (E2 : addXp str_ge_num objs b s1
               = Some (levelUpScans str_ge_num objs r2
                         (with_leveling x2 l2 n2 s1))).
  { apply (addXp_exact objs b s1 (addXpFuel s1 b)).
    rewrite Hl1, Hx1, Hnx1. assumption. }
  rewrite E2.
  assert (H12 : levelUpLoop (addXpFuel s a + addXpFuel s1 b)
                  (xp s + (a + b)) (level s) (xpToNextLevel s) []
                = Some (x2, l2, n2, r1 ++ r2)).
  { replace (xp s + (a + b)) with (xp s + a + b) by lia.
    eapply levelUpLoop_resume; [exact H1 | assumption |].
    rewrite levelUpLoop_acc, H2. reflexivity. }
  rewrite (addXp_exact objs (a + b) s _ _ _ _ _ H12).
  f_equal. subst s1. unfold levelUpScans at 1 3.
  rewrite fold_left_app. fold (levelUpScans str_ge_num objs r1).
  fold (levelUpScans str_ge_num objs r2).
  rewrite <- levelUpScans_with_leveling. reflexivity.
Qed.

(** ** What a scan unlocks *)

Lemma scan_In u table :
  forall start i,
    In i (scan u table start) <->
    In i start \/
    exists row, In row table /\ Achievement.id row = i /\ u row = true.
Proof.
  induction table as [|a table IH]; intros start i.
  - unfold scan. cbn [fold_left]. split; [auto|].
    intros [H | (row & [] & _)]. assumption.
  - change (scan u (a :: table) start)
      with (scan u table (scanStep u start a)).
    rewrite IH. split.
    + intros [Hin | (row & Hrow & Hid & Hu)].
      * destruct (scanStep_cases u start a) as [Hs | (Hs & _ & Hu)];
          rewrite Hs in Hin; [left; assumption|].
        apply in_app_or in Hin. destruct Hin as [Hin | [Heq | []]];
          [left; assumption|].
        right. exists a. split; [left; reflexivity | auto].
      * right. exists row. split; [right; assumption | auto].
    + intros [Hin | (row & [Heq | Hrow] & Hid & Hu)].
      * left. destruct (scanStep_cases u start a) as [Hs | (Hs & _)];
          rewrite Hs; [assumption | apply in_or_app; left; assumption].
      * subst row. left. unfold scanStep.
        destruct (includes start (Achievement.id a)) eqn:E; cbn [negb].
        -- apply includes_In in E. subst i. assumption.
        -- rewrite Hu. subst i. apply in_or_app. right. left. reflexivity.
      * right. exists row. auto.
Qed.

(** X4: after [checkAchievements], whatever the trigger type, the
    unlocked ids are those unlocked before together with the id of every
    row of the table whose own condition holds; the list gains no
    duplicate; in particular any scan that carries a number [>= 5]
    unlocks ["level5"], also a ["streak"] scan. *)
Theorem checkAchievements_unlocks objs ty v s :
  (forall i,
      In i (achievements (checkAchievements str_ge_num objs ty v s)) <->
      In i (achievements s) \/
      exists row,
        In row allAchievements /\ Achievement.id row = i /\
        isUnlocked str_ge_num objs v (bumpCounts ty s) row = true) /\
  (NoDup (achievements s) ->
   NoDup (achievements (checkAchievements str_ge_num objs ty v s))) /\
  (forall n, v = JsNumber n -> 5 <= n ->
     In "level5" (achievements (checkAchievements str_ge_num objs ty v s))).
Proof.
  assert (Hchar : forall i,
      In i (achievements (checkAchievements str_ge_num objs ty v s)) <->
      In i (achievements s) \/
      exists row,
        In row allAchievements /\ Achievement.id row = i /\
        isUnlocked str_ge_num objs v (bumpCounts ty s) row = true).
  { intros i. unfold checkAchievements. cbn [achievements with_achievements].
    apply scan_In. }
  split; [exact Hchar|]. split.
  - intros Hnd. unfold checkAchievements. cbn [achievements with_achievements].
    destruct (scan_appends (isUnlocked str_ge_num objs v (bumpCounts ty s))
                allAchievements (achievements s))
      as (newly & Heq & Hnew & Hfresh).
    rewrite Heq. apply NoDup_app; [assumption | assumption |].
    intros a Ha Hb. exact (Hfresh a Hb Ha).
  - intros n -> Hn. apply Hchar. right.
    exists (achievement "level5" "levelUp" 5).
    split; [cbn; tauto|]. split; [reflexivity|].
    unfold isUnlocked. cbn. destruct (Z.geb_spec n 5); [reflexivity | lia].
Qed.

(** ** Player stats snapshots *)

Lemma spread_twice {A} (o : option A) (p : A) :
  spread o (spread o p) = spread o p.
Proof. destruct o; reflexivity. Qed.

(** X5: a snapshot of a ledger written whole replaces the local ledger
    by it, whatever the local ledger held; applying a snapshot twice is
    applying it once; a document without [satisfactionHistory] empties
    the local history and leaves the other fields it lacks as they
    were. *)
Theorem applyStatsSnapshot_merge :
  (forall s prevStats, applyStatsSnapshot (statsDocOf s) prevStats = s) /\
  (forall fetchedData prevStats,
      applyStatsSnapshot fetchedData
        (applyStatsSnapshot fetchedData prevStats)
      = applyStatsSnapshot fetchedData prevStats) /\
  (forall prevStats,
      applyStatsSnapshot emptyStatsDoc prevStats
      = with_satisfaction (currentSatisfaction prevStats) [] prevStats).
Proof.
  split; [|split].
  - intros s prevStats. destruct s; reflexivity.
  - intros d prevStats. unfold applyStatsSnapshot.
    cbn [level xp xpToNextLevel gold vitality maxVitality
           currentSatisfaction satisfactionHistory lastDailyRewardClaim
           currentStreak lastStreakDate achievements hasCompletedTutorial
           pomodoroCount dailyDesireCount].
    f_equal; apply spread_twice.
  - intros prevStats. reflexivity.
Qed.

(** ** Satisfaction within a day *)

Lemma findIndex_replaceAt today v h :
  forall i, findIndex today (replaceAt i v h) = findIndex today h.
Proof.
  induction h as [|e h IH]; intros i; [reflexivity|].
  destruct i as [|i]; cbn [replaceAt findIndex date]; [reflexivity|].
  rewrite IH. reflexivity.
Qed.

Lemma replaceAt_twice v1 v2 h :
  forall i, replaceAt i v2 (replaceAt i v1 h) = replaceAt i v2 h.
Proof.
  induction h as [|e h IH]; intros i; [reflexivity|].
  destruct i as [|i]; cbn [replaceAt date]; [reflexivity|].
  rewrite IH. reflexivity.
Qed.

Lemma findIndex_snoc today v l :
  ~ In today (map date l) ->
  findIndex today (l ++ [{| date := today; value := v |}])
  = Some (List.length l).
Proof.
  induction l as [|e l IH]; intros Hnot; cbn [app findIndex date].
  - rewrite String.eqb_refl. reflexivity.
  - destruct (String.eqb (date e) today) eqn:E.
    + apply String.eqb_eq in E. exfalso. apply Hnot. left. assumption.
    + rewrite IH; [reflexivity|]. intros Hin. apply Hnot. right. assumption.
Qed.

Lemma replaceAt_snoc v1 v2 today l :
  replaceAt (List.length l) v2 (l ++ [{| date := today; value := v1 |}])
  = l ++ [{| date := today; value := v2 |}].
Proof.
  induction l as [|e l IH]; [reflexivity|].
  cbn [List.length app replaceAt]. rewrite IH. reflexivity.
Qed.

Lemma sliceLast30_snoc_eq {A} (l : list A) x :
  sliceLast30 (l ++ [x]) = skipn (List.length l + 1 - 30) l ++ [x].
Proof.
  unfold sliceLast30. rewrite length_app. cbn [List.length].
  rewrite skipn_app.
  replace (List.length l + 1 - 30 - List.length l)%nat with O by lia.
  reflexivity.
Qed.

(** X6: within one calendar day the last recorded satisfaction wins: on
    a history of at most 30 entries, recording [v1] and then [v2] on the
    same day leaves the ledger that recording [v2] alone leaves. *)
Theorem updateSatisfaction_last_wins today v1 v2 s :
  (List.length (satisfactionHistory s) <= 30)%nat ->
  updateSatisfaction today v2 (updateSatisfaction today v1 s)
  = updateSatisfaction today v2 s.
Proof.
  intros Hlen. unfold updateSatisfaction.
  cbn [satisfactionHistory with_satisfaction].
  set (h := satisfactionHistory s) in *.
  set (c1 := Z.min 100 (Z.max 0 v1)). set (c2 := Z.min 100 (Z.max 0 v2)).
  destruct (findIndex today h) as [i|] eqn:E.
  - rewrite (sliceLast30_short (replaceAt i c1 h))
      by (rewrite replaceAt_length; assumption).
    rewrite findIndex_replaceAt, E, replaceAt_twice. reflexivity.
  - pose proof (findIndex_None _ _ E) as Hnot.
    rewrite sliceLast30_snoc_eq.
    set (k := (List.length h + 1 - 30)%nat).
    assert (Hnot' : ~ In today (map date (skipn k h))).
    { intros Hin. apply Hnot. rewrite <- (firstn_skipn k h), map_app.
      apply in_or_app. right. assumption. }
    rewrite (findIndex_snoc today c1 _ Hnot'), replaceAt_snoc.
    rewrite (sliceLast30_short (skipn k h ++ _)).
    + rewrite sliceLast30_snoc_eq. reflexivity.
    + rewrite length_app, length_skipn. cbn [List.length]. lia.
Qed.

(** ** Daily reward countdown *)

(** X7: the countdown label and the claim handler agree at every clock
    reading: when [getTimeUntilNextDailyReward] returns hours and
    minutes, a claim is turned down with exactly that message and
    changes nothing; when it returns [null], a claim is granted and
    stamps [now]. *)
Theorem countdown_matches_claim now w :
  0 < xpToNextLevel (playerStats w) ->
  match getTimeUntilNextDailyReward now w with
  | Some (hours, minutes) =>
      handleClaimDailyReward str_ge_num now w
      = Some (w, MsgNextRewardIn hours minutes)
  | None =>
      exists w',
        handleClaimDailyReward str_ge_num now w
        = Some (w', MsgDailyRewardClaimed 25 15) /\
        lastDailyRewardClaim (playerStats w') = Some now
  end.
Proof.
  intros Hn.
  destruct (addXp_total str_ge_num (objectives w) 25 (playerStats w) Hn)
    as (s1 & x' & l' & n' & r' & H1 & _ & _).
  unfold getTimeUntilNextDailyReward, handleClaimDailyReward.
  destruct (truthy (lastDailyRewardClaim (playerStats w))); cbn [negb andb].
  - set (elapsed := now - valueOr0 (lastDailyRewardClaim (playerStats w))).
    destruct (Z.leb_spec (twentyFourHours - elapsed) 0) as [E|E];
      destruct (Z.ltb_spec elapsed twentyFourHours) as [E'|E']; try lia.
    + rewrite H1. eexists. split; reflexivity.
    + reflexivity.
  - rewrite H1. eexists. split; reflexivity.
Qed.

(** X8: while a claim made at a non-zero time [t] is less than 24h old
    and the clock has not gone back, the countdown shows between 0 and
    24 hours and between 0 and 59 minutes, the time left rounded down to
    the minute; it shows 24h only at the instant of the claim. *)
Theorem countdown_bounds now w t :
  lastDailyRewardClaim (playerStats w) = Some t -> t <> 0 ->
  0 <= now - t -> now - t < twentyFourHours ->
  exists hours minutes,
    getTimeUntilNextDailyReward now w = Some (hours, minutes) /\
    0 <= hours <= 24 /\ 0 <= minutes <= 59 /\
    hours * 3600000 + minutes * 60000 <= twentyFourHours - (now - t) /\
    twentyFourHours - (now - t) < hours * 3600000 + minutes * 60000 + 60000 /\
    (hours = 24 <-> now = t).
Proof.
  intros Hlast Hnz Hge Hlt.
  unfold getTimeUntilNextDailyReward. rewrite Hlast.
  cbn [truthy valueOr0].
  destruct (Z.eqb_spec t 0) as [->|_]; [congruence|]. cbn [negb].
  unfold twentyFourHours in *.
  change (24 * 60 * 60 * 1000) with 86400000 in *.
  change (1000 * 60 * 60) with 3600000. change (1000 * 60) with 60000.
  set (timeLeft := 86400000 - (now - t)) in *.
  destruct (Z.leb_spec timeLeft 0) as [E|E]; [lia|].
  rewrite Z.rem_mod_nonneg by lia.
  eexists. eexists. split; [reflexivity|].
  pose proof (Z.div_mod timeLeft 3600000 ltac:(lia)) as D1.
  pose proof (Z.mod_pos_bound timeLeft 3600000 ltac:(lia)) as B1.
  pose proof (Z.div_mod (timeLeft mod 3600000) 60000 ltac:(lia)) as D2.
  pose proof (Z.mod_pos_bound (timeLeft mod 3600000) 60000 ltac:(lia)) as B2.
  set (h := timeLeft / 3600000) in *.
  set (r := timeLeft mod 3600000) in *.
  set (m := r / 60000) in *.
  set (r2 := r mod 60000) in *.
  repeat split; lia.
Qed.

(** ** Selecting the current objective *)

Lemma map_same {A} (g : A -> A) (l : list A) :
  (forall x, In x l -> g x = x) -> map g l = l.
Proof.
  induction l as [|x l IH]; intros H; [reflexivity|].
  cbn [map]. rewrite H by (left; reflexivity).
  rewrite IH; [reflexivity|]. intros y Hy. apply H. right. assumption.
Qed.

(** The writes of the batch, as one pass over the listing. *)
Lemma unset_batch batch :
  forall objs,
    fold_left
      (fun l obj => updateObjectiveDoc (Objective.id obj) (withCurrent false) l)
      batch objs
    = map (fun o => if inBatch batch o then withCurrent false o else o) objs.
Proof.
  induction batch as [|b batch IH]; intros objs.
  - cbn [fold_left]. symmetry. apply map_same. reflexivity.
  - cbn [fold_left]. rewrite IH. unfold updateObjectiveDoc.
    rewrite map_map. apply map_ext. intros o.
    unfold inBatch. cbn [existsb].
    destruct (String.eqb (Objective.id o) (Objective.id b)); cbn [orb].
    + cbn [withCurrent Objective.id].
      destruct (existsb _ batch); reflexivity.
    + reflexivity.
Qed.

Lemma hasObjective_In oid l :
  hasObjective oid l = true <->
  exists o, In o l /\ Objective.id o = oid.
Proof.
  unfold hasObjective. rewrite existsb_exists.
  split; intros (o & Hin & H); exists o; split; try assumption.
  - apply String.eqb_eq. assumption.
  - apply String.eqb_eq. assumption.
Qed.

Lemma hasObjective_map g oid l :
  (forall o, Objective.id (g o) = Objective.id o) ->
  hasObjective oid (map g l) = hasObjective oid l.
Proof.
  intros Hid. unfold hasObjective.
  induction l as [|x l IH]; [reflexivity|].
  cbn [map existsb]. rewrite Hid, IH. reflexivity.
Qed.

Lemma filter_none {A} (p : A -> bool) (l : list A) :
  (forall y, In y l -> p y = false) -> filter p l = [].
Proof.
  induction l as [|x l IH]; intros H; [reflexivity|].
  cbn [filter]. rewrite H by (left; reflexivity).
  apply IH. intros y Hy. apply H. right. assumption.
Qed.

(** With unique ids, a listing in which the current objectives are those
    of one id that occurs has exactly one current objective. *)
Lemma one_current sel l :
  NoDup (map Objective.id l) ->
  hasObjective sel l = true ->
  (forall o, In o l -> (Objective.isCurrent o = true <-> Objective.id o = sel)) ->
  List.length (filter Objective.isCurrent l) = 1%nat.
Proof.
  induction l as [|x l IH]; intros Hnd Hhas Hiff; [discriminate|].
  cbn [map] in Hnd. apply NoDup_cons_iff in Hnd. destruct Hnd as [Hx Hnd].
  cbn [filter].
  destruct (String.eqb (Objective.id x) sel) eqn:E.
  - apply String.eqb_eq in E.
    rewrite (proj2 (Hiff x (or_introl eq_refl)) E).
    cbn [List.length]. f_equal.
    assert (Hnone : filter Objective.isCurrent l = []).
    { apply filter_none. intros y Hy.
      destruct (Objective.isCurrent y) eqn:Ey; [|reflexivity].
      exfalso. apply Hx.
      assert (Objective.id y = sel)
        by (apply (Hiff y); [right; assumption | assumption]).
      apply in_map_iff. exists y. split; [congruence | assumption]. }
    rewrite Hnone. reflexivity.
  - assert (Hcur : Objective.isCurrent x = false).
    { destruct (Objective.isCurrent x) eqn:Ec; [|reflexivity].
      apply (Hiff x (or_introl eq_refl)) in Ec.
      apply String.eqb_neq in E. contradiction. }
    rewrite Hcur. apply IH.
    + assumption.
    + unfold hasObjective in *. cbn [existsb] in Hhas. rewrite E in Hhas.
      assumption.
    + intros o Ho. apply Hiff. right. assumption.
Qed.

(** What a selection does when the batch covers every other current
    objective of the store and the selected document exists. *)
Lemma select_from closure sel w :
  ready w = true ->
  hasObjective sel (objectives w) = true ->
  (forall o, In o (objectives w) -> Objective.isCurrent o = true ->
             Objective.id o <> sel ->
             exists c, In c closure /\ Objective.isCurrent c = true /\
                       Objective.id c = Objective.id o) ->
  (forall c, In c closure ->
             hasObjective (Objective.id c) (objectives w) = true) ->
  let w' := fst (handleSelectObjectiveFrom closure sel w) in
  (exists H,
      objectives w' = map H (objectives w) /\
      (forall o, H o = withCurrent (Objective.isCurrent (H o)) o) /\
      (forall o, In o (objectives w) ->
                 (Objective.isCurrent (H o) = true <-> Objective.id o = sel))) /\
  subtaskDocs w' = subtaskDocs w /\
  playerStats w' = playerStats w /\
  subtasks w'
  = match currentObjective w' with
    | Some cur => subtasksOf (Objective.id cur) (subtaskDocs w)
    | None => []
    end /\
  snd (handleSelectObjectiveFrom closure sel w)
  = MsgText "¡Objetivo actual seleccionado!".
Proof.
  intros Hready Hhas Hcov Hexist. unfold handleSelectObjectiveFrom.
  rewrite Hready. cbn [negb]. rewrite unset_batch.
  set (batch := filter _ closure).
  assert (Hall : forallb (fun obj => hasObjective (Objective.id obj)
                                                  (objectives w)) batch
                 = true).
  { apply forallb_forall. intros c Hc. apply Hexist.
    subst batch. apply filter_In in Hc. destruct Hc as [Hc _]. exact Hc. }
  rewrite Hall. cbn [andb].
  rewrite hasObjective_map
    by (intros o; destruct (inBatch batch o); reflexivity).
  rewrite Hhas. cbn [fst snd].
  split; [|repeat split].
  unfold updateObjectiveDoc. cbn [syncSubtasks withObjectives objectives].
  rewrite map_map.
  eexists. split; [reflexivity|]. split.
  - intros o. cbn beta.
    destruct (inBatch batch o);
      destruct (String.eqb _ sel); destruct o; reflexivity.
  - intros o Hin. cbn beta.
    assert (Hid : Objective.id (if inBatch batch o
                                then withCurrent false o else o)
                  = Objective.id o)
      by (destruct (inBatch batch o); reflexivity).
    rewrite Hid.
    destruct (String.eqb (Objective.id o) sel) eqn:E.
    + apply String.eqb_eq in E. split; [intros _; assumption | reflexivity].
    + apply String.eqb_neq in E. split; [|contradiction].
      intros Hc. exfalso.
      destruct (inBatch batch o) eqn:Eb; [discriminate|].
      destruct (Hcov o Hin Hc E) as (c & Hc1 & Hc2 & Hc3).
      assert (inBatch batch o = true); [|congruence].
      unfold inBatch. apply existsb_exists. exists c. split.
      * subst batch. apply filter_In. split; [assumption|].
        rewrite Hc2. cbn [andb]. apply negb_true_iff.
        apply String.eqb_neq. congruence.
      * apply String.eqb_eq. congruence.
Qed.

Lemma select_outcome closure sel w :
  ready w = true ->
  hasObjective sel (objectives w) = true ->
  (forall o, In o (objectives w) -> Objective.isCurrent o = true ->
             Objective.id o <> sel ->
             exists c, In c closure /\ Objective.isCurrent c = true /\
                       Objective.id c = Objective.id o) ->
  (forall c, In c closure ->
             hasObjective (Objective.id c) (objectives w) = true) ->
  let w' := fst (handleSelectObjectiveFrom closure sel w) in
  (forall o, In o (objectives w') ->
             (Objective.isCurrent o = true <-> Objective.id o = sel)) /\
  (exists o cur,
      In o (objectives w) /\ Objective.id o = sel /\
      cur = withCurrent true o /\ currentObjective w' = Some cur) /\
  subtasks w' = subtasksOf sel (subtaskDocs w) /\
  map (withCurrent false) (objectives w')
  = map (withCurrent false) (objectives w) /\
  subtaskDocs w' = subtaskDocs w /\
  playerStats w' = playerStats w /\
  (NoDup (map Objective.id (objectives w)) ->
   List.length (filter Objective.isCurrent (objectives w')) = 1%nat).
Proof.
  intros Hready Hhas Hcov Hexist w'.
  destruct (select_from closure sel w Hready Hhas Hcov Hexist)
    as ((H & Hobjs & Hshape & Hiff) & Hdocs & Hstats & Hsub & _).
  fold w' in Hobjs, Hdocs, Hstats, Hsub.
  assert (Hid : forall o, Objective.id (H o) = Objective.id o)
    by (intros o; rewrite Hshape; reflexivity).
  assert (Ha : forall o, In o (objectives w') ->
                 (Objective.isCurrent o = true <-> Objective.id o = sel)).
  { intros o' Hin. rewrite Hobjs in Hin. apply in_map_iff in Hin.
    destruct Hin as (o & <- & Hin). rewrite Hid. apply Hiff. assumption. }
  assert (Hcur : exists o cur,
             In o (objectives w) /\ Objective.id o = sel /\
             cur = withCurrent true o /\ currentObjective w' = Some cur).
  { unfold currentObjective.
    destruct (find Objective.isCurrent (objectives w')) as [cur|] eqn:E.
    - apply find_some in E. destruct E as [Hin Hc].
      rewrite Hobjs in Hin. apply in_map_iff in Hin.
      destruct Hin as (o & Ho & Hin).
      exists o, cur. split; [assumption|]. split.
      + apply Hiff; [assumption|]. rewrite Ho. assumption.
      + split; [|reflexivity]. rewrite <- Ho, Hshape. rewrite Ho, Hc.
        reflexivity.
    - exfalso. apply hasObjective_In in Hhas.
      destruct Hhas as (o & Hin & Ho).
      pose proof (find_none _ _ E (H o)) as Hn.
      rewrite Hobjs in Hn. specialize (Hn (in_map H _ _ Hin)).
      rewrite (proj2 (Hiff o Hin) Ho) in Hn. discriminate. }
  split; [assumption|]. split; [assumption|]. split.
  { rewrite Hsub. destruct Hcur as (o & cur & _ & Ho & -> & ->).
    cbn [withCurrent Objective.id]. rewrite Ho. reflexivity. }
  split.
  { rewrite Hobjs, map_map. apply map_ext. intros o.
    rewrite Hshape. reflexivity. }
  split; [assumption|]. split; [assumption|].
  intros Hnd. apply (one_current sel).
  - rewrite Hobjs, map_map. rewrite (map_ext _ Objective.id) by exact Hid.
    assumption.
  - rewrite Hobjs, hasObjective_map by exact Hid. assumption.
  - assumption.
Qed.

(** X9: selecting an objective that exists leaves it current and no
    other objective current, however many were current before; it
    becomes [currentObjective], the local subtasks are its documents,
    and nothing but the [isCurrent] flags changes; with unique ids
    exactly one objective is current afterwards. *)
Theorem handleSelectObjective_one_current sel w :
  ready w = true ->
  hasObjective sel (objectives w) = true ->
  let w' := fst (handleSelectObjective sel w) in
  (forall o, In o (objectives w') ->
             (Objective.isCurrent o = true <-> Objective.id o = sel)) /\
  (exists o cur,
      In o (objectives w) /\ Objective.id o = sel /\
      cur = withCurrent true o /\ currentObjective w' = Some cur) /\
  subtasks w' = subtasksOf sel (subtaskDocs w) /\
  map (withCurrent false) (objectives w')
  = map (withCurrent false) (objectives w) /\
  subtaskDocs w' = subtaskDocs w /\
  playerStats w' = playerStats w /\
  (NoDup (map Objective.id (objectives w)) ->
   List.length (filter Objective.isCurrent (objectives w')) = 1%nat).
Proof.
  intros Hready Hhas. unfold handleSelectObjective.
  apply select_outcome; [assumption | assumption | |].
  - intros o Hin Hc _. exists o. auto.
  - intros c Hc. apply hasObjective_In. exists c. auto.
Qed.

Lemma In_insertObjective n l :
  forall o, In o (insertObjective n l) <-> o = n \/ In o l.
Proof.
  induction l as [|x l IH]; intros o; cbn [insertObjective].
  - cbn. intuition congruence.
  - destruct (String.ltb (Objective.id n) (Objective.id x)).
    + cbn. intuition congruence.
    + cbn [In]. rewrite IH. intuition congruence.
Qed.

Lemma hasObjective_false oid l o :
  hasObjective oid l = false -> In o l -> Objective.id o <> oid.
Proof.
  intros Hno Hin Heq.
  assert (hasObjective oid l = true); [|congruence].
  apply hasObjective_In. exists o. auto.
Qed.

(** The writes of the second component, as one pass over the listing. *)
Lemma flag_batch sel batch :
  forall objs,
    fold_left
      (fun l obj =>
         updateObjectiveDoc
           (Objective.id obj)
           (withCurrent (String.eqb (Objective.id obj) sel)) l)
      batch objs
    = map (fun o => if inBatch batch o
                    then withCurrent (String.eqb (Objective.id o) sel) o
                    else o) objs.
Proof.
  induction batch as [|b batch IH]; intros objs.
  - cbn [fold_left]. symmetry. apply map_same. reflexivity.
  - cbn [fold_left]. rewrite IH. unfold updateObjectiveDoc.
    rewrite map_map. apply map_ext. intros o.
    unfold inBatch. cbn [existsb].
    destruct (String.eqb (Objective.id o) (Objective.id b)) eqn:E; cbn [orb].
    + apply String.eqb_eq in E. rewrite <- E.
      cbn [withCurrent Objective.id].
      destruct (existsb _ batch); reflexivity.
    + reflexivity.
Qed.

Lemma inBatch_self l o : In o l -> inBatch l o = true.
Proof.
  intros Hin. unfold inBatch. apply existsb_exists.
  exists o. split; [assumption | apply String.eqb_refl].
Qed.

Lemma withCurrent_same o : withCurrent (Objective.isCurrent o) o = o.
Proof. destruct o; reflexivity. Qed.

(** X10: the two [handleSelectObjective] of the file leave the same
    objectives: each objective is current exactly when its id is the
    selected one, and nothing else about it changes.  They differ in the
    answer when no objective has the selected id (then none is current
    afterwards): the first reports an error, the second reports
    success. *)
Theorem handleSelectObjective_versions_agree sel w :
  ready w = true ->
  objectives (fst (handleSelectObjective sel w))
  = map (fun o => withCurrent (String.eqb (Objective.id o) sel) o)
        (objectives w) /\
  objectives (fst (Slim.handleSelectObjective sel w))
  = objectives (fst (handleSelectObjective sel w)) /\
  snd (handleSelectObjective sel w)
  = MsgText (if hasObjective sel (objectives w)
             then "¡Objetivo actual seleccionado!"
             else "Error al seleccionar el objetivo.") /\
  snd (Slim.handleSelectObjective sel w)
  = Some (MsgText "Objetivo actual seleccionado.").
Proof.
  intros Hready.
  assert (Hexist : forall l,
             (forall c, In c l -> In c (objectives w)) ->
             forallb (fun obj => hasObjective (Objective.id obj)
                                              (objectives w)) l = true).
  { intros l Hl. apply forallb_forall. intros c Hc.
    apply hasObjective_In. exists c. split; [apply Hl; assumption|].
    reflexivity. }
  assert (Hfull :
            objectives (fst (handleSelectObjective sel w))
            = map (fun o => withCurrent (String.eqb (Objective.id o) sel) o)
                  (objectives w)
            /\ snd (handleSelectObjective sel w)
               = MsgText (if hasObjective sel (objectives w)
                          then "¡Objetivo actual seleccionado!"
                          else "Error al seleccionar el objetivo.")).
  { unfold handleSelectObjective, handleSelectObjectiveFrom.
    rewrite Hready. cbn [negb]. rewrite unset_batch.
    set (batch := filter _ (objectives w)).
    rewrite (Hexist batch)
      by (intros c Hc; subst batch; apply filter_In in Hc;
          destruct Hc as [Hc _]; exact Hc).
    cbn [andb].
    rewrite hasObjective_map
      by (intros o; destruct (inBatch batch o); reflexivity).
    assert (Hunset : forall o, In o (objectives w) ->
               String.eqb (Objective.id o) sel = false ->
               (if inBatch batch o then withCurrent false o else o)
               = withCurrent false o).
    { intros o Hin Hne. destruct (inBatch batch o) eqn:Eb; [reflexivity|].
      destruct (Objective.isCurrent o) eqn:Ec.
      - exfalso. assert (inBatch batch o = true); [|congruence].
        apply inBatch_self. subst batch. apply filter_In.
        split; [assumption|]. rewrite Ec, Hne. reflexivity.
      - rewrite <- Ec. symmetry. apply withCurrent_same. }
    assert (Hkeep : forall o, String.eqb (Objective.id o) sel = true ->
               inBatch batch o = false).
    { intros o He. unfold inBatch.
      destruct (existsb _ batch) eqn:Eb; [|reflexivity].
      apply existsb_exists in Eb. destruct Eb as (b & Hb & Hid).
      subst batch. apply filter_In in Hb. destruct Hb as [_ Hb].
      apply andb_true_iff in Hb. destruct Hb as [_ Hb].
      apply String.eqb_eq in Hid. apply String.eqb_eq in He.
      rewrite <- Hid, He, String.eqb_refl in Hb. discriminate. }
    destruct (hasObjective sel (objectives w)) eqn:Ehas; cbn [fst snd].
    - split; [|reflexivity].
      cbn [syncSubtasks withObjectives objectives].
      unfold updateObjectiveDoc. rewrite map_map.
      apply map_ext_in. intros o Hin.
      destruct (String.eqb (Objective.id o) sel) eqn:E.
      + rewrite (Hkeep o E), E. reflexivity.
      + rewrite (Hunset o Hin E). cbn [withCurrent Objective.id].
        rewrite E. reflexivity.
    - split; [|reflexivity].
      cbn [syncSubtasks withObjectives objectives].
      apply map_ext_in. intros o Hin.
      assert (E : String.eqb (Objective.id o) sel = false).
      { apply String.eqb_neq.
        exact (hasObjective_false _ _ _ Ehas Hin). }
      rewrite E. apply Hunset; assumption. }
  destruct Hfull as [Hobjs Hmsg].
  split; [exact Hobjs|]. split; [|split; [exact Hmsg|]].
  - rewrite Hobjs.
    unfold Slim.handleSelectObjective, Slim.handleSelectObjectiveFrom.
    rewrite Hready. cbn [negb fst withObjectives objectives].
    rewrite flag_batch. apply map_ext_in. intros o Hin.
    rewrite (inBatch_self _ _ Hin). reflexivity.
  - unfold Slim.handleSelectObjective, Slim.handleSelectObjectiveFrom.
    rewrite Hready. cbn [negb snd].
    rewrite (Hexist (objectives w)) by auto. reflexivity.
Qed.

(** X11: [handleStartQuest] with a fresh id leaves the new objective as
    the current one, the only one: not completed, at progress 0, with
    [totalProgress] as given (100 for 0) and the reward of its
    difficulty; the ledger and the subtask documents are untouched. *)
Theorem handleStartQuest_current newId objectiveData w :
  ready w = true ->
  hasObjective newId (objectives w) = false ->
  let w' := handleStartQuest newId objectiveData w in
  currentObjective w'
  = Some (withCurrent true (newObjective newId objectiveData)) /\
  (forall o, In o (objectives w') ->
             (Objective.isCurrent o = true <-> Objective.id o = newId)) /\
  (forall o, In o (objectives w) ->
             In (withCurrent false o) (map (withCurrent false) (objectives w'))) /\
  subtasks w' = subtasksOf newId (subtaskDocs w) /\
  subtaskDocs w' = subtaskDocs w /\
  playerStats w' = playerStats w.
Proof.
  intros Hready Hfresh. unfold handleStartQuest, handleSaveObjective.
  rewrite Hready. cbn [negb].
  set (w1 := syncSubtasks (withObjectives _ w)).
  assert (Hobjs1 : objectives w1
                   = insertObjective (newObjective newId objectiveData)
                                     (objectives w)) by reflexivity.
  assert (Hhas : hasObjective newId (objectives w1) = true).
  { apply hasObjective_In. exists (newObjective newId objectiveData).
    split; [|reflexivity]. rewrite Hobjs1. apply In_insertObjective.
    left. reflexivity. }
  destruct (select_outcome (objectives w) newId w1 Hready Hhas)
    as (Ha & (o & cur & Hin & Ho & Hcur & Hfind) & Hsub & Hmap & Hdocs
        & Hstats & _).
  { intros o Hin Hc Hne. rewrite Hobjs1 in Hin.
    apply In_insertObjective in Hin. destruct Hin as [-> | Hin].
    - cbn in Hne. congruence.
    - exists o. auto. }
  { intros c Hc. apply hasObjective_In. exists c.
    split; [|reflexivity]. rewrite Hobjs1. apply In_insertObjective.
    right. assumption. }
  split.
  { rewrite Hfind, Hcur. f_equal. f_equal.
    rewrite Hobjs1 in Hin. apply In_insertObjective in Hin.
    destruct Hin as [-> | Hin]; [reflexivity|].
    exfalso. exact (hasObjective_false _ _ _ Hfresh Hin Ho). }
  split; [assumption|]. split.
  { intros o' Hin'. rewrite Hmap. apply in_map.
    rewrite Hobjs1. apply In_insertObjective. right. assumption. }
  split; [assumption|]. split; assumption.
Qed.

(** ** Completing objectives *)

Lemma checkAchievements_wallet objs ty v s :
  level (checkAchievements str_ge_num objs ty v s) = level s /\
  xp (checkAchievements str_ge_num objs ty v s) = xp s /\
  xpToNextLevel (checkAchievements str_ge_num objs ty v s)
  = xpToNextLevel s /\
  gold (checkAchievements str_ge_num objs ty v s) = gold s.
Proof.
  apply sameProgress_wallet. apply checkAchievements_frame.
Qed.

(** The accepting path of [handleCompleteObjective], state and all. *)
Lemma handleCompleteObjective_done oid w o :
  ready w = true ->
  find (fun obj => String.eqb (Objective.id obj) oid) (objectives w) = Some o ->
  Objective.totalProgress o <= Objective.currentProgress o ->
  0 < xpToNextLevel (playerStats w) ->
  exists s1,
    addXp str_ge_num (objectives w) (Objective.xpReward o) (playerStats w)
    = Some s1 /\
    gold s1 = gold (playerStats w) /\
    xpToNextLevel (playerStats w) <= xpToNextLevel s1 /\
    handleCompleteObjective str_ge_num oid w
    = Some ({| ready := ready w;
               objectives :=
                 updateObjectiveDoc oid markCompleted (objectives w);
               subtasks := [];
               subtaskDocs := deleteSubtaskDocs oid (subtaskDocs w);
               playerStats :=
                 checkAchievements str_ge_num (objectives w)
                   "objectiveCompleted" (JsString (Objective.id o))
                   (addGold (Objective.xpReward o * 2) s1) |},
            Some (MsgObjectiveCompleted (Objective.name o)
                    (Objective.xpReward o) (Objective.xpReward o * 2))).
Proof.
  intros Hready Hfind Hge Hn.
  destruct (addXp_wallet str_ge_num (objectives w) (Objective.xpReward o)
              (playerStats w) Hn) as (s1 & H1 & Hg & Hmono).
  exists s1. split; [assumption|]. split; [assumption|].
  split; [assumption|].
  unfold handleCompleteObjective. rewrite Hready, Hfind. cbn [negb].
  destruct (Z.ltb_spec (Objective.currentProgress o)
              (Objective.totalProgress o)); [lia|].
  rewrite H1. reflexivity.
Qed.

(** X12: [handleCompleteObjective] does not look at [isCompleted]:
    called again on the objective it has just completed it accepts
    again and grants the reward a second time. *)
Theorem handleCompleteObjective_repeats oid w o :
  ready w = true ->
  find (fun obj => String.eqb (Objective.id obj) oid) (objectives w) = Some o ->
  Objective.totalProgress o <= Objective.currentProgress o ->
  0 < xpToNextLevel (playerStats w) ->
  exists w1 w2 m1,
    handleCompleteObjective str_ge_num oid w = Some (w1, m1) /\
    find (fun obj => String.eqb (Objective.id obj) oid) (objectives w1)
    = Some (markCompleted o) /\
    handleCompleteObjective str_ge_num oid w1
    = Some (w2, Some (MsgObjectiveCompleted (Objective.name o)
                        (Objective.xpReward o) (Objective.xpReward o * 2))) /\
    gold (playerStats w1)
    = gold (playerStats w) + 2 * Objective.xpReward o /\
    gold (playerStats w2)
    = gold (playerStats w) + 4 * Objective.xpReward o.
Proof.
  intros Hready Hfind Hge Hn.
  destruct (handleCompleteObjective_done oid w o Hready Hfind Hge Hn)
    as (s1 & _ & Hg1 & Hm1 & E1).
  set (w1 := {| ready := ready w;
                objectives :=
                  updateObjectiveDoc oid markCompleted (objectives w);
                subtasks := [];
                subtaskDocs := deleteSubtaskDocs oid (subtaskDocs w);
                playerStats :=
                  checkAchievements str_ge_num (objectives w)
                    "objectiveCompleted" (JsString (Objective.id o))
                    (addGold (Objective.xpReward o * 2) s1) |}) in *.
  assert (Hfind1 : find (fun obj => String.eqb (Objective.id obj) oid)
                        (objectives w1) = Some (markCompleted o)).
  { subst w1. cbn [objectives].
    rewrite find_updateObjectiveDoc_id by reflexivity.
    rewrite Hfind. reflexivity. }
  destruct (checkAchievements_wallet (objectives w) "objectiveCompleted"
              (JsString (Objective.id o))
              (addGold (Objective.xpReward o * 2) s1))
    as (_ & _ & Hnx & Hgd).
  assert (Hgold1 : gold (playerStats w1)
                   = gold (playerStats w) + 2 * Objective.xpReward o).
  { subst w1. cbn [playerStats]. rewrite Hgd.
    cbn [addGold with_gold gold]. lia. }
  assert (Hn1 : 0 < xpToNextLevel (playerStats w1)).
  { subst w1. cbn [playerStats]. rewrite Hnx.
    cbn [addGold with_gold xpToNextLevel]. lia. }
  destruct (handleCompleteObjective_done oid w1 (markCompleted o)
              Hready Hfind1 Hge Hn1)
    as (s2 & _ & Hg2 & _ & E2).
  eexists. eexists. eexists.
  split; [exact E1|]. split; [exact Hfind1|]. split; [exact E2|].
  split; [exact Hgold1|].
  cbn [playerStats].
  destruct (checkAchievements_wallet (objectives w1) "objectiveCompleted"
              (JsString (Objective.id (markCompleted o)))
              (addGold (Objective.xpReward (markCompleted o) * 2) s2))
    as (_ & _ & _ & Hgd2).
  rewrite Hgd2. cbn [addGold with_gold gold markCompleted Objective.xpReward].
  rewrite Hg2, Hgold1. lia.
Qed.

(** ** Toggling, continued *)

(** The completing path of [handleToggleSubtaskComplete], state and
    all. *)
Lemma toggle_complete_exact today yesterdayString sid w cur st :
  settled w cur st sid ->
  0 < xpToNextLevel (playerStats w) ->
  exists s1,
    addXp str_ge_num (objectives w) (Subtask.xpReward st) (playerStats w)
    = Some s1 /\
    gold s1 = gold (playerStats w) /\
    xpToNextLevel (playerStats w) <= xpToNextLevel s1 /\
    handleToggleSubtaskComplete str_ge_num today yesterdayString sid false w
    = Some ({| ready := ready w;
               objectives :=
                 updateObjectiveDoc (Objective.id cur)
                   (withProgress
                      (Z.min (Objective.currentProgress cur
                              + Subtask.progressContribution st)
                             (Objective.totalProgress cur)))
                   (objectives w);
               subtasks :=
                 subtasksOf (Objective.id cur)
                   (updateSubtaskDoc (Objective.id cur) sid
                      (withIsCompleted true) (subtaskDocs w));
               subtaskDocs :=
                 updateSubtaskDoc (Objective.id cur) sid
                   (withIsCompleted true) (subtaskDocs w);
               playerStats :=
                 checkDailyStreak str_ge_num (objectives w) today
                   yesterdayString (lastStreakDate (playerStats w))
                   (checkAchievements str_ge_num (objectives w)
                      "subtaskCompleted" (JsString (Subtask.id st))
                      (addGold (Subtask.goldReward st) s1)) |},
            Some (MsgSubtaskCompleted (Subtask.progressContribution st)
                    (Subtask.xpReward st) (Subtask.goldReward st))).
Proof.
  intros (Hready & Hcur & Hsync & Hfind) Hn.
  destruct (addXp_wallet str_ge_num (objectives w) (Subtask.xpReward st)
              (playerStats w) Hn) as (s1 & H1 & Hg & Hmono).
  exists s1. split; [assumption|]. split; [assumption|].
  split; [assumption|].
  unfold handleToggleSubtaskComplete.
  rewrite Hready, Hcur, Hfind. cbn [negb]. rewrite H1. reflexivity.
Qed.

(** X13: a toggle in either direction leaves the progress of the
    current objective within [0 .. totalProgress], given that it was
    there and the subtask's contribution is not negative. *)
Theorem toggle_keeps_progress_in_range today yesterdayString sid w cur st b :
  settled w cur st sid ->
  0 <= Objective.currentProgress cur ->
  Objective.currentProgress cur <= Objective.totalProgress cur ->
  0 <= Subtask.progressContribution st ->
  0 < xpToNextLevel (playerStats w) ->
  exists w' m cur',
    handleToggleSubtaskComplete str_ge_num today yesterdayString sid b w
    = Some (w', m) /\
    currentObjective w' = Some cur' /\
    Objective.id cur' = Objective.id cur /\
    Objective.totalProgress cur' = Objective.totalProgress cur /\
    0 <= Objective.currentProgress cur' /\
    Objective.currentProgress cur' <= Objective.totalProgress cur'.
Proof.
  intros Hset Hlo Hhi Hk Hn. destruct b.
  - destruct (toggle_undo str_ge_num today yesterdayString sid w cur st Hset)
      as (w2 & m & T & (_ & Hc & _) & _).
    eexists. eexists. eexists. split; [exact T|]. split; [exact Hc|].
    cbn [withProgress Objective.id Objective.totalProgress
           Objective.currentProgress].
    repeat split; lia.
  - destruct (toggle_complete str_ge_num today yesterdayString sid w cur st
                Hset Hn)
      as (w1 & m & s1 & T & (_ & Hc & _) & _).
    eexists. eexists. eexists. split; [exact T|]. split; [exact Hc|].
    cbn [withProgress Objective.id Objective.totalProgress
           Objective.currentProgress].
    repeat split; lia.
Qed.

(** X14: marking a subtask complete and then incomplete restores the
    gold and the subtask's flag, and the XP when there was no level-up;
    the progress comes back only if the completion was not capped at
    [totalProgress]: otherwise the objective ends below where it
    started. *)
Theorem toggle_complete_then_undo
  today1 yesterday1 today2 yesterday2 sid w cur st :
  settled w cur st sid ->
  0 <= Objective.currentProgress cur ->
  0 <= Subtask.progressContribution st ->
  0 <= gold (playerStats w) ->
  0 < xpToNextLevel (playerStats w) ->
  exists w1 w2 m1 m2 cur2,
    handleToggleSubtaskComplete str_ge_num today1 yesterday1 sid false w
    = Some (w1, m1) /\
    handleToggleSubtaskComplete str_ge_num today2 yesterday2 sid true w1
    = Some (w2, m2) /\
    currentObjective w2 = Some cur2 /\
    Objective.currentProgress cur2 <= Objective.currentProgress cur /\
    (Objective.currentProgress cur + Subtask.progressContribution st
     <= Objective.totalProgress cur ->
     Objective.currentProgress cur2 = Objective.currentProgress cur) /\
    (Objective.totalProgress cur
     < Objective.currentProgress cur + Subtask.progressContribution st ->
     0 < Objective.currentProgress cur ->
     Objective.currentProgress cur2 < Objective.currentProgress cur) /\
    gold (playerStats w2) = gold (playerStats w) /\
    find (fun s => String.eqb (Subtask.id s) sid) (subtasks w2)
    = Some (withIsCompleted false st) /\
    (0 <= xp (playerStats w) ->
     xp (playerStats w) + Subtask.xpReward st
     < xpToNextLevel (playerStats w) ->
     xp (playerStats w2) = xp (playerStats w) /\
     level (playerStats w2) = level (playerStats w)).
Proof.
  intros Hset Hcp Hk Hgold Hn.
  destruct (toggle_complete str_ge_num today1 yesterday1 sid w cur st Hset Hn)
    as (w1 & m1 & s1 & T1 & Hset1 & A1 & L1 & X1 & N1 & G1).
  destruct (toggle_undo str_ge_num today2 yesterday2 sid w1 _ _ Hset1)
    as (w2 & m2 & T2 & Hset2 & L2 & X2 & N2 & G2).
  exists w1, w2, m1, m2. eexists.
  split; [exact T1|]. split; [exact T2|].
  destruct Hset2 as (_ & C2 & _ & F2).
  split; [exact C2|].
  cbn [withProgress withIsCompleted Objective.currentProgress
         Objective.totalProgress Subtask.progressContribution
         Subtask.xpReward Subtask.goldReward] in *.
  split; [lia|]. split; [lia|]. split; [lia|]. split; [lia|].
  split; [exact F2|].
  intros Hxp Hno.
  rewrite addXp_no_levelUp in A1 by assumption.
  inversion A1; subst s1.
  cbn [with_xp with_leveling level xp xpToNextLevel] in *. lia.
Qed.

(** X15: once a completed subtask brings the progress to
    [totalProgress], [handleCompleteObjective] accepts: the player has
    the subtask's gold and twice the objective's reward in gold on top,
    the objective is completed and no longer current, and none of its
    subtask documents is left. *)
Theorem toggle_to_total_then_complete today yesterdayString sid w cur st :
  settled w cur st sid ->
  find (fun obj => String.eqb (Objective.id obj) (Objective.id cur))
       (objectives w) = Some cur ->
  Objective.totalProgress cur
  <= Objective.currentProgress cur + Subtask.progressContribution st ->
  0 < xpToNextLevel (playerStats w) ->
  exists w1 m1 w2 done,
    handleToggleSubtaskComplete str_ge_num today yesterdayString sid false w
    = Some (w1, m1) /\
    handleCompleteObjective str_ge_num (Objective.id cur) w1
    = Some (w2, Some (MsgObjectiveCompleted (Objective.name cur)
                        (Objective.xpReward cur)
                        (Objective.xpReward cur * 2))) /\
    find (fun obj => String.eqb (Objective.id obj) (Objective.id cur))
         (objectives w2) = Some done /\
    Objective.isCompleted done = true /\
    Objective.isCurrent done = false /\
    Objective.currentProgress done = Objective.totalProgress cur /\
    gold (playerStats w2)
    = gold (playerStats w) + Subtask.goldReward st
      + 2 * Objective.xpReward cur /\
    subtasksOf (Objective.id cur) (subtaskDocs w2) = [] /\
    subtasks w2 = [].
Proof.
  intros Hset Hfind Hreach Hn.
  destruct (toggle_complete_exact today yesterdayString sid w cur st Hset Hn)
    as (s1 & A1 & Hg1 & Hm1 & T1).
  match type of T1 with _ = Some (?x, _) => set (w1 := x) in * end.
  assert (Hready1 : ready w1 = true) by (destruct Hset; assumption).
  set (cur1 := withProgress
                 (Z.min (Objective.currentProgress cur
                         + Subtask.progressContribution st)
                        (Objective.totalProgress cur)) cur).
  assert (Hfind1 : find (fun obj => String.eqb (Objective.id obj)
                                      (Objective.id cur))
                        (objectives w1) = Some cur1).
  { subst w1. cbn [objectives].
    rewrite find_updateObjectiveDoc_id by reflexivity.
    rewrite Hfind. reflexivity. }
  assert (Hwal : xpToNextLevel (playerStats w1) = xpToNextLevel s1 /\
                 gold (playerStats w1)
                 = gold (playerStats w) + Subtask.goldReward st).
  { subst w1. cbn [playerStats].
    match goal with
    | |- context [checkDailyStreak ?f ?o ?t ?y ?l ?x] =>
        destruct (checkDailyStreak_wallet f o t y l x) as (_ & _ & Hnx & Hgd)
    end.
    rewrite Hnx, Hgd.
    match goal with
    | |- context [checkAchievements ?f ?o ?t ?v ?x] =>
        destruct (checkAchievements_wallet o t v x) as (_ & _ & Hnx' & Hgd')
    end.
    rewrite Hnx', Hgd'.
    cbn [addGold with_gold xpToNextLevel gold]. lia. }
  destruct Hwal as (Hnx1 & Hgold1).
  destruct (handleCompleteObjective_done (Objective.id cur) w1 cur1
              Hready1 Hfind1)
    as (s2 & _ & Hg2 & _ & E2).
  { subst cur1.
    cbn [withProgress Objective.totalProgress Objective.currentProgress].
    lia. }
  { lia. }
  eexists. eexists. eexists. exists (markCompleted cur1).
  split; [exact T1|]. split; [exact E2|].
  cbn [objectives subtaskDocs subtasks playerStats].
  split.
  { rewrite find_updateObjectiveDoc_id by reflexivity.
    rewrite Hfind1. reflexivity. }
  split; [reflexivity|]. split; [reflexivity|].
  split; [subst cur1; reflexivity || (cbn [markCompleted withProgress
            Objective.totalProgress Objective.currentProgress]; lia)|].
  split.
  { match goal with
    | |- context [checkAchievements ?f ?o ?t ?v ?x] =>
        destruct (checkAchievements_wallet o t v x) as (_ & _ & _ & Hgd2)
    end.
    rewrite Hgd2. cbn [addGold with_gold gold]. rewrite Hg2, Hgold1.
    subst cur1. cbn [withProgress Objective.xpReward]. lia. }
  split; [apply subtasksOf_deleteSubtaskDocs | reflexivity].
Qed.

(** ** Deleting *)

Lemma hasObjective_filter_out oid l :
  hasObjective oid
    (filter (fun obj => negb (String.eqb (Objective.id obj) oid)) l) = false.
Proof.
  unfold hasObjective. induction l as [|x l IH]; [reflexivity|].
  cbn [filter]. destruct (String.eqb (Objective.id x) oid) eqn:E;
    cbn [negb]; [assumption|].
  cbn [existsb]. rewrite E. assumption.
Qed.

Lemma find_none_of_hasObjective oid l :
  hasObjective oid l = false ->
  find (fun obj => String.eqb (Objective.id obj) oid) l = None.
Proof.
  unfold hasObjective. induction l as [|x l IH]; [reflexivity|].
  cbn [existsb find]. destruct (String.eqb (Objective.id x) oid);
    [discriminate | exact IH].
Qed.

(** X16: [handleDeleteObjective] removes the objective and every subtask
    document under it and nothing else: the other objectives, their
    subtask documents and the ledger stay, so no reward is taken back;
    completing the deleted id afterwards does nothing and shows
    nothing. *)
Theorem handleDeleteObjective_cascade oid w :
  ready w = true ->
  let w' := fst (handleDeleteObjective oid w) in
  hasObjective oid (objectives w') = false /\
  (forall o, In o (objectives w') <->
             In o (objectives w) /\ Objective.id o <> oid) /\
  subtasksOf oid (subtaskDocs w') = [] /\
  (forall oid', oid' <> oid ->
     subtasksOf oid' (subtaskDocs w') = subtasksOf oid' (subtaskDocs w)) /\
  playerStats w' = playerStats w /\
  handleCompleteObjective str_ge_num oid w' = Some (w', None).
Proof.
  intros Hready. cbv zeta. unfold handleDeleteObjective.
  rewrite Hready. cbn [negb fst].
  cbn [syncSubtasks withObjectives withSubtaskDocs objectives subtaskDocs
         playerStats].
  split; [apply hasObjective_filter_out|]. split.
  { intros o. rewrite filter_In. rewrite negb_true_iff, String.eqb_neq.
    reflexivity. }
  split; [apply subtasksOf_deleteSubtaskDocs|]. split.
  { intros oid' Hne. apply subtasksOf_deleteSubtaskDocs_other. assumption. }
  split; [reflexivity|].
  unfold handleCompleteObjective.
  cbn [ready objectives syncSubtasks withObjectives withSubtaskDocs].
  rewrite ?Hready. cbn [negb].
  rewrite (find_none_of_hasObjective _ _ (hasObjective_filter_out oid _)).
  reflexivity.
Qed.

Lemma find_deleted_subtask oid sid docs :
  find (fun s => String.eqb (Subtask.id s) sid)
       (subtasksOf oid
          (filter (fun d => negb (String.eqb (fst d) oid
                                  && String.eqb (Subtask.id (snd d)) sid))
                  docs)) = None.
Proof.
  unfold subtasksOf. induction docs as [|d docs IH]; [reflexivity|].
  cbn [filter].
  destruct (String.eqb (fst d) oid) eqn:E;
    destruct (String.eqb (Subtask.id (snd d)) sid) eqn:E';
    cbn [andb negb filter]; rewrite ?E; cbn [map find]; rewrite ?E';
    assumption.
Qed.

Lemma subtasksOf_delete_other oid sid oid' docs :
  oid' <> oid ->
  subtasksOf oid'
    (filter (fun d => negb (String.eqb (fst d) oid
                            && String.eqb (Subtask.id (snd d)) sid)) docs)
  = subtasksOf oid' docs.
Proof.
  intros Hne. unfold subtasksOf.
  induction docs as [|d docs IH]; [reflexivity|].
  cbn [filter].
  destruct (String.eqb (fst d) oid) eqn:E;
    destruct (String.eqb (fst d) oid') eqn:E2;
    destruct (String.eqb (Subtask.id (snd d)) sid) eqn:E';
    cbn [andb negb filter]; rewrite ?E2; cbn [map]; rewrite ?IH;
    try reflexivity.
  apply String.eqb_eq in E. apply String.eqb_eq in E2. congruence.
Qed.

(** X17: deleting a completed subtask takes nothing back: the progress
    of the objective and the whole ledger stay as the completion left
    them; the subtask is gone from the list, and a later attempt to
    toggle it does nothing. *)
Theorem handleDeleteSubtask_keeps_rewards
  today yesterdayString today' yesterday' sid b w cur st :
  settled w cur st sid ->
  0 < xpToNextLevel (playerStats w) ->
  exists w1 m1,
    handleToggleSubtaskComplete str_ge_num today yesterdayString sid false w
    = Some (w1, m1) /\
    let w2 := fst (handleDeleteSubtask sid w1) in
    objectives w2 = objectives w1 /\
    playerStats w2 = playerStats w1 /\
    find (fun s => String.eqb (Subtask.id s) sid) (subtasks w2) = None /\
    (forall oid', oid' <> Objective.id cur ->
       subtasksOf oid' (subtaskDocs w2) = subtasksOf oid' (subtaskDocs w1)) /\
    handleToggleSubtaskComplete str_ge_num today' yesterday' sid b w2
    = Some (w2, None).
Proof.
  intros Hset Hn.
  destruct (toggle_complete str_ge_num today yesterdayString sid w cur st
              Hset Hn)
    as (w1 & m1 & s1' & T1' & (Hready1 & Hcur1 & _) & _).
  exists w1, m1. split; [exact T1'|].
  cbv zeta. unfold handleDeleteSubtask. rewrite Hready1, Hcur1. cbn [fst].
  unfold syncSubtasks, currentObjective in *.
  cbn [objectives playerStats subtasks subtaskDocs withSubtaskDocs ready].
  rewrite Hcur1. cbn [withProgress Objective.id].
  split; [reflexivity|]. split; [reflexivity|].
  split; [apply find_deleted_subtask|].
  split.
  { intros oid' Hne. apply subtasksOf_delete_other. assumption. }
  unfold handleToggleSubtaskComplete, currentObjective.
  cbn [ready subtasks objectives]. rewrite Hready1, Hcur1.
  rewrite find_deleted_subtask. reflexivity.
Qed.

(** ** Punishment tasks *)

Lemma find_inserted_subtask oid st docs :
  find (fun s => String.eqb (Subtask.id s) (Subtask.id st))
       (subtasksOf oid docs) = None ->
  find (fun s => String.eqb (Subtask.id s) (Subtask.id st))
       (subtasksOf oid (insertSubtaskDoc oid st docs)) = Some st.
Proof.
  unfold subtasksOf.
  induction docs as [|d docs IH]; intros Hfresh.
  - cbn [insertSubtaskDoc filter fst]. rewrite String.eqb_refl.
    cbn [map snd find]. rewrite String.eqb_refl. reflexivity.
  - cbn [insertSubtaskDoc].
    destruct (String.eqb (fst d) oid
              && String.ltb (Subtask.id st) (Subtask.id (snd d))).
    + cbn [filter fst]. rewrite String.eqb_refl.
      cbn [map snd find]. rewrite String.eqb_refl. reflexivity.
    + cbn [filter] in *. destruct (String.eqb (fst d) oid).
      * cbn [map find] in *.
        destruct (String.eqb (Subtask.id (snd d)) (Subtask.id st));
          [discriminate | exact (IH Hfresh)].
      * exact (IH Hfresh).
Qed.

Lemma subtasksOf_insert_other oid st oid' docs :
  oid' <> oid ->
  subtasksOf oid' (insertSubtaskDoc oid st docs) = subtasksOf oid' docs.
Proof.
  intros Hne. unfold subtasksOf.
  assert (Hnew : String.eqb oid oid' = false).
  { apply String.eqb_neq. congruence. }
  induction docs as [|d docs IH].
  - cbn [insertSubtaskDoc filter fst]. rewrite Hnew. reflexivity.
  - cbn [insertSubtaskDoc].
    destruct (String.eqb (fst d) oid
              && String.ltb (Subtask.id st) (Subtask.id (snd d))).
    + cbn [filter fst]. rewrite Hnew. reflexivity.
    + cbn [filter]. destruct (String.eqb (fst d) oid'); cbn [map];
        rewrite IH; reflexivity.
Qed.

Lemma withProgress_same o :
  withProgress (Objective.currentProgress o) o = o.
Proof. destruct o; reflexivity. Qed.

(** X18: the task [handleApplyExtraTaskPunishment] adds is inert.  It is
    filed under the current objective only, and completing it leaves the
    objective (its progress too), the level, the XP and the gold exactly
    as they were before the punishment. *)
Theorem punishment_task_is_inert today yesterdayString newId w cur :
  ready w = true ->
  currentObjective w = Some cur ->
  find (fun s => String.eqb (Subtask.id s) newId)
       (subtasksOf (Objective.id cur) (subtaskDocs w)) = None ->
  Objective.currentProgress cur <= Objective.totalProgress cur ->
  0 < xpToNextLevel (playerStats w) ->
  xp (playerStats w) < xpToNextLevel (playerStats w) ->
  let w1 := handleApplyExtraTaskPunishment newId w in
  objectives w1 = objectives w /\
  playerStats w1 = playerStats w /\
  (forall oid', oid' <> Objective.id cur ->
     subtasksOf oid' (subtaskDocs w1) = subtasksOf oid' (subtaskDocs w)) /\
  find (fun s => String.eqb (Subtask.id s) newId) (subtasks w1)
  = Some (punishmentTask newId) /\
  exists w2 m,
    handleToggleSubtaskComplete str_ge_num today yesterdayString newId false w1
    = Some (w2, m) /\
    currentObjective w2 = Some cur /\
    level (playerStats w2) = level (playerStats w) /\
    xp (playerStats w2) = xp (playerStats w) /\
    xpToNextLevel (playerStats w2) = xpToNextLevel (playerStats w) /\
    gold (playerStats w2) = gold (playerStats w).
Proof.
  intros Hready Hcur Hfresh Hle Hn Hxp. cbv zeta.
  unfold handleApplyExtraTaskPunishment. rewrite Hcur, Hready.
  set (w1 := syncSubtasks (withSubtaskDocs _ w)).
  assert (Hcur1 : currentObjective w1 = Some cur) by exact Hcur.
  assert (Hsub1 : subtasks w1
                  = subtasksOf (Objective.id cur) (subtaskDocs w1)).
  { unfold w1, syncSubtasks. cbn [subtasks subtaskDocs].
    unfold currentObjective in *.
    cbn [objectives withSubtaskDocs]. rewrite Hcur. reflexivity. }
  assert (Hfind1 : find (fun s => String.eqb (Subtask.id s) newId)
                        (subtasks w1) = Some (punishmentTask newId)).
  { rewrite Hsub1.
    exact (find_inserted_subtask (Objective.id cur) (punishmentTask newId)
                                 (subtaskDocs w) Hfresh). }
  split; [reflexivity|]. split; [reflexivity|]. split.
  { intros oid' Hne. apply subtasksOf_insert_other. assumption. }
  split; [exact Hfind1|].
  assert (Hset : settled w1 cur (punishmentTask newId) newId).
  { repeat split; assumption. }
  destruct (toggle_complete str_ge_num today yesterdayString newId w1 cur
              (punishmentTask newId) Hset Hn)
    as (w2 & m & s1 & T & (_ & Hcur2 & _) & Hadd & Hl & Hx & Hnx & Hg).
  exists w2, m. split; [exact T|].
  cbn [punishmentTask Subtask.xpReward Subtask.goldReward
       Subtask.progressContribution] in *.
  change (playerStats w1) with (playerStats w) in *.
  rewrite (addXp_no_levelUp str_ge_num (objectives w1) 0 (playerStats w))
    in Hadd by lia.
  inversion Hadd; subst s1; clear Hadd.
  cbn [with_xp with_leveling level xp xpToNextLevel] in Hl, Hx, Hnx.
  split.
  { rewrite Hcur2. f_equal.
    rewrite Z.add_0_r, Z.min_l by assumption. apply withProgress_same. }
  repeat split; lia.
Qed.

(** ** Daily desire *)

Lemma checkAchievements_counts objs ty v s :
  ty <> "pomodoroCompleted" -> ty <> "dailyDesireCompleted" ->
  pomodoroCount (checkAchievements str_ge_num objs ty v s) = pomodoroCount s /\
  dailyDesireCount (checkAchievements str_ge_num objs ty v s)
  = dailyDesireCount s.
Proof.
  intros H1 H2. unfold checkAchievements.
  rewrite (bumpCounts_other ty s H1 H2). split; reflexivity.
Qed.

Lemma levelUpScans_counts objs r :
  forall s,
    pomodoroCount (levelUpScans str_ge_num objs r s) = pomodoroCount s /\
    dailyDesireCount (levelUpScans str_ge_num objs r s) = dailyDesireCount s.
Proof.
  unfold levelUpScans.
  induction r as [|k r IH]; intros s; [split; reflexivity|].
  cbn [fold_left].
  destruct (IH (checkAchievements str_ge_num objs "levelUp" (JsNumber k) s))
    as [Hp Hd].
  destruct (checkAchievements_counts objs "levelUp" (JsNumber k) s)
    as [Hp' Hd']; [discriminate | discriminate |].
  split; congruence.
Qed.

Lemma addXp_counts objs amount s s1 :
  addXp str_ge_num objs amount s = Some s1 ->
  pomodoroCount s1 = pomodoroCount s /\
  dailyDesireCount s1 = dailyDesireCount s.
Proof.
  unfold addXp.
  destruct (levelUpLoop _ _ _ _ _) as [[[[x l] n] r]|]; [|discriminate].
  intros H. inversion H; subst s1; clear H.
  exact (levelUpScans_counts objs r (with_leveling x l n s)).
Qed.

Lemma levelUp_scan_keeps_desire_locked objs v s :
  dailyDesireCount s <= 0 ->
  ~ In "firstDailyDesire" (achievements s) ->
  ~ In "firstDailyDesire"
       (achievements (checkAchievements str_ge_num objs "levelUp" v s)).
Proof.
  intros Hc Hno Hin. unfold checkAchievements in Hin.
  cbn [achievements with_achievements] in Hin.
  apply scan_In in Hin.
  destruct Hin as [Hin | (row & Hrow & Hid & Hu)]; [contradiction|].
  rewrite bumpCounts_other in Hu by discriminate.
  unfold allAchievements in Hrow. cbn [In] in Hrow.
  repeat (destruct Hrow as [<- | Hrow];
          [cbn in Hid; try discriminate Hid|]); [|contradiction].
  unfold isUnlocked in Hu. cbn in Hu.
  destruct (Z.geb_spec (dailyDesireCount s) 1); [lia | discriminate].
Qed.

Lemma levelUpScans_keep_desire_locked objs r :
  forall s,
    dailyDesireCount s <= 0 ->
    ~ In "firstDailyDesire" (achievements s) ->
    ~ In "firstDailyDesire"
         (achievements (levelUpScans str_ge_num objs r s)).
Proof.
  unfold levelUpScans.
  induction r as [|k r IH]; intros s Hc Hno; [exact Hno|].
  cbn [fold_left]. apply IH.
  - destruct (checkAchievements_counts objs "levelUp" (JsNumber k) s)
      as [_ Hd]; [discriminate | discriminate |].
    rewrite Hd. exact Hc.
  - apply levelUp_scan_keeps_desire_locked; assumption.
Qed.

Lemma addXp_keeps_desire_locked objs amount s s1 :
  addXp str_ge_num objs amount s = Some s1 ->
  dailyDesireCount s <= 0 ->
  ~ In "firstDailyDesire" (achievements s) ->
  ~ In "firstDailyDesire" (achievements s1).
Proof.
  unfold addXp.
  destruct (levelUpLoop _ _ _ _ _) as [[[[x l] n] r]|]; [|discriminate].
  intros H Hc Hno. inversion H; subst s1; clear H.
  exact (levelUpScans_keep_desire_locked objs r (with_leveling x l n s)
           Hc Hno).
Qed.

Lemma applyStatsSnapshot_whole s prevStats :
  applyStatsSnapshot (statsDocOf s) prevStats = s.
Proof. destruct s; reflexivity. Qed.

(** X19: a daily desire pays once, and on a ready store its completion
    is not counted.  [handleCompleteDailyDesire] marks the desire
    completed and writes a ledger with exactly its gold and its XP on
    top; the scan that counts the completion runs on the local ledger
    only, so that the written document, and the ledger once the listener
    has delivered it, hold the same [dailyDesireCount] as before, and
    ["firstDailyDesire"] stays locked when it was locked at a count of
    0.  Completing the desire again changes and writes nothing, and no
    further desire is generated on its day, whatever the generation
    service answers. *)
Theorem handleCompleteDailyDesire_once response a d :
  ready (world a) = true ->
  dailyDesire a = Some d ->
  DailyDesire.completed d = false ->
  0 < xpToNextLevel (playerStats (world a)) ->
  exists a1 written,
    handleCompleteDailyDesire str_ge_num a
    = Some (a1, Some (statsDocOf written)) /\
    dailyDesire a1 = Some (withCompleted true d) /\
    dailyDesireCount (playerStats (world a1))
    = dailyDesireCount (playerStats (world a)) + 1 /\
    gold written
    = gold (playerStats (world a)) + DailyDesire.goldReward d /\
    grantsXp (DailyDesire.xpReward d) (playerStats (world a)) written /\
    dailyDesireCount written = dailyDesireCount (playerStats (world a)) /\
    pomodoroCount written = pomodoroCount (playerStats (world a)) /\
    (dailyDesireCount (playerStats (world a)) <= 0 ->
     ~ In "firstDailyDesire" (achievements (playerStats (world a))) ->
     ~ In "firstDailyDesire" (achievements written)) /\
    let a2 := statsListener (statsDocOf written) a1 in
    playerStats (world a2) = written /\
    dailyDesire a2 = Some (withCompleted true d) /\
    handleCompleteDailyDesire str_ge_num a2 = Some (a2, None) /\
    generateDailyDesire (DailyDesire.date d) response a2 = a2.
Proof.
  intros Hready Hd Hc Hn.
  destruct (addXp_total str_ge_num (objectives (world a))
              (DailyDesire.xpReward d) (playerStats (world a)) Hn)
    as (s1 & x' & l' & n' & r' & Hadd & _ & Hsame).
  apply sameProgress_wallet in Hsame.
  cbn [with_leveling gold] in Hsame. destruct Hsame as (_ & _ & _ & Hg1).
  destruct (addXp_counts _ _ _ _ Hadd) as [Hp1 Hd1].
  pose proof (addXp_grantsXp str_ge_num _ _ _ _ Hadd) as Hxp.
  unfold handleCompleteDailyDesire at 1. rewrite Hd, Hc. cbn [negb].
  cbv zeta. rewrite Hadd. unfold updatePlayerStats. rewrite Hready.
  set (s2 := addGold (DailyDesire.goldReward d) s1).
  eexists. exists s2. split; [reflexivity|].
  cbn [world dailyDesire setPlayerStats playerStats].
  split; [reflexivity|]. split.
  { unfold checkAchievements, bumpCounts. cbn.
    exact (f_equal (fun z => z + 1) Hd1). }
  split.
  { unfold s2, addGold. cbn [gold with_gold]. rewrite Hg1. reflexivity. }
  split.
  { apply (grantsXp_same _ _ s1); [exact Hxp | reflexivity ..]. }
  split; [exact Hd1|]. split; [exact Hp1|]. split.
  { intros Hzero Hlocked.
    exact (addXp_keeps_desire_locked _ _ _ _ Hadd Hzero Hlocked). }
  unfold statsListener.
  cbn [world dailyDesire setPlayerStats playerStats ready].
  split; [apply applyStatsSnapshot_whole|]. split; [reflexivity|]. split.
  { unfold handleCompleteDailyDesire.
    cbn [dailyDesire withCompleted DailyDesire.completed negb].
    reflexivity. }
  unfold generateDailyDesire. cbn [world ready setPlayerStats dailyDesire].
  rewrite Hready. cbn [negb withCompleted DailyDesire.date].
  rewrite String.eqb_refl. reflexivity.
Qed.

(** ** New objectives *)

Lemma find_insertObjective n l :
  hasObjective (Objective.id n) l = false ->
  find (fun obj => String.eqb (Objective.id obj) (Objective.id n))
       (insertObjective n l) = Some n.
Proof.
  unfold hasObjective.
  induction l as [|x l IH]; intros Hfresh; cbn [insertObjective].
  - cbn [find]. rewrite String.eqb_refl. reflexivity.
  - cbn [existsb] in Hfresh. apply Bool.orb_false_iff in Hfresh.
    destruct Hfresh as [Hx Hl].
    destruct (String.ltb (Objective.id n) (Objective.id x)).
    + cbn [find]. rewrite String.eqb_refl. reflexivity.
    + cbn [find]. rewrite Hx. exact (IH Hl).
Qed.

Lemma find_current_insertObjective n l :
  Objective.isCurrent n = false ->
  find Objective.isCurrent (insertObjective n l)
  = find Objective.isCurrent l.
Proof.
  intros Hn. induction l as [|x l IH]; cbn [insertObjective].
  - cbn [find]. rewrite Hn. reflexivity.
  - destruct (String.ltb (Objective.id n) (Objective.id x)).
    + cbn [find]. rewrite Hn. reflexivity.
    + cbn [find]. rewrite IH. reflexivity.
Qed.

(** X20: an objective saved from the form under a fresh id, with a
    [totalProgress] that is not negative, starts at progress 0 below its
    total, carries 50, 100 or 150 XP as reward, does not displace the
    current objective, costs and pays nothing, and cannot be completed
    yet: [handleCompleteObjective] on it only answers that it is not
    finished and leaves the state alone. *)
Theorem new_objective_not_completable newId objectiveData w :
  ready w = true ->
  hasObjective newId (objectives w) = false ->
  0 <= dataTotalProgress objectiveData ->
  exists w1 m,
    handleSaveObjective newId None objectiveData w = (w1, Some newId, m) /\
    find (fun obj => String.eqb (Objective.id obj) newId) (objectives w1)
    = Some (newObjective newId objectiveData) /\
    0 < Objective.totalProgress (newObjective newId objectiveData) /\
    In (Objective.xpReward (newObjective newId objectiveData)) [50; 100; 150] /\
    currentObjective w1 = currentObjective w /\
    playerStats w1 = playerStats w /\
    subtaskDocs w1 = subtaskDocs w /\
    handleCompleteObjective str_ge_num newId w1
    = Some (w1, Some MsgNotYetCompleted).
Proof.
  intros Hready Hfresh Htot.
  unfold handleSaveObjective. rewrite Hready. cbn [negb].
  set (w1 := syncSubtasks (withObjectives _ w)).
  exists w1, (MsgText "¡Objetivo creado con éxito!").
  split; [reflexivity|].
  assert (Hfind : find (fun obj => String.eqb (Objective.id obj) newId)
                       (objectives w1)
                  = Some (newObjective newId objectiveData)).
  { exact (find_insertObjective (newObjective newId objectiveData)
                                (objectives w) Hfresh). }
  assert (Hpos : 0 < Objective.totalProgress
                       (newObjective newId objectiveData)).
  { cbn [newObjective Objective.totalProgress]. unfold orDefault.
    destruct (Z.eqb_spec (dataTotalProgress objectiveData) 0); lia. }
  split; [exact Hfind|]. split; [exact Hpos|]. split.
  { cbn [newObjective Objective.xpReward].
    destruct (String.eqb (dataDifficulty objectiveData) "Difícil") eqn:E1;
      destruct (String.eqb (dataDifficulty objectiveData) "Épico") eqn:E2;
      cbn; try tauto.
    apply String.eqb_eq in E1. apply String.eqb_eq in E2.
    rewrite E1 in E2. discriminate. }
  split.
  { unfold currentObjective.
    exact (find_current_insertObjective (newObjective newId objectiveData)
                                        (objectives w) eq_refl). }
  split; [reflexivity|]. split; [reflexivity|].
  unfold handleCompleteObjective.
  change (ready w1) with (ready w). rewrite Hready. cbn [negb].
  rewrite Hfind.
  destruct (Z.ltb_spec
              (Objective.currentProgress (newObjective newId objectiveData))
              (Objective.totalProgress (newObjective newId objectiveData)))
    as [_|Hge]; [reflexivity|].
  cbn [newObjective Objective.currentProgress Objective.totalProgress]
    in Hge, Hpos.
  lia.
Qed.

End MoreProperties.

(** * Sample runs of the further properties *)

(** A fresh ledger is within the ranges; 250 XP (two level-ups) and the other updaters keep it there. *)
Lemma ledger_ranges_kept_witness :
  (ledgerOk (playerStats freshWorld)) /\
  (0 <= 250) /\
  ((exists s', addXp idsAreNaN [] 250 (playerStats freshWorld) = Some s' /\
                 ledgerOk s') /\
     ledgerOk (deductXp 250 (playerStats freshWorld)) /\
     ledgerOk (addGold 250 (playerStats freshWorld)) /\
     ledgerOk (deductGold 250 (playerStats freshWorld)) /\
     ledgerOk (addVitality 250 (playerStats freshWorld)) /\
     ledgerOk (deductVitality 250 (playerStats freshWorld)) /\
     ledgerOk (playerStats (handleApplyMinorPunishment freshWorld)) /\
     ledgerOk (playerStats (handleApplyGoldFinePunishment freshWorld))).
Proof.
  assert (h1 : ledgerOk (playerStats freshWorld))
    by side_condition.
  assert (h2 : 0 <= 250)
    by side_condition.
  exact (conj h1 (conj h2 (ledger_ranges_kept idsAreNaN [] 250 freshWorld h1 h2))).
Defined.

(** 90 XP and then 120 XP on the initial ledger, against 210 XP at once. *)
Lemma addXp_additive_witness :
  (0 < xpToNextLevel initialPlayerStats) /\
  (0 <= 120) /\
  (exists s1,
       addXp idsAreNaN [] 90 initialPlayerStats = Some s1 /\
       addXp idsAreNaN [] 120 s1 = addXp idsAreNaN [] (90 + 120) initialPlayerStats).
Proof.
  assert (h1 : 0 < xpToNextLevel initialPlayerStats)
    by side_condition.
  assert (h2 : 0 <= 120)
    by side_condition.
  exact (conj h1 (conj h2 (addXp_additive idsAreNaN [] 90 120 initialPlayerStats h1 h2))).
Defined.

(** Two samples on 2024-01-05, the day the history already has an entry for. *)
Lemma updateSatisfaction_last_wins_witness :
  ((List.length (satisfactionHistory ledgerOneSample) <= 30)%nat) /\
  (updateSatisfaction "2024-01-05" 80 (updateSatisfaction "2024-01-05" 20 ledgerOneSample)
     = updateSatisfaction "2024-01-05" 80 ledgerOneSample).
Proof.
  assert (h1 : (List.length (satisfactionHistory ledgerOneSample) <= 30)%nat)
    by side_condition.
  exact (conj h1 (updateSatisfaction_last_wins "2024-01-05" 20 80 ledgerOneSample h1)).
Defined.

(** One hour less a second after a claim. *)
Lemma countdown_matches_claim_witness :
  (0 < xpToNextLevel (playerStats (claimedWorld 1000))) /\
  (match getTimeUntilNextDailyReward 3600000 (claimedWorld 1000) with
     | Some (hours, minutes) =>
         handleClaimDailyReward idsAreNaN 3600000 (claimedWorld 1000)
         = Some ((claimedWorld 1000), MsgNextRewardIn hours minutes)
     | None =>
         exists w',
           handleClaimDailyReward idsAreNaN 3600000 (claimedWorld 1000)
           = Some (w', MsgDailyRewardClaimed 25 15) /\
           lastDailyRewardClaim (playerStats w') = Some 3600000
     end).
Proof.
  assert (h1 : 0 < xpToNextLevel (playerStats (claimedWorld 1000)))
    by side_condition.
  exact (conj h1 (countdown_matches_claim idsAreNaN 3600000 (claimedWorld 1000) h1)).
Defined.

(** One hour after a claim made at clock reading 1000. *)
Lemma countdown_bounds_witness :
  (lastDailyRewardClaim (playerStats (claimedWorld 1000)) = Some 1000) /\
  (1000 <> 0) /\
  (0 <= 3601000 - 1000) /\
  (3601000 - 1000 < twentyFourHours) /\
  (exists hours minutes,
       getTimeUntilNextDailyReward 3601000 (claimedWorld 1000) = Some (hours, minutes) /\
       0 <= hours <= 24 /\ 0 <= minutes <= 59 /\
       hours * 3600000 + minutes * 60000 <= twentyFourHours - (3601000 - 1000) /\
       twentyFourHours - (3601000 - 1000) < hours * 3600000 + minutes * 60000 + 60000 /\
       (hours = 24 <-> 3601000 = 1000)).
Proof.
  assert (h1 : lastDailyRewardClaim (playerStats (claimedWorld 1000)) = Some 1000)
    by side_condition.
  assert (h2 : 1000 <> 0)
    by side_condition.
  assert (h3 : 0 <= 3601000 - 1000)
    by side_condition.
  assert (h4 : 3601000 - 1000 < twentyFourHours)
    by side_condition.
  exact (conj h1 (conj h2 (conj h3 (conj h4 (countdown_bounds 3601000 (claimedWorld 1000) 1000 h1 h2 h3 h4))))).
Defined.

(** Selecting the side quest while the first quest is current. *)
Lemma handleSelectObjective_one_current_witness :
  (ready (twoQuestWorld initialPlayerStats) = true) /\
  (hasObjective "obj2" (objectives (twoQuestWorld initialPlayerStats)) = true) /\
  (let w' := fst (handleSelectObjective "obj2" (twoQuestWorld initialPlayerStats)) in
     (forall o, In o (objectives w') ->
                (Objective.isCurrent o = true <-> Objective.id o = "obj2")) /\
     (exists o cur,
         In o (objectives (twoQuestWorld initialPlayerStats)) /\ Objective.id o = "obj2" /\
         cur = withCurrent true o /\ currentObjective w' = Some cur) /\
     subtasks w' = subtasksOf "obj2" (subtaskDocs (twoQuestWorld initialPlayerStats)) /\
     map (withCurrent false) (objectives w')
     = map (withCurrent false) (objectives (twoQuestWorld initialPlayerStats)) /\
     subtaskDocs w' = subtaskDocs (twoQuestWorld initialPlayerStats) /\
     playerStats w' = playerStats (twoQuestWorld initialPlayerStats) /\
     (NoDup (map Objective.id (objectives (twoQuestWorld initialPlayerStats))) ->
      List.length (filter Objective.isCurrent (objectives w')) = 1%nat)).
Proof.
  assert (h1 : ready (twoQuestWorld initialPlayerStats) = true)
    by side_condition.
  assert (h2 : hasObjective "obj2" (objectives (twoQuestWorld initialPlayerStats)) = true)
    by side_condition.
  exact (conj h1 (conj h2 (handleSelectObjective_one_current "obj2" (twoQuestWorld initialPlayerStats) h1 h2))).
Defined.

(** Selecting an id that no objective has, in either component. *)
Lemma handleSelectObjective_versions_agree_witness :
  (ready (twoQuestWorld initialPlayerStats) = true) /\
  (objectives (fst (handleSelectObjective "obj7" (twoQuestWorld initialPlayerStats)))
     = map (fun o => withCurrent (String.eqb (Objective.id o) "obj7") o)
           (objectives (twoQuestWorld initialPlayerStats)) /\
     objectives (fst (Slim.handleSelectObjective "obj7" (twoQuestWorld initialPlayerStats)))
     = objectives (fst (handleSelectObjective "obj7" (twoQuestWorld initialPlayerStats))) /\
     snd (handleSelectObjective "obj7" (twoQuestWorld initialPlayerStats))
     = MsgText (if hasObjective "obj7" (objectives (twoQuestWorld initialPlayerStats))
                then "¡Objetivo actual seleccionado!"
                else "Error al seleccionar el objetivo.") /\
     snd (Slim.handleSelectObjective "obj7" (twoQuestWorld initialPlayerStats))
     = Some (MsgText "Objetivo actual seleccionado.")).
Proof.
  assert (h1 : ready (twoQuestWorld initialPlayerStats) = true)
    by side_condition.
  exact (conj h1 (handleSelectObjective_versions_agree "obj7" (twoQuestWorld initialPlayerStats) h1)).
Defined.

(** Starting an epic quest while the first quest is current. *)
Lemma handleStartQuest_current_witness :
  (ready (twoQuestWorld initialPlayerStats) = true) /\
  (hasObjective "obj9" (objectives (twoQuestWorld initialPlayerStats)) = false) /\
  (let w' := handleStartQuest "obj9" epicQuestData (twoQuestWorld initialPlayerStats) in
     currentObjective w'
     = Some (withCurrent true (newObjective "obj9" epicQuestData)) /\
     (forall o, In o (objectives w') ->
                (Objective.isCurrent o = true <-> Objective.id o = "obj9")) /\
     (forall o, In o (objectives (twoQuestWorld initialPlayerStats)) ->
                In (withCurrent false o) (map (withCurrent false) (objectives w'))) /\
     subtasks w' = subtasksOf "obj9" (subtaskDocs (twoQuestWorld initialPlayerStats)) /\
     subtaskDocs w' = subtaskDocs (twoQuestWorld initialPlayerStats) /\
     playerStats w' = playerStats (twoQuestWorld initialPlayerStats)).
Proof.
  assert (h1 : ready (twoQuestWorld initialPlayerStats) = true)
    by side_condition.
  assert (h2 : hasObjective "obj9" (objectives (twoQuestWorld initialPlayerStats)) = false)
    by side_condition.
  exact (conj h1 (conj h2 (handleStartQuest_current "obj9" epicQuestData (twoQuestWorld initialPlayerStats) h1 h2))).
Defined.

(** The quest at full progress, completed twice. *)
Lemma handleCompleteObjective_repeats_witness :
  (ready (questWorld 100 initialPlayerStats) = true) /\
  (find (fun obj => String.eqb (Objective.id obj) "obj1") (objectives (questWorld 100 initialPlayerStats)) = Some (quest 100)) /\
  (Objective.totalProgress (quest 100) <= Objective.currentProgress (quest 100)) /\
  (0 < xpToNextLevel (playerStats (questWorld 100 initialPlayerStats))) /\
  (exists w1 w2 m1,
       handleCompleteObjective idsAreNaN "obj1" (questWorld 100 initialPlayerStats) = Some (w1, m1) /\
       find (fun obj => String.eqb (Objective.id obj) "obj1") (objectives w1)
       = Some (markCompleted (quest 100)) /\
       handleCompleteObjective idsAreNaN "obj1" w1
       = Some (w2, Some (MsgObjectiveCompleted (Objective.name (quest 100))
                           (Objective.xpReward (quest 100)) (Objective.xpReward (quest 100) * 2))) /\
       gold (playerStats w1)
       = gold (playerStats (questWorld 100 initialPlayerStats)) + 2 * Objective.xpReward (quest 100) /\
       gold (playerStats w2)
       = gold (playerStats (questWorld 100 initialPlayerStats)) + 4 * Objective.xpReward (quest 100)).
Proof.
  assert (h1 : ready (questWorld 100 initialPlayerStats) = true)
    by side_condition.
  assert (h2 : find (fun obj => String.eqb (Objective.id obj) "obj1") (objectives (questWorld 100 initialPlayerStats)) = Some (quest 100))
    by side_condition.
  assert (h3 : Objective.totalProgress (quest 100) <= Objective.currentProgress (quest 100))
    by side_condition.
  assert (h4 : 0 < xpToNextLevel (playerStats (questWorld 100 initialPlayerStats)))
    by side_condition.
  exact (conj h1 (conj h2 (conj h3 (conj h4 (handleCompleteObjective_repeats idsAreNaN "obj1" (questWorld 100 initialPlayerStats) (quest 100) h1 h2 h3 h4))))).
Defined.

(** A subtask worth 10 completed at progress 95 of 100. *)
Lemma toggle_keeps_progress_in_range_witness :
  (settled (questWorld 95 initialPlayerStats) (quest 95) task "st1") /\
  (0 <= Objective.currentProgress (quest 95)) /\
  (Objective.currentProgress (quest 95) <= Objective.totalProgress (quest 95)) /\
  (0 <= Subtask.progressContribution task) /\
  (0 < xpToNextLevel (playerStats (questWorld 95 initialPlayerStats))) /\
  (exists w' m cur',
       handleToggleSubtaskComplete idsAreNaN "2024-05-02" "2024-05-01" "st1" false (questWorld 95 initialPlayerStats)
       = Some (w', m) /\
       currentObjective w' = Some cur' /\
       Objective.id cur' = Objective.id (quest 95) /\
       Objective.totalProgress cur' = Objective.totalProgress (quest 95) /\
       0 <= Objective.currentProgress cur' /\
       Objective.currentProgress cur' <= Objective.totalProgress cur').
Proof.
  assert (h1 : settled (questWorld 95 initialPlayerStats) (quest 95) task "st1")
    by side_condition.
  assert (h2 : 0 <= Objective.currentProgress (quest 95))
    by side_condition.
  assert (h3 : Objective.currentProgress (quest 95) <= Objective.totalProgress (quest 95))
    by side_condition.
  assert (h4 : 0 <= Subtask.progressContribution task)
    by side_condition.
  assert (h5 : 0 < xpToNextLevel (playerStats (questWorld 95 initialPlayerStats)))
    by side_condition.
  exact (conj h1 (conj h2 (conj h3 (conj h4 (conj h5 (toggle_keeps_progress_in_range idsAreNaN "2024-05-02" "2024-05-01" "st1" (questWorld 95 initialPlayerStats) (quest 95) task false h1 h2 h3 h4 h5)))))).
Defined.

(** A subtask worth 10 completed at progress 95 of 100, then undone. *)
Lemma toggle_complete_then_undo_witness :
  (settled (questWorld 95 initialPlayerStats) (quest 95) task "st1") /\
  (0 <= Objective.currentProgress (quest 95)) /\
  (0 <= Subtask.progressContribution task) /\
  (0 <= gold (playerStats (questWorld 95 initialPlayerStats))) /\
  (0 < xpToNextLevel (playerStats (questWorld 95 initialPlayerStats))) /\
  (exists w1 w2 m1 m2 cur2,
       handleToggleSubtaskComplete idsAreNaN "2024-05-02" "2024-05-01" "st1" false (questWorld 95 initialPlayerStats)
       = Some (w1, m1) /\
       handleToggleSubtaskComplete idsAreNaN "2024-05-02" "2024-05-01" "st1" true w1
       = Some (w2, m2) /\
       currentObjective w2 = Some cur2 /\
       Objective.currentProgress cur2 <= Objective.currentProgress (quest 95) /\
       (Objective.currentProgress (quest 95) + Subtask.progressContribution task
        <= Objective.totalProgress (quest 95) ->
        Objective.currentProgress cur2 = Objective.currentProgress (quest 95)) /\
       (Objective.totalProgress (quest 95)
        < Objective.currentProgress (quest 95) + Subtask.progressContribution task ->
        0 < Objective.currentProgress (quest 95) ->
        Objective.currentProgress cur2 < Objective.currentProgress (quest 95)) /\
       gold (playerStats w2) = gold (playerStats (questWorld 95 initialPlayerStats)) /\
       find (fun s => String.eqb (Subtask.id s) "st1") (subtasks w2)
       = Some (withIsCompleted false task) /\
       (0 <= xp (playerStats (questWorld 95 initialPlayerStats)) ->
        xp (playerStats (questWorld 95 initialPlayerStats)) + Subtask.xpReward task
        < xpToNextLevel (playerStats (questWorld 95 initialPlayerStats)) ->
        xp (playerStats w2) = xp (playerStats (questWorld 95 initialPlayerStats)) /\
        level (playerStats w2) = level (playerStats (questWorld 95 initialPlayerStats)))).
Proof.
  assert (h1 : settled (questWorld 95 initialPlayerStats) (quest 95) task "st1")
    by side_condition.
  assert (h2 : 0 <= Objective.currentProgress (quest 95))
    by side_condition.
  assert (h3 : 0 <= Subtask.progressContribution task)
    by side_condition.
  assert (h4 : 0 <= gold (playerStats (questWorld 95 initialPlayerStats)))
    by side_condition.
  assert (h5 : 0 < xpToNextLevel (playerStats (questWorld 95 initialPlayerStats)))
    by side_condition.
  exact (conj h1 (conj h2 (conj h3 (conj h4 (conj h5 (toggle_complete_then_undo idsAreNaN "2024-05-02" "2024-05-01" "2024-05-02" "2024-05-01" "st1" (questWorld 95 initialPlayerStats) (quest 95) task h1 h2 h3 h4 h5)))))).
Defined.

(** The last subtask of the quest, then the quest itself. *)
Lemma toggle_to_total_then_complete_witness :
  (settled (questWorld 90 initialPlayerStats) (quest 90) task "st1") /\
  (find (fun obj => String.eqb (Objective.id obj) (Objective.id (quest 90))) (objectives (questWorld 90 initialPlayerStats)) = Some (quest 90)) /\
  (Objective.totalProgress (quest 90) <= Objective.currentProgress (quest 90) + Subtask.progressContribution task) /\
  (0 < xpToNextLevel (playerStats (questWorld 90 initialPlayerStats))) /\
  (exists w1 m1 w2 done,
       handleToggleSubtaskComplete idsAreNaN "2024-05-02" "2024-05-01" "st1" false (questWorld 90 initialPlayerStats)
       = Some (w1, m1) /\
       handleCompleteObjective idsAreNaN (Objective.id (quest 90)) w1
       = Some (w2, Some (MsgObjectiveCompleted (Objective.name (quest 90))
                           (Objective.xpReward (quest 90))
                           (Objective.xpReward (quest 90) * 2))) /\
       find (fun obj => String.eqb (Objective.id obj) (Objective.id (quest 90)))
            (objectives w2) = Some done /\
       Objective.isCompleted done = true /\
       Objective.isCurrent done = false /\
       Objective.currentProgress done = Objective.totalProgress (quest 90) /\
       gold (playerStats w2)
       = gold (playerStats (questWorld 90 initialPlayerStats)) + Subtask.goldReward task
         + 2 * Objective.xpReward (quest 90) /\
       subtasksOf (Objective.id (quest 90)) (subtaskDocs w2) = [] /\
       subtasks w2 = []).
Proof.
  assert (h1 : settled (questWorld 90 initialPlayerStats) (quest 90) task "st1")
    by side_condition.
  assert (h2 : find (fun obj => String.eqb (Objective.id obj) (Objective.id (quest 90))) (objectives (questWorld 90 initialPlayerStats)) = Some (quest 90))
    by side_condition.
  assert (h3 : Objective.totalProgress (quest 90) <= Objective.currentProgress (quest 90) + Subtask.progressContribution task)
    by side_condition.
  assert (h4 : 0 < xpToNextLevel (playerStats (questWorld 90 initialPlayerStats)))
    by side_condition.
  exact (conj h1 (conj h2 (conj h3 (conj h4 (toggle_to_total_then_complete idsAreNaN "2024-05-02" "2024-05-01" "st1" (questWorld 90 initialPlayerStats) (quest 90) task h1 h2 h3 h4))))).
Defined.

(** Deleting the first of two quests. *)
Lemma handleDeleteObjective_cascade_witness :
  (ready (twoQuestWorld initialPlayerStats) = true) /\
  (let w' := fst (handleDeleteObjective "obj1" (twoQuestWorld initialPlayerStats)) in
     hasObjective "obj1" (objectives w') = false /\
     (forall o, In o (objectives w') <->
                In o (objectives (twoQuestWorld initialPlayerStats)) /\ Objective.id o <> "obj1") /\
     subtasksOf "obj1" (subtaskDocs w') = [] /\
     (forall oid', oid' <> "obj1" ->
        subtasksOf oid' (subtaskDocs w') = subtasksOf oid' (subtaskDocs (twoQuestWorld initialPlayerStats))) /\
     playerStats w' = playerStats (twoQuestWorld initialPlayerStats) /\
     handleCompleteObjective idsAreNaN "obj1" w' = Some (w', None)).
Proof.
  assert (h1 : ready (twoQuestWorld initialPlayerStats) = true)
    by side_condition.
  exact (conj h1 (handleDeleteObjective_cascade idsAreNaN "obj1" (twoQuestWorld initialPlayerStats) h1)).
Defined.

(** The subtask of the quest completed, then deleted. *)
Lemma handleDeleteSubtask_keeps_rewards_witness :
  (settled (questWorld 0 initialPlayerStats) (quest 0) task "st1") /\
  (0 < xpToNextLevel (playerStats (questWorld 0 initialPlayerStats))) /\
  (exists w1 m1,
       handleToggleSubtaskComplete idsAreNaN "2024-05-02" "2024-05-01" "st1" false (questWorld 0 initialPlayerStats)
       = Some (w1, m1) /\
       let w2 := fst (handleDeleteSubtask "st1" w1) in
       objectives w2 = objectives w1 /\
       playerStats w2 = playerStats w1 /\
       find (fun s => String.eqb (Subtask.id s) "st1") (subtasks w2) = None /\
       (forall oid', oid' <> Objective.id (quest 0) ->
          subtasksOf oid' (subtaskDocs w2) = subtasksOf oid' (subtaskDocs w1)) /\
       handleToggleSubtaskComplete idsAreNaN "2024-05-03" "2024-05-02" "st1" true w2
       = Some (w2, None)).
Proof.
  assert (h1 : settled (questWorld 0 initialPlayerStats) (quest 0) task "st1")
    by side_condition.
  assert (h2 : 0 < xpToNextLevel (playerStats (questWorld 0 initialPlayerStats)))
    by side_condition.
  exact (conj h1 (conj h2 (handleDeleteSubtask_keeps_rewards idsAreNaN "2024-05-02" "2024-05-01" "2024-05-03" "2024-05-02" "st1" true (questWorld 0 initialPlayerStats) (quest 0) task h1 h2))).
Defined.

(** A punishment task added to the quest under the id st5, then completed. *)
Lemma punishment_task_is_inert_witness :
  (ready (questWorld 0 initialPlayerStats) = true) /\
  (currentObjective (questWorld 0 initialPlayerStats) = Some (quest 0)) /\
  (find (fun s => String.eqb (Subtask.id s) "st5") (subtasksOf (Objective.id (quest 0)) (subtaskDocs (questWorld 0 initialPlayerStats))) = None) /\
  (Objective.currentProgress (quest 0) <= Objective.totalProgress (quest 0)) /\
  (0 < xpToNextLevel (playerStats (questWorld 0 initialPlayerStats))) /\
  (xp (playerStats (questWorld 0 initialPlayerStats)) < xpToNextLevel (playerStats (questWorld 0 initialPlayerStats))) /\
  (let w1 := handleApplyExtraTaskPunishment "st5" (questWorld 0 initialPlayerStats) in
     objectives w1 = objectives (questWorld 0 initialPlayerStats) /\
     playerStats w1 = playerStats (questWorld 0 initialPlayerStats) /\
     (forall oid', oid' <> Objective.id (quest 0) ->
        subtasksOf oid' (subtaskDocs w1) = subtasksOf oid' (subtaskDocs (questWorld 0 initialPlayerStats))) /\
     find (fun s => String.eqb (Subtask.id s) "st5") (subtasks w1)
     = Some (punishmentTask "st5") /\
     exists w2 m,
       handleToggleSubtaskComplete idsAreNaN "2024-05-02" "2024-05-01" "st5" false w1
       = Some (w2, m) /\
       currentObjective w2 = Some (quest 0) /\
       level (playerStats w2) = level (playerStats (questWorld 0 initialPlayerStats)) /\
       xp (playerStats w2) = xp (playerStats (questWorld 0 initialPlayerStats)) /\
       xpToNextLevel (playerStats w2) = xpToNextLevel (playerStats (questWorld 0 initialPlayerStats)) /\
       gold (playerStats w2) = gold (playerStats (questWorld 0 initialPlayerStats))).
Proof.
  assert (h1 : ready (questWorld 0 initialPlayerStats) = true)
    by side_condition.
  assert (h2 : currentObjective (questWorld 0 initialPlayerStats) = Some (quest 0))
    by side_condition.
  assert (h3 : find (fun s => String.eqb (Subtask.id s) "st5") (subtasksOf (Objective.id (quest 0)) (subtaskDocs (questWorld 0 initialPlayerStats))) = None)
    by side_condition.
  assert (h4 : Objective.currentProgress (quest 0) <= Objective.totalProgress (quest 0))
    by side_condition.
  assert (h5 : 0 < xpToNextLevel (playerStats (questWorld 0 initialPlayerStats)))
    by side_condition.
  assert (h6 : xp (playerStats (questWorld 0 initialPlayerStats)) < xpToNextLevel (playerStats (questWorld 0 initialPlayerStats)))
    by side_condition.
  exact (conj h1 (conj h2 (conj h3 (conj h4 (conj h5 (conj h6 (punishment_task_is_inert idsAreNaN "2024-05-02" "2024-05-01" "st5" (questWorld 0 initialPlayerStats) (quest 0) h1 h2 h3 h4 h5 h6))))))).
Defined.

(** An epic objective saved next to two others. *)
Lemma new_objective_not_completable_witness :
  (ready (twoQuestWorld initialPlayerStats) = true) /\
  (hasObjective "obj9" (objectives (twoQuestWorld initialPlayerStats)) = false) /\
  (0 <= dataTotalProgress epicQuestData) /\
  (exists w1 m,
       handleSaveObjective "obj9" None epicQuestData (twoQuestWorld initialPlayerStats) = (w1, Some "obj9", m) /\
       find (fun obj => String.eqb (Objective.id obj) "obj9") (objectives w1)
       = Some (newObjective "obj9" epicQuestData) /\
       0 < Objective.totalProgress (newObjective "obj9" epicQuestData) /\
       In (Objective.xpReward (newObjective "obj9" epicQuestData)) [50; 100; 150] /\
       currentObjective w1 = currentObjective (twoQuestWorld initialPlayerStats) /\
       playerStats w1 = playerStats (twoQuestWorld initialPlayerStats) /\
       subtaskDocs w1 = subtaskDocs (twoQuestWorld initialPlayerStats) /\
       handleCompleteObjective idsAreNaN "obj9" w1
       = Some (w1, Some MsgNotYetCompleted)).
Proof.
  assert (h1 : ready (twoQuestWorld initialPlayerStats) = true)
    by side_condition.
  assert (h2 : hasObjective "obj9" (objectives (twoQuestWorld initialPlayerStats)) = false)
    by side_condition.
  assert (h3 : 0 <= dataTotalProgress epicQuestData)
    by side_condition.
  exact (conj h1 (conj h2 (conj h3 (new_objective_not_completable idsAreNaN "obj9" epicQuestData (twoQuestWorld initialPlayerStats) h1 h2 h3)))).
Defined.

(** A balance of 30: 40 gold added and deducted, 20 deducted and
    refunded, 40 deducted and refunded. *)
Lemma gold_add_deduct_witness :
  (0 <= gold (ledgerWithGold 30) /\
   deductGold 40 (addGold 40 (ledgerWithGold 30)) = ledgerWithGold 30) /\
  ((0 <= 20 /\ 20 <= gold (ledgerWithGold 30)) /\
   addGold 20 (deductGold 20 (ledgerWithGold 30)) = ledgerWithGold 30) /\
  (gold (ledgerWithGold 30) < 40 /\
   gold (addGold 40 (deductGold 40 (ledgerWithGold 30))) = 40).
Proof.
  assert (h1 : 0 <= gold (ledgerWithGold 30)) by (cbn; lia).
  assert (h2 : 0 <= 20) by lia.
  assert (h3 : 20 <= gold (ledgerWithGold 30)) by (cbn; lia).
  assert (h4 : gold (ledgerWithGold 30) < 40) by (cbn; lia).
  exact (conj (conj h1 (proj1 (gold_add_deduct 40 (ledgerWithGold 30)) h1))
           (conj (conj (conj h2 h3)
                       (proj1 (proj2 (gold_add_deduct 20 (ledgerWithGold 30)))
                              h2 h3))
                 (conj h4
                       (proj2 (proj2 (gold_add_deduct 40 (ledgerWithGold 30)))
                              h4)))).
Defined.

(** The desire of 2024-05-02 completed on a fresh store: 3 gold and
    5 XP are written, the count shows 1 until the listener delivers the
    written ledger, whose count is 0 and whose achievements are empty;
    a second completion changes nothing. *)
Lemma handleCompleteDailyDesire_once_witness :
  ready (world (desireState "2024-05-02")) = true /\
  dailyDesire (desireState "2024-05-02") = Some (waterDesire "2024-05-02") /\
  DailyDesire.completed (waterDesire "2024-05-02") = false /\
  0 < xpToNextLevel (playerStats (world (desireState "2024-05-02"))) /\
  exists a1 written,
    handleCompleteDailyDesire idsAreNaN (desireState "2024-05-02")
    = Some (a1, Some (statsDocOf written)) /\
    dailyDesireCount (playerStats (world a1)) = 1 /\
    gold written = 3 /\
    dailyDesireCount written = 0 /\
    ~ In "firstDailyDesire" (achievements written) /\
    playerStats (world (statsListener (statsDocOf written) a1)) = written /\
    handleCompleteDailyDesire idsAreNaN
      (statsListener (statsDocOf written) a1)
    = Some (statsListener (statsDocOf written) a1, None).
Proof.
  assert (h1 : ready (world (desireState "2024-05-02")) = true)
    by reflexivity.
  assert (h2 : dailyDesire (desireState "2024-05-02")
               = Some (waterDesire "2024-05-02")) by reflexivity.
  assert (h3 : DailyDesire.completed (waterDesire "2024-05-02") = false)
    by reflexivity.
  assert (h4 : 0 < xpToNextLevel
                     (playerStats (world (desireState "2024-05-02"))))
    by reflexivity.
  destruct (handleCompleteDailyDesire_once idsAreNaN (Some parsedWalk)
              (desireState "2024-05-02") (waterDesire "2024-05-02")
              h1 h2 h3 h4)
    as (a1 & written & Hrun & _ & Hlocal & Hgold & _ & Hcount & _ & Hlocked
        & Hecho & _ & Hagain & _).
  assert (h5 : dailyDesireCount
                 (playerStats (world (desireState "2024-05-02"))) <= 0)
    by discriminate.
  assert (h6 : ~ In "firstDailyDesire"
                    (achievements
                       (playerStats (world (desireState "2024-05-02")))))
    by (intros []).
  refine (conj h1 (conj h2 (conj h3 (conj h4 _)))).
  exists a1, written.
  split; [exact Hrun|]. split; [exact Hlocal|]. split; [exact Hgold|].
  split; [exact Hcount|]. split; [exact (Hlocked h5 h6)|].
  split; [exact Hecho | exact Hagain].
Defined.

(** A streak scan carrying 7 on the ledger with one achievement. *)
Lemma checkAchievements_unlocks_witness :
  (NoDup (achievements ledgerEightPomodoros) /\
   NoDup (achievements
            (checkAchievements idsAreNaN [] "streak" (JsNumber 7)
                               ledgerEightPomodoros))) /\
  ((JsNumber 7 = JsNumber 7 /\ 5 <= 7) /\
   In "level5"
      (achievements
         (checkAchievements idsAreNaN [] "streak" (JsNumber 7)
                            ledgerEightPomodoros))).
Proof.
  assert (h1 : NoDup (achievements ledgerEightPomodoros)).
  { constructor; [intros [] | constructor]. }
  assert (h2 : JsNumber 7 = JsNumber 7) by reflexivity.
  assert (h3 : 5 <= 7) by lia.
  exact (conj
           (conj h1
                 (proj1 (proj2 (checkAchievements_unlocks idsAreNaN []
                                  "streak" (JsNumber 7)
                                  ledgerEightPomodoros)) h1))
           (conj (conj h2 h3)
                 (proj2 (proj2 (checkAchievements_unlocks idsAreNaN []
                                  "streak" (JsNumber 7)
                                  ledgerEightPomodoros)) 7 h2 h3))).
Defined.
